(** * NeXtSRGAN: the generator and discriminator architectures

    A shallow embedding of [NeXtSRGAN/modules/nextsrgan.py].

    The module builds two Keras models out of framework layers.  The
    embedding keeps the code of the module as it is written and gives
    the framework primitives it calls the meaning the framework
    documents for them:

    - Python exceptions are an error result ([res]); layer objects are
      created in a state monad ([M]) whose state is the list of layers
      instantiated so far, which also supplies every layer its identity;
    - the [call] methods of the custom layers are written once, over an
      interface of tensor operations ([Ops]), as Keras runs them both on
      symbolic tensors (static shapes) and on eager tensors (values);
    - static shapes follow the framework's shape inference, with
      [None] for an unknown dimension;
    - eager tensors hold IEEE-754 binary32 numbers, with the arithmetic
      of [SpecFloat] and the flushing of subnormal numbers to zero that
      the framework's kernels run with;
    - a built model can be called: the graph of symbolic tensors is
      evaluated on the shape of the tensor that is fed. *)

From Stdlib Require Import ZArith List String Bool Lia FunctionalExtensionality.
From Stdlib Require Import Floats.SpecFloat.
From stdpp Require Import base option list gmap strings pretty.

Set Warnings "-register-all".
Open Scope Z_scope.

(** ** Exceptions *)

Inductive exn :=
| KeyError (key : string)
| ValueError
| InvalidArgumentError.

Inductive res (A : Type) :=
| Ok (a : A)
| Raise (e : exn).
Arguments Ok {A} a.
Arguments Raise {A} e.

Global Instance res_ret : MRet res := fun A a => Ok a.
Global Instance res_bind : MBind res := fun A B f m =>
  match m with Ok a => f a | Raise e => Raise e end.
Global Instance res_fmap : FMap res := fun A B f m =>
  match m with Ok a => Ok (f a) | Raise e => Raise e end.

(** ** Layer instantiation

    Every layer object that the code of the module constructs, by
    calling a layer class, [Input], [Sequential] or [Model], is
    recorded, in order, with its class and the name it was given.  The
    position of a layer in this record is its identity ([uid]): two
    layers with the same configuration are still different objects,
    with weights of their own.  (The wrappers that the framework puts
    around operators on symbolic tensors, and the input layer it gives
    a [Sequential] when it is first called, are no constructor calls
    of the module and are not in the record.) *)

Record created := { cr_class : string; cr_name : option string }.

Definition M (A : Type) : Type := list created -> res A * list created.

Global Instance M_ret : MRet M := fun A a s => (Ok a, s).
Global Instance M_bind : MBind M := fun A B f m s =>
  match m s with
  | (Ok a, s') => f a s'
  | (Raise e, s') => (Raise e, s')
  end.

Definition lift {A} (r : res A) : M A := fun s => (r, s).

Definition new_layer (cls : string) (name : option string) : M nat :=
  fun s => (Ok (length s), s ++ [{| cr_class := cls; cr_name := name |}]).

(** [d[k]] on a [dict] with string keys. *)
Definition getitem (d : gmap string Z) (k : string) : M Z :=
  lift (match d !! k with Some v => Ok v | None => Raise (KeyError k) end).

(** [[f(i) for i in range(n)]] *)
Fixpoint for_range {A} (f : Z -> M A) (start : Z) (n : nat) : M (list A) :=
  match n with
  | O => mret []
  | S n' => a ← f start; r ← for_range f (start + 1) n'; mret (a :: r)
  end.

(** ** Numbers

    A Python [float] is a binary64 number, a tensor element a binary32
    number; both are [spec_float]s, told apart by the precision their
    operations round to. *)

Definition pyfloat := spec_float.
Definition float32 := spec_float.

Definition py_mul : pyfloat -> pyfloat -> pyfloat := SFmul 53 1024.

(** The framework's kernels run with the processor's flush-to-zero and
    denormals-are-zero modes set: a subnormal operand counts as a zero
    of its sign, and a result in the subnormal range (below [2^-126] in
    magnitude) is replaced by a zero of its sign.

    A sum in that range is exact, so it is flushed as it is.  A product
    is rounded to 24 bits first, as if exponents had no lower bound
    (binary64's range holds every product of two binary32 numbers),
    and it is the rounded product that is flushed when it is below
    [2^-126] and that overflows to an infinity from [2^128] on: the
    processor tells a tiny result after rounding. *)
Definition is_subnormal (v : float32) : bool :=
  match v with
  | S754_finite _ m e => Zdigits2 (Zpos m) + e <? -125
  | _ => false
  end.

Definition flush (v : float32) : float32 :=
  match v with
  | S754_finite s _ _ => if is_subnormal v then S754_zero s else v
  | _ => v
  end.

Definition narrow (v : spec_float) : float32 :=
  match v with
  | S754_finite s m e =>
      let d := Zdigits2 (Zpos m) + e in
      if d <? -125 then S754_zero s
      else if 128 <? d then S754_infinity s
      else v
  | _ => v
  end.

Definition f32_add (x y : float32) : float32 :=
  flush (SFadd 24 128 (flush x) (flush y)).
Definition f32_mul (x y : float32) : float32 :=
  narrow (SFmul 24 1024 (flush x) (flush y)).

(** Rounding of a Python [float] to the element type of a tensor. *)
Definition f32_of_pyfloat (v : pyfloat) : float32 :=
  match v with
  | S754_finite s m e => binary_round 24 128 s m e
  | _ => v
  end.

(** The literals of the module. *)
Definition py_0 : pyfloat := S754_zero false.                         (* 0. *)
Definition py_1 : pyfloat := S754_finite false 4503599627370496 (-52). (* 1.0 *)
Definition py_2 : pyfloat := S754_finite false 4503599627370496 (-51). (* 2. *)
Definition py_0_1 : pyfloat := S754_finite false 7205759403792794 (-56). (* 0.1 *)
Definition py_0_2 : pyfloat := S754_finite false 7205759403792794 (-55). (* 0.2 *)
Definition py_0_9 : pyfloat := S754_finite false 8106479329266893 (-53). (* 0.9 *)
Definition py_1e_5 : pyfloat := S754_finite false 5902958103587057 (-69). (* 1e-5 *)
Definition py_5e_4 : pyfloat := S754_finite false 4611686018427388 (-63). (* 5e-4 *)

Definition is_finite (v : spec_float) : bool :=
  match v with
  | S754_zero _ | S754_finite _ _ _ => true
  | S754_infinity _ | S754_nan => false
  end.

Definition is_zero (v : spec_float) : bool :=
  match v with S754_zero _ => true | _ => false end.

(** ** Regularisation and initialisation policies *)

(** Modelled from the spec: [tf.keras.regularizers.l2] is the
    framework's; the spec describes what it returns as "an L2 penalty
    policy with coefficient [weights_decay]", a "penalty proportional to
    squared weight magnitude".  The policy keeps the coefficient in the
    element type of the weights, and its penalty on a weight tensor is
    the coefficient times the squared magnitude of the weights.  That
    magnitude is the result [sq_norm] of a reduction of the framework
    over the elements; how the reduction orders and scales its sum is
    the framework's and differs between its releases, so the penalty
    takes it as it comes. *)
Record L2 := { l2 : float32 }.

Definition regularizers_l2 (l : pyfloat) : L2 := {| l2 := f32_of_pyfloat l |}.

Definition L2_call (sq_norm : list float32 -> float32) (r : L2)
    (w : list float32) : float32 :=
  f32_mul (l2 r) (sq_norm w).

(** One such reduction: the squares of the elements, summed in storage
    order. *)
Definition reduce_sum (xs : list float32) : float32 :=
  fold_left f32_add xs (S754_zero false).

Definition square (x : float32) : float32 := f32_mul x x.

Definition sum_of_squares (w : list float32) : float32 :=
  reduce_sum (map square w).

Definition _regularizer (weights_decay : pyfloat) : L2 :=
  regularizers_l2 weights_decay.

Inductive fan_mode := fan_in | fan_out | fan_avg.
Inductive distribution := truncated_normal | untruncated_normal | uniform.

Inductive initializer :=
| glorot_uniform
| zeros
| VarianceScaling (scale : pyfloat) (mode : fan_mode)
    (distr : distribution) (seed : option Z).

Definition _kernel_init (scale : pyfloat) (seed : option Z) : initializer :=
  let scale := py_mul py_2 scale in
  VarianceScaling scale fan_in truncated_normal seed.

(** ** Static shapes *)

Definition dim := option Z.
Definition shape := list dim.

Definition dim_mul (d : dim) (k : Z) : dim :=
  match d with Some n => Some (n * k) | None => None end.

(** [tf.shape(t)[i]] as far as it is known. *)
Definition shape_at (s : shape) (i : nat) : dim :=
  match s !! i with Some d => d | None => None end.

Inductive padding_mode := same | valid.

(** The framework's [conv_output_length] (no dilation). *)
Definition conv_output_length (input_length : dim) (filter_size : Z)
    (padding : padding_mode) (stride : Z) : dim :=
  match input_length with
  | None => None
  | Some n =>
      let output_length :=
        match padding with
        | same => n
        | valid => n - filter_size + 1
        end in
      Some ((output_length + stride - 1) / stride)
  end.

(** Two static dimensions that must agree. *)
Definition merge_dim (a b : dim) : res dim :=
  match a, b with
  | None, _ => Ok b
  | _, None => Ok a
  | Some x, Some y => if x =? y then Ok a else Raise ValueError
  end.

Definition add_dim (a b : dim) : dim :=
  match a, b with
  | Some x, Some y => Some (x + y)
  | _, _ => None
  end.

(** [tf.concat] of two shapes of the same rank; [axis] counts down to
    the dimension that is summed. *)
Fixpoint concat2_shape (axis : Z) (a b : shape) : res shape :=
  match a, b with
  | [], [] => Ok []
  | x :: a', y :: b' =>
      d ← (if axis =? 0 then Ok (add_dim x y) else merge_dim x y);
      r ← concat2_shape (axis - 1) a' b';
      Ok (d :: r)
  | _, _ => Raise ValueError
  end.

Definition normalize_axis (axis : Z) (rank : nat) : res Z :=
  let r := Z.of_nat rank in
  let ax := if axis <? 0 then axis + r else axis in
  if (0 <=? ax) && (ax <? r) then Ok ax else Raise ValueError.

Definition concat_shape (xs : list shape) (axis : Z) : res shape :=
  match xs with
  | [] => Raise ValueError
  | x :: rest =>
      ax ← normalize_axis axis (length x);
      foldl (fun acc y => a ← acc; concat2_shape ax a y) (Ok x) rest
  end.

(** Broadcasting of two dimensions, then of two shapes aligned at
    their last dimension. *)
Definition broadcast_dim (x y : dim) : res dim :=
  match x, y with
  | Some a, Some b =>
      if a =? 1 then Ok y
      else if b =? 1 then Ok x
      else if a =? b then Ok x
      else Raise ValueError
  | Some a, None => if 1 <? a then Ok x else Ok None
  | None, Some b => if 1 <? b then Ok y else Ok None
  | None, None => Ok None
  end.

Fixpoint broadcast_rev (a b : shape) : res shape :=
  match a, b with
  | [], _ => Ok b
  | _, [] => Ok a
  | x :: a', y :: b' =>
      d ← broadcast_dim x y; r ← broadcast_rev a' b'; Ok (d :: r)
  end.

Definition broadcast_shape (a b : shape) : res shape :=
  r ← broadcast_rev (rev a) (rev b); Ok (rev r).

(** ** Framework layers *)

(** [tfa.layers.GELU] *)
Module GELU.
Record t := { approximate : bool; uid : nat }.

Definition __init__ : M t :=
  uid ← new_layer "GELU" None;
  mret {| approximate := true; uid := uid |}.
End GELU.

(** [tf.keras.layers.Conv2D], with the arguments the module sets.  The
    constructor rejects a number of filters that is not positive. *)
Module Conv2D.
Record t := {
  filters : Z;
  kernel_size : Z;
  strides : Z;
  padding : padding_mode;
  activation : option GELU.t;
  use_bias : bool;
  kernel_initializer : initializer;
  bias_initializer : initializer;
  kernel_regularizer : option L2;
  name : option string;
  uid : nat
}.

Definition __init__ (filters kernel_size strides : Z)
    (padding : padding_mode) (activation : option GELU.t)
    (use_bias : bool) (kernel_initializer bias_initializer : initializer)
    (kernel_regularizer : option L2) (name : option string) : M t :=
  _ ← lift (if filters <=? 0 then Raise ValueError else Ok tt);
  uid ← new_layer "Conv2D" name;
  mret {| filters := filters; kernel_size := kernel_size;
          strides := strides; padding := padding;
          activation := activation; use_bias := use_bias;
          kernel_initializer := kernel_initializer;
          bias_initializer := bias_initializer;
          kernel_regularizer := kernel_regularizer;
          name := name; uid := uid |}.

(** Static shape of the output of a layer that has not been called
    before: a batch of images in, a batch of images with [filters]
    channels out; the channel count of the input has to be known, and
    a tensor that is not a batch of images is rejected.  The activation
    keeps the shape. *)
Definition output_shape (self : t) (x : shape) : res shape :=
  match x with
  | [b; h; w; c] =>
      match c with
      | None => Raise ValueError
      | Some _ =>
          Ok [b;
              conv_output_length h (kernel_size self) (padding self)
                (strides self);
              conv_output_length w (kernel_size self) (padding self)
                (strides self);
              Some (filters self)]
      end
  | _ => Raise ValueError
  end.
End Conv2D.

(** [tf.keras.layers.Dense] *)
Module Dense.
Record t := {
  units : Z;
  kernel_regularizer : option L2;
  name : option string;
  uid : nat
}.

Definition __init__ (units : Z) (kernel_regularizer : option L2)
    (name : option string) : M t :=
  uid ← new_layer "Dense" name;
  mret {| units := units; kernel_regularizer := kernel_regularizer;
          name := name; uid := uid |}.

Fixpoint output_shape_aux (units : Z) (x : shape) : res shape :=
  match x with
  | [] => Raise ValueError
  | [d] => match d with None => Raise ValueError | Some _ => Ok [Some units] end
  | b :: x' => r ← output_shape_aux units x'; Ok (b :: r)
  end.

(** The last dimension has to be known and is replaced by [units];
    a tensor of rank below 2 is rejected. *)
Definition output_shape (self : t) (x : shape) : res shape :=
  match x with
  | [] | [_] => Raise ValueError
  | _ => output_shape_aux (units self) x
  end.
End Dense.

(** ** Tensor operations

    What the [call] methods of the custom layers ask of a tensor,
    symbolic or eager. *)
Class Ops (T : Type) := {
  Conv2D_call : Conv2D.t -> T -> res T;
  tf_concat : list T -> Z -> res T;
  tf_multiply : T -> T -> res T;
  tf_add : T -> T -> res T;
  convert_to_tensor : pyfloat -> T
}.

(** [x * v] and [v * x] for a tensor [x] and a Python number [v]. *)
Definition mul_r {T} `{ops : Ops T} (x : T) (v : pyfloat) : res T :=
  tf_multiply x (convert_to_tensor v).
Definition mul_l {T} `{ops : Ops T} (v : pyfloat) (x : T) : res T :=
  tf_multiply (convert_to_tensor v) x.

(** Static shapes as tensors. *)
Global Instance shape_ops : Ops shape := {|
  Conv2D_call := Conv2D.output_shape;
  tf_concat := concat_shape;
  tf_multiply := broadcast_shape;
  tf_add := broadcast_shape;
  convert_to_tensor := fun _ => []
|}.

(** ** Residual Dense Block *)
Module ResDenseBlock_5C.
Record t := {
  res_beta : pyfloat;
  conv1 : Conv2D.t;
  conv2 : Conv2D.t;
  conv3 : Conv2D.t;
  conv4 : Conv2D.t;
  conv5 : Conv2D.t;
  name : string;
  uid : nat
}.

Definition __init__ (nf gc : Z) (res_beta wd : pyfloat) (name : string)
    : M t :=
  uid ← new_layer "ResDenseBlock_5C" (Some name);
  let gelu_f := GELU.__init__ in
  let _Conv2DLayer := fun (filters : Z) (activation : GELU.t) =>
    Conv2D.__init__ filters 3 1 same (Some activation) true
      (_kernel_init py_0_1 None) zeros (Some (_regularizer wd)) None in
  a1 ← gelu_f; conv1 ← _Conv2DLayer gc a1;
  a2 ← gelu_f; conv2 ← _Conv2DLayer gc a2;
  a3 ← gelu_f; conv3 ← _Conv2DLayer gc a3;
  a4 ← gelu_f; conv4 ← _Conv2DLayer gc a4;
  a5 ← gelu_f; conv5 ← _Conv2DLayer nf a5;
  mret {| res_beta := res_beta; conv1 := conv1; conv2 := conv2;
          conv3 := conv3; conv4 := conv4; conv5 := conv5;
          name := name; uid := uid |}.

Definition call {T} `{ops : Ops T} (self : t) (x : T) : res T :=
  x1 ← Conv2D_call (conv1 self) x;
  c2 ← tf_concat [x; x1] 3;
  x2 ← Conv2D_call (conv2 self) c2;
  c3 ← tf_concat [x; x1; x2] 3;
  x3 ← Conv2D_call (conv3 self) c3;
  c4 ← tf_concat [x; x1; x2; x3] 3;
  x4 ← Conv2D_call (conv4 self) c4;
  c5 ← tf_concat [x; x1; x2; x3; x4] 3;
  x5 ← Conv2D_call (conv5 self) c5;
  m ← mul_r x5 (res_beta self);
  tf_add m x.
End ResDenseBlock_5C.

(** ** Residual-in-Residual Dense Block *)
Module ResInResDenseBlock.
Record t := {
  res_beta : pyfloat;
  rdb_1 : ResDenseBlock_5C.t;
  rdb_2 : ResDenseBlock_5C.t;
  rdb_3 : ResDenseBlock_5C.t;
  name : string;
  uid : nat
}.

Definition __init__ (nf gc : Z) (res_beta wd : pyfloat) (name : string)
    : M t :=
  uid ← new_layer "ResInResDenseBlock" (Some name);
  rdb_1 ← ResDenseBlock_5C.__init__ nf gc res_beta wd "RDB5C";
  rdb_2 ← ResDenseBlock_5C.__init__ nf gc res_beta wd "RDB5C";
  rdb_3 ← ResDenseBlock_5C.__init__ nf gc res_beta wd "RDB5C";
  mret {| res_beta := res_beta; rdb_1 := rdb_1; rdb_2 := rdb_2;
          rdb_3 := rdb_3; name := name; uid := uid |}.

Definition call {T} `{ops : Ops T} (self : t) (x : T) : res T :=
  out ← ResDenseBlock_5C.call (rdb_1 self) x;
  out ← ResDenseBlock_5C.call (rdb_2 self) out;
  out ← ResDenseBlock_5C.call (rdb_3 self) out;
  m ← mul_r out (res_beta self);
  tf_add m x.
End ResInResDenseBlock.

(** ** Batch normalisation, gated on trainability *)
Module BatchNormalization.
Record t := {
  axis : Z;
  momentum : pyfloat;
  epsilon : pyfloat;
  center : bool;
  scale : bool;
  name : option string;
  trainable : bool;
  uid : nat
}.

(** A new layer is trainable until its owner says otherwise. *)
Definition __init__ (axis : Z) (momentum epsilon : pyfloat)
    (center scale : bool) (name : option string) : M t :=
  uid ← new_layer "BatchNormalization" name;
  mret {| axis := axis; momentum := momentum; epsilon := epsilon;
          center := center; scale := scale; name := name;
          trainable := true; uid := uid |}.

Definition set_trainable (self : t) (b : bool) : t :=
  {| axis := axis self; momentum := momentum self;
     epsilon := epsilon self; center := center self;
     scale := scale self; name := name self;
     trainable := b; uid := uid self |}.

Section call.
(** The [call] of the framework's class: from the layer, its
    variables (scale, shift, moving statistics), the input and the
    training flag to the output, or an exception, and the updated
    variables. *)
Context {T V : Type}.
Variable super_call : t -> V -> T -> bool -> res T * V.

Definition call (self : t) (vars : V) (x : T) (training : option bool)
    : res T * V :=
  let training :=
    match training with
    | None => false
    | Some b => b
    end in
  let training := training && trainable self in
  super_call self vars x training.
End call.

(** Static shapes under the framework's class: the shape is kept,
    the normalised axis has to exist and be known. *)
Definition super_call_shape (self : t) (vars : unit) (x : shape)
    (training : bool) : res shape * unit :=
  (ax ← normalize_axis (axis self) (length x);
   match shape_at x (Z.to_nat ax) with
   | None => Raise ValueError
   | Some _ => Ok x
   end, tt).
End BatchNormalization.

(** ** Eager tensors

    A shape (every dimension of which is known) and an element for
    every index. *)
Record ETensor := { eshape : shape; eget : list Z -> float32 }.

Definition e_convert (v : pyfloat) : ETensor :=
  {| eshape := []; eget := fun _ => f32_of_pyfloat v |}.

(** The index into an operand of shape [s] that the index [idx] of a
    broadcast result reads. *)
Definition bcast_index (s : shape) (idx : list Z) : list Z :=
  zip_with (fun (d : dim) (i : Z) =>
              match d with
              | Some n => if n =? 1 then 0 else i
              | None => i
              end)
    s (drop (length idx - length s)%nat idx).

Definition e_binop (f : float32 -> float32 -> float32) (a b : ETensor)
    : res ETensor :=
  s ← broadcast_shape (eshape a) (eshape b);
  Ok {| eshape := s;
        eget := fun idx => f (eget a (bcast_index (eshape a) idx))
                             (eget b (bcast_index (eshape b) idx)) |}.

Definition dim_or_0 (d : dim) : Z :=
  match d with Some n => n | None => 0 end.

(** The element of a concatenation along [ax]: the operands are
    walked until the index falls inside one. *)
Fixpoint concat_get (ax : nat) (xs : list ETensor) (idx : list Z) : float32 :=
  match xs with
  | [] => S754_zero false
  | x :: rest =>
      let n := dim_or_0 (shape_at (eshape x) ax) in
      let i := match idx !! ax with Some i => i | None => 0 end in
      if i <? n then eget x idx
      else concat_get ax rest (<[ax := i - n]> idx)
  end.

Definition e_concat (xs : list ETensor) (axis : Z) : res ETensor :=
  match xs with
  | [] => Raise ValueError
  | x :: _ =>
      ax ← normalize_axis axis (length (eshape x));
      s ← concat_shape (map eshape xs) axis;
      Ok {| eshape := s; eget := concat_get (Z.to_nat ax) xs |}
  end.

(** A convolution layer computes its output from its weights; the
    eager operations take that computation, for every layer, as
    given. *)
Definition eager_ops (conv_fn : Conv2D.t -> ETensor -> res ETensor)
    : Ops ETensor := {|
  Conv2D_call := conv_fn;
  tf_concat := e_concat;
  tf_multiply := e_binop f32_mul;
  tf_add := e_binop f32_add;
  convert_to_tensor := e_convert
|}.

Fixpoint in_bounds (s : shape) (idx : list Z) : Prop :=
  match s, idx with
  | [], [] => True
  | d :: s', i :: idx' => 0 <= i < dim_or_0 d /\ in_bounds s' idx'
  | _, _ => False
  end.

(** Equal as numbers: the same element, or two zeros. *)
Definition same_number (a b : float32) : Prop :=
  a = b \/ (is_zero a = true /\ is_zero b = true).

(** What a residual connection with a zero scale makes of [x] and of
    the branch that it scales: the element of [x] as the kernels read
    it where the branch is finite, NaN where it is not. *)
Definition zero_beta_output (branch x y : ETensor) : Prop :=
  eshape y = eshape x /\
  forall idx, in_bounds (eshape x) idx ->
    (is_finite (eget branch idx) = true ->
     same_number (eget y idx) (flush (eget x idx))) /\
    (is_finite (eget branch idx) = false -> eget y idx = S754_nan).

Definition same_elements (y x : ETensor) : Prop :=
  eshape y = eshape x /\
  forall idx, in_bounds (eshape x) idx -> eget y idx = eget x idx.

(** ** Sequential stack of RRDB blocks *)
Module Sequential.
Record t := {
  layers : list ResInResDenseBlock.t;
  name : string;
  uid : nat
}.

Definition __init__ (layers : list ResInResDenseBlock.t) (name : string)
    : M t :=
  uid ← new_layer "Sequential" (Some name);
  mret {| layers := layers; name := name; uid := uid |}.

Definition call {T} `{ops : Ops T} (self : t) (x : T) : res T :=
  foldl (fun outputs layer => a ← outputs; ResInResDenseBlock.call layer a)
    (Ok x) (layers self).
End Sequential.

(** ** Symbolic tensors and the functional API

    A symbolic tensor knows its static shape and the operation that
    produced it, from which symbolic tensors. *)
Inductive layer :=
| LConv2D (l : Conv2D.t)
| LGELU (l : GELU.t)
| LBatchNormalization (l : BatchNormalization.t)
| LGlobalAveragePooling2D (uid : nat)
| LDense (l : Dense.t)
| LSequential (l : Sequential.t).

Inductive resize_method := nearest | bilinear.

(** The operations behind a symbolic tensor.  [OpShape] is
    [tf.shape(x)], [OpGetItem i] is [x[i]], [OpMul k] is [x * k] for a
    Python int [k].  [OpResize] keeps the entries of the target size
    that are Python ints; an entry that is a tensor is an argument of
    the operation, after the image. *)
Inductive op :=
| OpInput (name : option string)
| OpLayer (l : layer)
| OpAdd
| OpShape
| OpGetItem (i : Z)
| OpMul (k : Z)
| OpResize (size : option Z * option Z) (method : resize_method)
    (name : string).

Inductive KerasTensor :=
| KT (s : shape) (producer : op) (args : list KerasTensor).

Definition kt_shape (t : KerasTensor) : shape :=
  match t with KT s _ _ => s end.

(** Static output shape of a layer.  No training flag is passed where
    the models call their batch normalisation layers. *)
Definition layer_output_shape (l : layer) (x : shape) : res shape :=
  match l with
  | LConv2D c => Conv2D.output_shape c x
  | LGELU _ => Ok x
  | LBatchNormalization b =>
      fst (BatchNormalization.call BatchNormalization.super_call_shape
             b tt x None)
  | LGlobalAveragePooling2D _ =>
      match x with
      | [b; _; _; c] => Ok [b; c]
      | _ => Raise ValueError
      end
  | LDense d => Dense.output_shape d x
  | LSequential s => Sequential.call s x
  end.

(** [layer(x)] on a symbolic tensor. *)
Definition __call__ (l : layer) (x : KerasTensor) : M KerasTensor :=
  lift (s ← layer_output_shape l (kt_shape x); Ok (KT s (OpLayer l) [x])).

(** [a + b] on symbolic tensors. *)
Definition kt_add (a b : KerasTensor) : M KerasTensor :=
  lift (s ← tf_add (kt_shape a) (kt_shape b); Ok (KT s OpAdd [a; b])).

(** A height or a width: a Python int, or a scalar int32 tensor. *)
Inductive scalar :=
| PyInt (n : Z)
| Scalar (t : KerasTensor).

(** [tf.shape(x)]: a vector with an element for every axis. *)
Definition tf_shape (x : KerasTensor) : M KerasTensor :=
  mret (KT [Some (Z.of_nat (length (kt_shape x)))] OpShape [x]).

(** [t[i]] for a Python int [i]: the first axis goes; against an axis
    of known length the index is checked. *)
Definition kt_getitem (t : KerasTensor) (i : Z) : M KerasTensor :=
  lift (match kt_shape t with
        | [] => Raise ValueError
        | d :: s =>
            match d with
            | Some n =>
                let j := if i <? 0 then i + n else i in
                if (0 <=? j) && (j <? n)
                then Ok (KT s (OpGetItem i) [t])
                else Raise ValueError
            | None => Ok (KT s (OpGetItem i) [t])
            end
        end).

(** [a * k] for a Python int [k]: Python's product of two ints, or the
    framework's product with a tensor. *)
Definition scalar_mul (a : scalar) (k : Z) : M scalar :=
  match a with
  | PyInt n => mret (PyInt (n * k))
  | Scalar t => mret (Scalar (KT (kt_shape t) (OpMul k) [t]))
  end.

Definition int32 (n : Z) : bool := (- 2 ^ 31 <=? n) && (n <? 2 ^ 31).

(** An entry of a target size is converted to int32: a Python int has
    to be in range.  The static size that results is known for a
    Python int and unknown for a tensor. *)
Definition size_entry (a : scalar) : res (option Z) :=
  match a with
  | PyInt n => if int32 n then Ok (Some n) else Raise ValueError
  | Scalar _ => Ok None
  end.

Fixpoint size_tensors (l : list scalar) : list KerasTensor :=
  match l with
  | [] => []
  | PyInt _ :: r => size_tensors r
  | Scalar t :: r => t :: size_tensors r
  end.

(** [tf.image.resize] of a batch of images, or of one image, to
    [[height, width]]. *)
Definition tf_image_resize (x : KerasTensor) (size : scalar * scalar)
    (method : resize_method) (name : string) : M KerasTensor :=
  lift (h ← size_entry (fst size);
        w ← size_entry (snd size);
        s ← match kt_shape x with
            | [b; _; _; c] => Ok [b; h; w; c]
            | [_; _; c] => Ok [h; w; c]
            | _ => Raise ValueError
            end;
        Ok (KT s (OpResize (h, w) method name)
              (x :: size_tensors [fst size; snd size]))).

(** [Input(shape, name)]: the batch dimension is unknown. *)
Definition Input (shape : shape) (name : option string) : M KerasTensor :=
  _ ← new_layer "InputLayer" name;
  mret (KT (None :: shape) (OpInput name) []).

Definition GlobalAveragePooling2D : M layer :=
  uid ← new_layer "GlobalAveragePooling2D" None;
  mret (LGlobalAveragePooling2D uid).

Module Model.
Record t := {
  inputs : KerasTensor;
  outputs : KerasTensor;
  name : string
}.

Definition __init__ (inputs outputs : KerasTensor) (name : string) : M t :=
  _ ← new_layer "Model" (Some name);
  mret {| inputs := inputs; outputs := outputs; name := name |}.

Definition input_shape (self : t) : shape := kt_shape (inputs self).
Definition output_shape (self : t) : shape := kt_shape (outputs self).
End Model.

(** ** Calling a model

    What a symbolic tensor becomes when the model is called on a
    tensor: an image tensor, known here by its shape, or an int32
    vector or scalar, known by its elements.  The tensor that is fed
    has to agree with the shape that the input declares; products of
    int32 numbers wrap around; a resize to a size that is not positive
    is rejected by the kernel. *)
Inductive value :=
| VTensor (s : shape)
| VVector (v : list Z)
| VScalar (n : Z).

Fixpoint compatible (declared fed : shape) : bool :=
  match declared, fed with
  | [], [] => true
  | d :: declared', Some n :: fed' =>
      match d with Some k => k =? n | None => true end
        && compatible declared' fed'
  | _, _ => false
  end.

Fixpoint known_dims (s : shape) : res (list Z) :=
  match s with
  | [] => Ok []
  | Some n :: s' => r ← known_dims s'; Ok (n :: r)
  | None :: _ => Raise ValueError
  end.

Definition wrap32 (n : Z) : Z := (n + 2 ^ 31) mod 2 ^ 32 - 2 ^ 31.

Definition vector_at (v : list Z) (i : Z) : res value :=
  let j := if i <? 0 then i + Z.of_nat (length v) else i in
  if j <? 0 then Raise InvalidArgumentError
  else match v !! Z.to_nat j with
       | Some n => Ok (VScalar n)
       | None => Raise InvalidArgumentError
       end.

Definition resize_size (static : option Z * option Z) (sizes : list value)
    : res (Z * Z) :=
  match static, sizes with
  | (Some h, Some w), [] => Ok (h, w)
  | (None, Some w), [VScalar h] => Ok (h, w)
  | (Some h, None), [VScalar w] => Ok (h, w)
  | (None, None), [VScalar h; VScalar w] => Ok (h, w)
  | _, _ => Raise ValueError
  end.

Definition resize_value (x : value) (size : Z * Z) : res value :=
  if (0 <? fst size) && (0 <? snd size) then
    match x with
    | VTensor [b; _; _; c] => Ok (VTensor [b; Some (fst size); Some (snd size); c])
    | VTensor [_; _; c] => Ok (VTensor [Some (fst size); Some (snd size); c])
    | _ => Raise ValueError
    end
  else Raise InvalidArgumentError.

Fixpoint run (fed : shape) (t : KerasTensor) : res value :=
  match t with
  | KT s o args =>
      match o, args with
      | OpInput _, [] =>
          if compatible s fed then Ok (VTensor fed) else Raise ValueError
      | OpLayer l, [x] =>
          v ← run fed x;
          match v with
          | VTensor sx => VTensor <$> layer_output_shape l sx
          | _ => Raise ValueError
          end
      | OpAdd, [a; b] =>
          va ← run fed a;
          vb ← run fed b;
          match va, vb with
          | VTensor sa, VTensor sb => VTensor <$> tf_add sa sb
          | _, _ => Raise ValueError
          end
      | OpShape, [x] =>
          v ← run fed x;
          match v with
          | VTensor sx => VVector <$> known_dims sx
          | _ => Raise ValueError
          end
      | OpGetItem i, [x] =>
          v ← run fed x;
          match v with
          | VVector l => vector_at l i
          | _ => Raise ValueError
          end
      | OpMul k, [x] =>
          v ← run fed x;
          match v with
          | VScalar n => Ok (VScalar (wrap32 (n * k)))
          | VVector l => Ok (VVector (map (fun n => wrap32 (n * k)) l))
          | VTensor _ => Raise ValueError
          end
      | OpResize size _ _, x :: sizes =>
          vx ← run fed x;
          vs ← (fix go (l : list KerasTensor) : res (list value) :=
                  match l with
                  | [] => Ok []
                  | a :: r => v ← run fed a; vs ← go r; Ok (v :: vs)
                  end) sizes;
          hw ← resize_size size vs;
          resize_value vx hw
      | _, _ => Raise ValueError
      end
  end.

(** [model(x)], by the shape of [x] and of the result. *)
Definition Model_call (self : Model.t) (x : shape) : res shape :=
  v ← run x (Model.outputs self);
  match v with
  | VTensor s => Ok s
  | _ => Raise ValueError
  end.

(** ** The generator

    Defaults of the source: [gc=32], [wd=0.], [name='RRDB_model']. *)
Definition RRDB_Model (size : dim) (channels : Z) (cfg_net : gmap string Z)
    (gc : Z) (wd : pyfloat) (name : string) : M Model.t :=
  nf ← getitem cfg_net "nf";
  nb ← getitem cfg_net "nb";
  let gelu_f := GELU.__init__ in
  let rrdb_f := fun (name : string) =>
    ResInResDenseBlock.__init__ nf gc py_0_2 wd name in
  let conv_f := fun (filters : Z) (activation : option GELU.t)
                    (name : string) =>
    Conv2D.__init__ filters 3 1 same activation true
      (_kernel_init py_1 None) zeros (Some (_regularizer wd)) (Some name) in
  blocks ← for_range (fun i => rrdb_f ("RRDB_" +:+ pretty i)) 0 (Z.to_nat nb);
  rrdb_truck_f ← Sequential.__init__ blocks "RRDB_trunk";

  inputs ← Input [size; size; Some channels] (Some "input_image");
  let x := inputs in
  l ← conv_f nf None "conv_first";
  fea ← __call__ (LConv2D l) x;
  fea_rrdb ← __call__ (LSequential rrdb_truck_f) fea;
  l ← conv_f nf None "conv_trunk";
  trunck ← __call__ (LConv2D l) fea_rrdb;
  fea ← kt_add fea trunck;

  size_fea_h ← match size with
               | None => sh ← tf_shape fea; t ← kt_getitem sh 1;
                         mret (Scalar t)
               | Some size => mret (PyInt size)
               end;
  size_fea_w ← match size with
               | None => sh ← tf_shape fea; t ← kt_getitem sh 2;
                         mret (Scalar t)
               | Some size => mret (PyInt size)
               end;
  h ← scalar_mul size_fea_h 2;
  w ← scalar_mul size_fea_w 2;
  fea_resize ← tf_image_resize fea (h, w) nearest "upsample_nn_1";
  a ← gelu_f;
  l ← conv_f nf (Some a) "upconv_1";
  fea ← __call__ (LConv2D l) fea_resize;
  h ← scalar_mul size_fea_h 4;
  w ← scalar_mul size_fea_w 4;
  fea_resize ← tf_image_resize fea (h, w) nearest "upsample_nn_2";
  a ← gelu_f;
  l ← conv_f nf (Some a) "upconv_2";
  fea ← __call__ (LConv2D l) fea_resize;
  a ← gelu_f;
  l ← conv_f nf (Some a) "conv_hr";
  fea ← __call__ (LConv2D l) fea;
  l ← conv_f channels None "conv_last";
  out ← __call__ (LConv2D l) fea;

  Model.__init__ inputs out name.

(** ** The discriminator

    Defaults of the source: [nf=64], [wd=0.],
    [name='Discriminator_VGG_128']. *)
Definition DiscriminatorVGG128 (size : dim) (channels : Z) (nf : Z)
    (wd : pyfloat) (name : string) : M Model.t :=
  let gelu_f := GELU.__init__ in
  let conv_k3s1_f := fun (filters : Z) (use_bias : bool) (name : string) =>
    Conv2D.__init__ filters 3 1 same None use_bias
      (_kernel_init py_1 None) zeros (Some (_regularizer wd)) (Some name) in
  let conv_k4s2_f := fun (filters : Z) (use_bias : bool) (name : string) =>
    Conv2D.__init__ filters 4 2 same None use_bias
      (_kernel_init py_1 None) zeros (Some (_regularizer wd)) (Some name) in
  let dense_f := fun (units : Z) (name : string) =>
    Dense.__init__ units (Some (_regularizer wd)) (Some name) in
  let BatchNormalization := fun (name : string) =>
    BatchNormalization.__init__ (-1) py_0_9 py_1e_5 true true (Some name) in

  inputs ← Input [size; size; Some channels] None;
  let x := inputs in

  l ← conv_k3s1_f nf true "conv0_0"; x ← __call__ (LConv2D l) x;
  l ← conv_k4s2_f nf false "conv0_1"; x ← __call__ (LConv2D l) x;
  l ← BatchNormalization "bn0_1"; x ← __call__ (LBatchNormalization l) x;

  l ← conv_k3s1_f (nf * 2) false "conv1_0"; x ← __call__ (LConv2D l) x;
  l ← gelu_f; x ← __call__ (LGELU l) x;
  l ← conv_k4s2_f (nf * 2) false "conv1_1"; x ← __call__ (LConv2D l) x;
  l ← BatchNormalization "bn1_1"; x ← __call__ (LBatchNormalization l) x;

  l ← conv_k3s1_f (nf * 4) false "conv2_0"; x ← __call__ (LConv2D l) x;
  l ← gelu_f; x ← __call__ (LGELU l) x;
  l ← conv_k4s2_f (nf * 4) false "conv2_1"; x ← __call__ (LConv2D l) x;
  l ← BatchNormalization "bn2_1"; x ← __call__ (LBatchNormalization l) x;

  l ← conv_k3s1_f (nf * 8) false "conv3_0"; x ← __call__ (LConv2D l) x;
  l ← gelu_f; x ← __call__ (LGELU l) x;
  l ← conv_k4s2_f (nf * 8) false "conv3_1"; x ← __call__ (LConv2D l) x;
  l ← BatchNormalization "bn3_1"; x ← __call__ (LBatchNormalization l) x;

  l ← conv_k3s1_f (nf * 8) false "conv4_0"; x ← __call__ (LConv2D l) x;
  l ← gelu_f; x ← __call__ (LGELU l) x;
  l ← conv_k4s2_f (nf * 8) false "conv4_1"; x ← __call__ (LConv2D l) x;
  l ← BatchNormalization "bn4_1"; x ← __call__ (LBatchNormalization l) x;

  l ← GlobalAveragePooling2D; x ← __call__ l x;
  l ← dense_f 1 "linear1"; out ← __call__ (LDense l) x;

  Model.__init__ inputs out name.

(** ** The contracts of the specification

    The forward contracts as the specification words them, to be
    compared with the [call] methods above. *)

(** Dense connectivity: the next convolution sees the input and every
    feature map computed so far, concatenated along the channel axis. *)
Definition dense_step {T} `{ops : Ops T} (feats : res (list T)) (conv : Conv2D.t)
    : res (list T) :=
  fs ← feats;
  c ← tf_concat fs 3;
  y ← Conv2D_call conv c;
  Ok (fs ++ [y]).

(** [x5]: the output of the fifth convolution. *)
Definition spec_rdb_branch {T} `{ops : Ops T} (self : ResDenseBlock_5C.t) (x : T)
    : res T :=
  x1 ← Conv2D_call (ResDenseBlock_5C.conv1 self) x;
  fs ← foldl dense_step (Ok [x; x1])
         [ResDenseBlock_5C.conv2 self; ResDenseBlock_5C.conv3 self;
          ResDenseBlock_5C.conv4 self; ResDenseBlock_5C.conv5 self];
  match last fs with
  | Some x5 => Ok x5
  | None => Raise ValueError
  end.

(** [output = x + res_beta * x5] *)
Definition spec_rdb {T} `{ops : Ops T} (self : ResDenseBlock_5C.t) (x : T) : res T :=
  x5 ← spec_rdb_branch self x;
  m ← mul_l (ResDenseBlock_5C.res_beta self) x5;
  tf_add x m.

(** [output = x + res_beta * rdb_3(rdb_2(rdb_1(x)))] *)
Definition spec_rrdb {T} `{ops : Ops T} (self : ResInResDenseBlock.t) (x : T)
    : res T :=
  o1 ← ResDenseBlock_5C.call (ResInResDenseBlock.rdb_1 self) x;
  o2 ← ResDenseBlock_5C.call (ResInResDenseBlock.rdb_2 self) o1;
  o3 ← ResDenseBlock_5C.call (ResInResDenseBlock.rdb_3 self) o2;
  m ← mul_l (ResInResDenseBlock.res_beta self) o3;
  tf_add x m.

(** Addition and multiplication of tensors do not depend on the order
    of their operands. *)
Class OpsLaws (T : Type) `{ops : Ops T} : Prop := {
  tf_add_comm : forall a b : T, tf_add a b = tf_add b a;
  tf_multiply_comm : forall a b : T, tf_multiply a b = tf_multiply b a
}.

(** A convolution layer of the block: 3x3, same padding, unit stride,
    GELU activation. *)
Definition rdb_conv (filters : Z) (c : Conv2D.t) : Prop :=
  Conv2D.filters c = filters /\
  Conv2D.kernel_size c = 3 /\
  Conv2D.strides c = 1 /\
  Conv2D.padding c = same /\
  (exists g, Conv2D.activation c = Some g).

Definition rdb_built (nf gc : Z) (res_beta : pyfloat)
    (self : ResDenseBlock_5C.t) : Prop :=
  ResDenseBlock_5C.res_beta self = res_beta /\
  rdb_conv gc (ResDenseBlock_5C.conv1 self) /\
  rdb_conv gc (ResDenseBlock_5C.conv2 self) /\
  rdb_conv gc (ResDenseBlock_5C.conv3 self) /\
  rdb_conv gc (ResDenseBlock_5C.conv4 self) /\
  rdb_conv nf (ResDenseBlock_5C.conv5 self).

Definition rrdb_built (nf gc : Z) (res_beta : pyfloat)
    (self : ResInResDenseBlock.t) : Prop :=
  ResInResDenseBlock.res_beta self = res_beta /\
  rdb_built nf gc res_beta (ResInResDenseBlock.rdb_1 self) /\
  rdb_built nf gc res_beta (ResInResDenseBlock.rdb_2 self) /\
  rdb_built nf gc res_beta (ResInResDenseBlock.rdb_3 self).

(** A convolution layer holds a kernel for one number of input
    channels.  On a batch of images with [cin] channels, a layer [l]
    whose kernel is for [cin] channels yields a tensor of the shape
    that static shape inference predicts. *)
Definition conv_ok (conv_fn : Conv2D.t -> ETensor -> res ETensor)
    (l : Conv2D.t) (cin : Z) : Prop :=
  forall (x : ETensor) (b h w : dim),
    eshape x = [b; h; w; Some cin] ->
    eshape <$> conv_fn l x = Conv2D.output_shape l (eshape x).

(** The convolutions of a block hold kernels for the channels that the
    block feeds them: [nf], [nf+gc], ..., [nf+4*gc]. *)
Definition rdb_convs (conv_fn : Conv2D.t -> ETensor -> res ETensor)
    (nf gc : Z) (self : ResDenseBlock_5C.t) : Prop :=
  conv_ok conv_fn (ResDenseBlock_5C.conv1 self) nf /\
  conv_ok conv_fn (ResDenseBlock_5C.conv2 self) (nf + gc) /\
  conv_ok conv_fn (ResDenseBlock_5C.conv3 self) (nf + gc + gc) /\
  conv_ok conv_fn (ResDenseBlock_5C.conv4 self) (nf + gc + gc + gc) /\
  conv_ok conv_fn (ResDenseBlock_5C.conv5 self) (nf + gc + gc + gc + gc).

Definition rrdb_convs (conv_fn : Conv2D.t -> ETensor -> res ETensor)
    (nf gc : Z) (self : ResInResDenseBlock.t) : Prop :=
  rdb_convs conv_fn nf gc (ResInResDenseBlock.rdb_1 self) /\
  rdb_convs conv_fn nf gc (ResInResDenseBlock.rdb_2 self) /\
  rdb_convs conv_fn nf gc (ResInResDenseBlock.rdb_3 self).

(** The stages of the discriminator as the specification lists them. *)
Inductive stage_item :=
| SConv (kernel stride filters : Z) (bias gelu : bool)
| SGelu
| SBatchNorm
| SPool
| SDense (units : Z).

Definition summary (l : layer) : option stage_item :=
  match l with
  | LConv2D c =>
      Some (SConv (Conv2D.kernel_size c) (Conv2D.strides c)
              (Conv2D.filters c) (Conv2D.use_bias c)
              (bool_decide (is_Some (Conv2D.activation c))))
  | LGELU _ => Some SGelu
  | LBatchNormalization _ => Some SBatchNorm
  | LGlobalAveragePooling2D _ => Some SPool
  | LDense d => Some (SDense (Dense.units d))
  | LSequential _ => None
  end.

Definition spec_stage0 (nf : Z) : list stage_item :=
  [SConv 3 1 nf true false; SConv 4 2 nf false false; SBatchNorm].

(** Channel width of stage [k]: doubling, capped at [nf*8]. *)
Definition stage_width (nf : Z) (k : Z) : Z := nf * Z.min (2 ^ k) 8.

Definition spec_stage (nf : Z) (k : Z) : list stage_item :=
  [SConv 3 1 (stage_width nf k) false false; SGelu;
   SConv 4 2 (stage_width nf k) false false; SBatchNorm].

Definition spec_discriminator (nf : Z) : list stage_item :=
  spec_stage0 nf ++ spec_stage nf 1 ++ spec_stage nf 2 ++ spec_stage nf 3
    ++ spec_stage nf 4 ++ [SPool; SDense 1].

(** The chain of layers that leads to a symbolic tensor, and the
    tensor the chain starts from. *)
Fixpoint unchain (t : KerasTensor) : KerasTensor * list layer :=
  match t with
  | KT _ (OpLayer l) [x] => let '(root, ls) := unchain x in (root, ls ++ [l])
  | _ => (t, [])
  end.

Definition layer_name (l : layer) : option string :=
  match l with
  | LConv2D c => Conv2D.name c
  | LGELU _ => None
  | LBatchNormalization b => BatchNormalization.name b
  | LGlobalAveragePooling2D _ => None
  | LDense d => Dense.name d
  | LSequential s => Some (Sequential.name s)
  end.

Definition produced_by (name : string) (t : KerasTensor) : bool :=
  match t with
  | KT _ (OpLayer l) _ =>
      match layer_name l with
      | Some n => String.eqb n name
      | None => false
      end
  | _ => false
  end.

(** [model.get_layer(name).output.shape], searching from the output. *)
Fixpoint get_layer_output_shape (name : string) (t : KerasTensor)
    : option shape :=
  if produced_by name t then Some (kt_shape t)
  else
    match t with
    | KT _ _ args =>
        (fix go (l : list KerasTensor) : option shape :=
           match l with
           | [] => None
           | a :: r =>
               match get_layer_output_shape name a with
               | Some s => Some s
               | None => go r
               end
           end) args
    end.

(** ** Stand-ins for the examples

    Convolutions whose output does not depend on their input: every
    element is [v].  With [v] zero this is what a layer with zero
    weights computes on finite inputs, with [v] NaN a layer whose
    weights are NaN. *)
Definition conv_const (v : float32) (l : Conv2D.t) (x : ETensor)
    : res ETensor :=
  s ← Conv2D.output_shape l (eshape x);
  Ok {| eshape := s; eget := fun _ => v |}.

Definition full (s : list Z) (v : float32) : ETensor :=
  {| eshape := map Some s; eget := fun _ => v |}.

Definition f32_1 : float32 := S754_finite false 8388608 (-23). (* 1.0 *)

(** A stand-in for the framework's batch normalisation that returns
    the training flag it is called with, and a frozen layer. *)
Definition super_call_echo (self : BatchNormalization.t) (vars : unit)
    (x : bool) (training : bool) : res bool * unit :=
  (Ok training, tt).

Definition frozen_bn : BatchNormalization.t :=
  BatchNormalization.set_trainable
    {| BatchNormalization.axis := -1;
       BatchNormalization.momentum := py_0_9;
       BatchNormalization.epsilon := py_1e_5;
       BatchNormalization.center := true;
       BatchNormalization.scale := true;
       BatchNormalization.name := Some "bn0_1";
       BatchNormalization.trainable := true;
       BatchNormalization.uid := 0 |}
    false.

(** ** Observing a built model *)

(** [model.get_layer(name)], searching from the output. *)
Fixpoint get_layer (name : string) (t : KerasTensor) : option layer :=
  match t with
  | KT _ o args =>
      match o with
      | OpLayer l =>
          if produced_by name t then Some l
          else
            (fix go (l : list KerasTensor) : option layer :=
               match l with
               | [] => None
               | a :: r =>
                   match get_layer name a with
                   | Some y => Some y
                   | None => go r
                   end
               end) args
      | _ =>
          (fix go (l : list KerasTensor) : option layer :=
             match l with
             | [] => None
             | a :: r =>
                 match get_layer name a with
                 | Some y => Some y
                 | None => go r
                 end
             end) args
      end
  end.

(** The convolution layers of a block, of a layer and of everything
    that leads to a symbolic tensor (a layer is listed once for every
    path that leads through it). *)
Definition rdb_conv_list (r : ResDenseBlock_5C.t) : list Conv2D.t :=
  [ResDenseBlock_5C.conv1 r; ResDenseBlock_5C.conv2 r;
   ResDenseBlock_5C.conv3 r; ResDenseBlock_5C.conv4 r;
   ResDenseBlock_5C.conv5 r].

Definition rrdb_conv_list (r : ResInResDenseBlock.t) : list Conv2D.t :=
  rdb_conv_list (ResInResDenseBlock.rdb_1 r)
    ++ rdb_conv_list (ResInResDenseBlock.rdb_2 r)
    ++ rdb_conv_list (ResInResDenseBlock.rdb_3 r).

Definition trunk_conv_list (blocks : list ResInResDenseBlock.t)
    : list Conv2D.t :=
  flat_map rrdb_conv_list blocks.

Definition layer_convs (l : layer) : list Conv2D.t :=
  match l with
  | LConv2D c => [c]
  | LSequential s => trunk_conv_list (Sequential.layers s)
  | _ => []
  end.

Fixpoint kt_convs (t : KerasTensor) : list Conv2D.t :=
  match t with
  | KT _ o args =>
      match o with OpLayer l => layer_convs l | _ => [] end
        ++ (fix go (l : list KerasTensor) : list Conv2D.t :=
              match l with
              | [] => []
              | a :: r => kt_convs a ++ go r
              end) args
  end.

(** The wiring of a model: which layer, by name, is applied to what. *)
Inductive layer_sketch :=
| KConv (name : option string) (filters : Z) (gelu : bool)
| KTrunk (name : string) (blocks : list string)
| KOther (item : option stage_item).

Definition sketch_layer (l : layer) : layer_sketch :=
  match l with
  | LConv2D c =>
      KConv (Conv2D.name c) (Conv2D.filters c)
        (bool_decide (is_Some (Conv2D.activation c)))
  | LSequential s =>
      KTrunk (Sequential.name s)
        (map ResInResDenseBlock.name (Sequential.layers s))
  | _ => KOther (summary l)
  end.

Inductive sketch :=
| SkInput (name : option string)
| SkLayer (l : layer_sketch) (x : sketch)
| SkAdd (a b : sketch)
| SkShape (x : sketch)
| SkGetItem (i : Z) (x : sketch)
| SkMul (k : Z) (x : sketch)
| SkResize (name : string) (size : option Z * option Z)
    (method : resize_method) (x : sketch) (sizes : list sketch)
| SkOther.

Fixpoint sketch_of (t : KerasTensor) : sketch :=
  match t with
  | KT _ (OpInput n) [] => SkInput n
  | KT _ (OpLayer l) [x] => SkLayer (sketch_layer l) (sketch_of x)
  | KT _ OpAdd [a; b] => SkAdd (sketch_of a) (sketch_of b)
  | KT _ OpShape [x] => SkShape (sketch_of x)
  | KT _ (OpGetItem i) [x] => SkGetItem i (sketch_of x)
  | KT _ (OpMul k) [x] => SkMul k (sketch_of x)
  | KT _ (OpResize size method n) (x :: sizes) =>
      SkResize n size method (sketch_of x)
        ((fix go (l : list KerasTensor) : list sketch :=
            match l with
            | [] => []
            | a :: r => sketch_of a :: go r
            end) sizes)
  | _ => SkOther
  end.

(** How many layers of a class a record of instantiations holds. *)
Fixpoint count_class (cls : string) (l : list created) : nat :=
  match l with
  | [] => O
  | e :: r =>
      (if String.eqb (cr_class e) cls then 1 else 0) + count_class cls r
  end%nat.

(** The names [RRDB_0], [RRDB_1], ... of [n] blocks. *)
Fixpoint rrdb_names (start : Z) (n : nat) : list string :=
  match n with
  | O => []
  | S n' => ("RRDB_" +:+ pretty start) :: rrdb_names (start + 1) n'
  end.

(** The settings of a convolution of a block and of a convolution of
    the builders. *)
Definition block_conv_settings (wd : pyfloat) (c : Conv2D.t) : Prop :=
  Conv2D.name c = None /\
  Conv2D.kernel_size c = 3 /\ Conv2D.strides c = 1 /\
  Conv2D.padding c = same /\ Conv2D.use_bias c = true /\
  is_Some (Conv2D.activation c) /\
  Conv2D.kernel_initializer c = _kernel_init py_0_1 None /\
  Conv2D.bias_initializer c = zeros /\
  Conv2D.kernel_regularizer c = Some (_regularizer wd).

Definition model_conv_settings (wd : pyfloat) (c : Conv2D.t) : Prop :=
  is_Some (Conv2D.name c) /\
  Conv2D.padding c = same /\
  Conv2D.kernel_initializer c = _kernel_init py_1 None /\
  Conv2D.bias_initializer c = zeros /\
  Conv2D.kernel_regularizer c = Some (_regularizer wd).

(** What the constructors of the blocks add to the record of
    instantiated layers. *)
Definition rdb_created (name : string) : list created :=
  {| cr_class := "ResDenseBlock_5C"; cr_name := Some name |}
    :: concat (replicate 5 [{| cr_class := "GELU"; cr_name := None |};
                            {| cr_class := "Conv2D"; cr_name := None |}]).

Definition rrdb_created (name : string) : list created :=
  {| cr_class := "ResInResDenseBlock"; cr_name := Some name |}
    :: concat (replicate 3 (rdb_created "RDB5C")).

(** What the generator instantiates after its blocks. *)
Definition generator_created (name : string) : list created :=
  [{| cr_class := "Sequential"; cr_name := Some "RRDB_trunk" |};
   {| cr_class := "InputLayer"; cr_name := Some "input_image" |};
   {| cr_class := "Conv2D"; cr_name := Some "conv_first" |};
   {| cr_class := "Conv2D"; cr_name := Some "conv_trunk" |};
   {| cr_class := "GELU"; cr_name := None |};
   {| cr_class := "Conv2D"; cr_name := Some "upconv_1" |};
   {| cr_class := "GELU"; cr_name := None |};
   {| cr_class := "Conv2D"; cr_name := Some "upconv_2" |};
   {| cr_class := "GELU"; cr_name := None |};
   {| cr_class := "Conv2D"; cr_name := Some "conv_hr" |};
   {| cr_class := "Conv2D"; cr_name := Some "conv_last" |};
   {| cr_class := "Model"; cr_name := Some name |}].

(** The wiring of the generator as the source lays it out: stem,
    trunk of blocks, trunk convolution, long residual connection, two
    nearest-neighbour upsamplings each followed by a convolution, and
    the two head convolutions.  The upsamplings resize to [k = 2] and
    [k = 4] times the size: to the Python ints [size * k], or, with an
    unspecified size, to [k] times the entries 1 and 2 of the run-time
    shape of the sum that the long residual connection yields. *)
Definition generator_sketch (size : dim) (channels nf : Z)
    (blocks : list string) : sketch :=
  let fea :=
    SkLayer (KConv (Some "conv_first") nf false)
      (SkInput (Some "input_image")) in
  let trunck :=
    SkLayer (KConv (Some "conv_trunk") nf false)
      (SkLayer (KTrunk "RRDB_trunk" blocks) fea) in
  let sum := SkAdd fea trunck in
  let resize name k x :=
    match size with
    | Some sz => SkResize name (Some (sz * k), Some (sz * k)) nearest x []
    | None =>
        SkResize name (None, None) nearest x
          [SkMul k (SkGetItem 1 (SkShape sum));
           SkMul k (SkGetItem 2 (SkShape sum))]
    end in
  let up1 :=
    SkLayer (KConv (Some "upconv_1") nf true)
      (resize "upsample_nn_1" 2 sum) in
  let up2 :=
    SkLayer (KConv (Some "upconv_2") nf true)
      (resize "upsample_nn_2" 4 up1) in
  SkLayer (KConv (Some "conv_last") channels false)
    (SkLayer (KConv (Some "conv_hr") nf true) up2).

(** A size the framework accepts: unspecified, or positive. *)
Definition valid_size (size : dim) : Prop :=
  match size with Some sz => 0 < sz | None => True end.

(** A size the generator can be built for: unspecified, or positive
    with four times the size still an int32 number, as the target of
    the second upsampling has to be. *)
Definition generator_size (size : dim) : Prop :=
  match size with Some sz => 0 < sz /\ sz * 4 < 2 ^ 31 | None => True end.

(** An image that a model built for [size] can be fed: of that height
    and width, or, with an unspecified size, of any positive height and
    width of which four times is an int32 number. *)
Definition fits (size : dim) (h w : Z) : Prop :=
  match size with
  | Some sz => h = sz /\ w = sz
  | None => (0 < h /\ h * 4 < 2 ^ 31) /\ (0 < w /\ w * 4 < 2 ^ 31)
  end.

(** A dimension divided by [k], rounded up. *)
Definition ceil_div_dim (d : dim) (k : Z) : dim :=
  match d with Some n => Some ((n + k - 1) / k) | None => None end.

(** The settings of the layers of the discriminator. *)
Definition disc_layer_settings (wd : pyfloat) (l : layer) : Prop :=
  match l with
  | LConv2D c => model_conv_settings wd c /\ Conv2D.activation c = None
  | LGELU g => GELU.approximate g = true
  | LBatchNormalization b =>
      BatchNormalization.axis b = -1 /\
      BatchNormalization.momentum b = py_0_9 /\
      BatchNormalization.epsilon b = py_1e_5 /\
      BatchNormalization.center b = true /\
      BatchNormalization.scale b = true /\
      BatchNormalization.trainable b = true
  | LGlobalAveragePooling2D _ => True
  | LDense d => Dense.kernel_regularizer d = Some (_regularizer wd)
  | LSequential _ => False
  end.

(** An element is kept away from the finite numbers: infinite or NaN
    where the input is, and NaN where the input is NaN. *)
Definition keeps_nonfinite (x y : ETensor) : Prop :=
  forall idx, in_bounds (eshape x) idx ->
    (is_finite (eget x idx) = false -> is_finite (eget y idx) = false) /\
    (eget x idx = S754_nan -> eget y idx = S754_nan).

(** A result, and a construction, that is no [KeyError]. *)
Definition no_KeyError {A} (r : res A) : Prop :=
  forall k, r <> Raise (KeyError k).

Definition never_KeyError {A} (m : M A) : Prop :=
  forall s, no_KeyError (fst (m s)).

(** * Properties *)

(** ** The framework rules on examples *)

Example conv_output_length_examples :
  conv_output_length (Some 128) 4 same 2 = Some 64 /\
  conv_output_length (Some 7) 4 same 2 = Some 4 /\
  conv_output_length (Some 32) 3 same 1 = Some 32 /\
  conv_output_length (Some 32) 3 valid 1 = Some 30 /\
  conv_output_length None 3 same 1 = None.
Proof. repeat split; reflexivity. Qed.

Example broadcast_shape_examples :
  broadcast_shape [Some 2; Some 1] [Some 3] = Ok [Some 2; Some 3] /\
  broadcast_shape [None; Some 8; Some 8; Some 64] [] 
  = Ok [None; Some 8; Some 8; Some 64] /\
  broadcast_shape [None; Some 8; Some 8; Some 64] [None; Some 8; Some 8; Some 1]
  = Ok [None; Some 8; Some 8; Some 64] /\
  broadcast_shape [Some 2] [Some 3] = Raise ValueError.
Proof. repeat split; reflexivity. Qed.

Example concat_shape_examples :
  concat_shape [[None; Some 8; Some 8; Some 64]; [None; Some 8; Some 8; Some 32];
                [None; Some 8; Some 8; Some 32]] 3
  = Ok [None; Some 8; Some 8; Some 128] /\
  concat_shape [[None; Some 8; Some 8; Some 64]; [None; Some 8; Some 8; Some 32]]
    (-1)
  = Ok [None; Some 8; Some 8; Some 96] /\
  concat_shape [[None; Some 8; Some 8; Some 64]; [None; Some 4; Some 8; Some 32]] 3
  = Raise ValueError /\
  concat_shape [[None; Some 8; Some 8; Some 64]] 4 = Raise ValueError.
Proof. repeat split; reflexivity. Qed.

Example float32_examples :
  f32_of_pyfloat py_0_2 = S754_finite false 13421773 (-26) /\
  f32_add f32_1 f32_1 = S754_finite false 8388608 (-22) /\
  f32_mul f32_1 f32_1 = f32_1 /\
  f32_mul (S754_infinity false) (S754_zero false) = S754_nan /\
  f32_add (S754_zero false) (S754_zero true) = S754_zero false /\
  square (S754_finite false 8388608 77) = S754_infinity false /\
  flush (S754_finite false 8388608 (-149)) = S754_finite false 8388608 (-149) /\
  flush (S754_finite true 8388607 (-149)) = S754_zero true /\
  f32_add (S754_zero false) (S754_finite false 713624 (-149))
  = S754_zero false /\
  f32_mul (S754_finite false 8388608 (-100)) (S754_finite true 8388608 (-100))
  = S754_zero true /\
  f32_mul (S754_finite false 16777215 (-24)) (S754_finite false 8388608 (-149))
  = S754_zero false /\
  f32_mul (S754_finite false 16777215 104) (S754_finite false 8388609 (-23))
  = S754_infinity false.
Proof. repeat split; reflexivity. Qed.

Example eager_examples :
  (t ← e_binop f32_add (full [2; 1] f32_1) (full [3] f32_1);
   Ok (eshape t, eget t [1; 2]))
  = Ok ([Some 2; Some 3], S754_finite false 8388608 (-22)) /\
  (t ← e_concat [full [1; 1; 1; 2] f32_1; full [1; 1; 1; 3] (S754_zero false)] 3;
   Ok (eshape t, map (fun i => eget t [0; 0; 0; i]) [0; 1; 2; 3; 4]))
  = Ok ([Some 1; Some 1; Some 1; Some 5],
        [f32_1; f32_1; S754_zero false; S754_zero false; S754_zero false]).
Proof. split; reflexivity. Qed.

(** A block built for [nf = 64] broadcasts a one-channel input to 64
    channels and rejects an input with 63 channels at the residual
    addition. *)
Example ResDenseBlock_5C_other_channels :
  (b ← fst (ResDenseBlock_5C.__init__ 64 32 py_0_2 py_0 "RDB5C" []);
   ResDenseBlock_5C.call b [None; Some 32; Some 32; Some 1])
  = Ok [None; Some 32; Some 32; Some 64] /\
  (b ← fst (ResDenseBlock_5C.__init__ 64 32 py_0_2 py_0 "RDB5C" []);
   ResDenseBlock_5C.call b [None; Some 32; Some 32; Some 63])
  = Raise ValueError.
Proof. split; reflexivity. Qed.

(** The layers that the generator of the specification's scenario
    names, in the order of their instantiation. *)
Example RRDB_Model_named_layers :
  omap cr_name
    (snd (RRDB_Model (Some 32) 3 {[ "nf" := 64; "nb" := 2 ]} 32 py_0
            "RRDB_model" []))
  = ["RRDB_0"; "RDB5C"; "RDB5C"; "RDB5C"; "RRDB_1"; "RDB5C"; "RDB5C"; "RDB5C";
     "RRDB_trunk"; "input_image"; "conv_first"; "conv_trunk"; "upconv_1";
     "upconv_2"; "conv_hr"; "conv_last"; "RRDB_model"].
Proof. vm_compute. reflexivity. Qed.

(** The discriminator does not need a size divisible by 32. *)
Example DiscriminatorVGG128_size_100 :
  (m ← fst (DiscriminatorVGG128 (Some 100) 3 64 py_0 "Discriminator_VGG_128" []);
   Ok (Model.output_shape m, get_layer_output_shape "bn4_1" (Model.outputs m)))
  = Ok ([None; Some 1], Some [None; Some 4; Some 4; Some 512]).
Proof. vm_compute. reflexivity. Qed.

(** ** Static shapes *)

Lemma conv_output_length_same_1 (d : dim) (k : Z) :
  conv_output_length d k same 1 = d.
Proof.
  destruct d as [n|]; simpl; [|reflexivity].
  f_equal. rewrite Z.div_1_r. lia.
Qed.


Lemma merge_dim_refl (d : dim) : merge_dim d d = Ok d.
Proof. destruct d as [n|]; simpl; [rewrite Z.eqb_refl|]; reflexivity. Qed.

Lemma broadcast_dim_refl (d : dim) : broadcast_dim d d = Ok d.
Proof.
  destruct d as [n|]; simpl; [|reflexivity].
  destruct (n =? 1); [reflexivity|]. rewrite Z.eqb_refl. reflexivity.
Qed.

Lemma broadcast_dim_comm (x y : dim) : broadcast_dim x y = broadcast_dim y x.
Proof.
  destruct x as [a|], y as [b|]; simpl; try reflexivity.
  destruct (Z.eqb_spec a 1), (Z.eqb_spec b 1); subst; try reflexivity.
  rewrite (Z.eqb_sym b a). destruct (Z.eqb_spec a b); subst; reflexivity.
Qed.

Lemma broadcast_rev_refl (s : shape) : broadcast_rev s s = Ok s.
Proof.
  induction s as [|d s IH]; simpl; [reflexivity|].
  rewrite broadcast_dim_refl. simpl. rewrite IH. reflexivity.
Qed.

Lemma broadcast_rev_comm (a b : shape) : broadcast_rev a b = broadcast_rev b a.
Proof.
  revert b. induction a as [|x a IH]; intros [|y b]; simpl; try reflexivity.
  rewrite (broadcast_dim_comm x y), (IH b). reflexivity.
Qed.

Lemma broadcast_shape_refl (s : shape) : broadcast_shape s s = Ok s.
Proof.
  unfold broadcast_shape. rewrite broadcast_rev_refl. simpl.
  rewrite rev_involutive. reflexivity.
Qed.

Lemma broadcast_shape_comm (a b : shape) :
  broadcast_shape a b = broadcast_shape b a.
Proof. unfold broadcast_shape. rewrite broadcast_rev_comm. reflexivity. Qed.

Lemma broadcast_rev_nil_r (s : shape) : broadcast_rev s [] = Ok s.
Proof. destruct s; reflexivity. Qed.

Lemma broadcast_shape_scalar_r (s : shape) : broadcast_shape s [] = Ok s.
Proof.
  unfold broadcast_shape. change (rev []) with (@nil dim).
  rewrite broadcast_rev_nil_r. simpl. rewrite rev_involutive. reflexivity.
Qed.

(** Images that agree on batch, height and width concatenate along the
    channel axis to an image with the sum of the channels. *)
Lemma concat_shape_nhwc (b h w : dim) (cs : list Z) (c0 : Z) :
  concat_shape ([b; h; w; Some c0] :: map (fun c => [b; h; w; Some c]) cs) 3
  = Ok [b; h; w; Some (foldl Z.add c0 cs)].
Proof.
  unfold concat_shape. simpl.
  revert c0. induction cs as [|c cs IH]; intros c0; simpl; [reflexivity|].
  rewrite !merge_dim_refl. simpl. apply IH.
Qed.

Lemma Conv2D_output_shape_rdb (filters : Z) (c : Conv2D.t) (b h w : dim)
    (cin : Z) :
  rdb_conv filters c ->
  Conv2D.output_shape c [b; h; w; Some cin] = Ok [b; h; w; Some filters].
Proof.
  intros (Hf & Hk & Hs & Hp & _). unfold Conv2D.output_shape.
  rewrite Hf, Hs, Hp, !conv_output_length_same_1. reflexivity.
Qed.

(** ** The blocks on static shapes *)

Ltac rewrite_concat b h w cs c0 :=
  let E := fresh "E" in
  pose proof (concat_shape_nhwc b h w cs c0) as E;
  cbn [map foldl] in E; rewrite E; clear E; cbn [mbind res_bind].

Lemma ResDenseBlock_5C_call_shape (nf gc : Z) (beta : pyfloat)
    (self : ResDenseBlock_5C.t) (b h w : dim) :
  rdb_built nf gc beta self ->
  ResDenseBlock_5C.call self [b; h; w; Some nf] = Ok [b; h; w; Some nf].
Proof.
  intros (_ & H1 & H2 & H3 & H4 & H5).
  unfold ResDenseBlock_5C.call, mul_r. cbn [Conv2D_call tf_concat tf_multiply tf_add convert_to_tensor shape_ops].
  rewrite (Conv2D_output_shape_rdb _ _ _ _ _ _ H1). cbn [mbind res_bind].
  rewrite_concat b h w [gc] nf.
  rewrite (Conv2D_output_shape_rdb _ _ _ _ _ _ H2). cbn [mbind res_bind].
  rewrite_concat b h w [gc; gc] nf.
  rewrite (Conv2D_output_shape_rdb _ _ _ _ _ _ H3). cbn [mbind res_bind].
  rewrite_concat b h w [gc; gc; gc] nf.
  rewrite (Conv2D_output_shape_rdb _ _ _ _ _ _ H4). cbn [mbind res_bind].
  rewrite_concat b h w [gc; gc; gc; gc] nf.
  rewrite (Conv2D_output_shape_rdb _ _ _ _ _ _ H5). cbn [mbind res_bind].
  rewrite broadcast_shape_scalar_r. cbn [mbind res_bind].
  apply broadcast_shape_refl.
Qed.

Lemma ResInResDenseBlock_call_shape (nf gc : Z) (beta : pyfloat)
    (self : ResInResDenseBlock.t) (b h w : dim) :
  rrdb_built nf gc beta self ->
  ResInResDenseBlock.call self [b; h; w; Some nf] = Ok [b; h; w; Some nf].
Proof.
  intros (_ & H1 & H2 & H3).
  unfold ResInResDenseBlock.call, mul_r.
  rewrite (ResDenseBlock_5C_call_shape _ _ _ _ _ _ _ H1). cbn [mbind res_bind].
  rewrite (ResDenseBlock_5C_call_shape _ _ _ _ _ _ _ H2). cbn [mbind res_bind].
  rewrite (ResDenseBlock_5C_call_shape _ _ _ _ _ _ _ H3). cbn [mbind res_bind].
  cbn [tf_multiply tf_add convert_to_tensor shape_ops].
  rewrite broadcast_shape_scalar_r. cbn [mbind res_bind].
  apply broadcast_shape_refl.
Qed.

(** ** Running the builders *)

Lemma bind_ok {A B} (m : M A) (f : A -> M B) s a s' :
  m s = (Ok a, s') -> (m ≫= f) s = f a s'.
Proof. intros E. unfold mbind, M_bind. rewrite E. reflexivity. Qed.

Lemma bind_raise {A B} (m : M A) (f : A -> M B) s e s' :
  m s = (Raise e, s') -> (m ≫= f) s = (Raise e, s').
Proof. intros E. unfold mbind, M_bind. rewrite E. reflexivity. Qed.

Lemma getitem_Some (d : gmap string Z) (k : string) (v : Z) s :
  d !! k = Some v -> getitem d k s = (Ok v, s).
Proof. intros E. unfold getitem, lift. rewrite E. reflexivity. Qed.

Lemma getitem_None (d : gmap string Z) (k : string) s :
  d !! k = None -> getitem d k s = (Raise (KeyError k), s).
Proof. intros E. unfold getitem, lift. rewrite E. reflexivity. Qed.

(** Evaluation of a builder, leaving arithmetic, policies and the
    loops over blocks as they are. *)
Lemma Conv2D_init_ok (filters kernel_size strides : Z)
    (padding : padding_mode) (activation : option GELU.t)
    (use_bias : bool) (kernel_initializer bias_initializer : initializer)
    (kernel_regularizer : option L2) (name : option string) s :
  0 < filters ->
  Conv2D.__init__ filters kernel_size strides padding activation use_bias
    kernel_initializer bias_initializer kernel_regularizer name s
  = (Ok {| Conv2D.filters := filters; Conv2D.kernel_size := kernel_size;
           Conv2D.strides := strides; Conv2D.padding := padding;
           Conv2D.activation := activation; Conv2D.use_bias := use_bias;
           Conv2D.kernel_initializer := kernel_initializer;
           Conv2D.bias_initializer := bias_initializer;
           Conv2D.kernel_regularizer := kernel_regularizer;
           Conv2D.name := name; Conv2D.uid := length s |},
     s ++ [{| cr_class := "Conv2D"; cr_name := name |}]).
Proof.
  intros H. unfold Conv2D.__init__.
  destruct (Z.leb_spec filters 0) as [L|_]; [lia|]. reflexivity.
Qed.

Lemma Conv2D_init_raise (filters kernel_size strides : Z)
    (padding : padding_mode) (activation : option GELU.t)
    (use_bias : bool) (kernel_initializer bias_initializer : initializer)
    (kernel_regularizer : option L2) (name : option string) s :
  filters <= 0 ->
  Conv2D.__init__ filters kernel_size strides padding activation use_bias
    kernel_initializer bias_initializer kernel_regularizer name s
  = (Raise ValueError, s).
Proof.
  intros H. unfold Conv2D.__init__.
  destruct (Z.leb_spec filters 0) as [_|L]; [|lia]. reflexivity.
Qed.

Ltac run_step :=
  cbv -[Z.sub Z.mul Z.div Z.min Z.pow conv_output_length
        _regularizer _kernel_init Conv2D.__init__
        Sequential.call for_range pretty String.append length app
        broadcast_shape getitem].

Ltac run_builder :=
  run_step; repeat (progress (rewrite Conv2D_init_ok by lia); run_step).

Lemma ResDenseBlock_5C_init_built (nf gc : Z) (beta wd : pyfloat)
    (name : string) s :
  0 < nf -> 0 < gc ->
  exists self s',
    ResDenseBlock_5C.__init__ nf gc beta wd name s = (Ok self, s') /\
    rdb_built nf gc beta self.
Proof.
  intros Hnf Hgc. eexists _, _. split; [run_builder; reflexivity|].
  unfold rdb_built, rdb_conv.
  repeat split; try reflexivity; eexists; reflexivity.
Qed.

Lemma ResInResDenseBlock_init_built (nf gc : Z) (beta wd : pyfloat)
    (name : string) s :
  0 < nf -> 0 < gc ->
  exists self s',
    ResInResDenseBlock.__init__ nf gc beta wd name s = (Ok self, s') /\
    rrdb_built nf gc beta self.
Proof.
  intros Hnf Hgc. unfold ResInResDenseBlock.__init__.
  erewrite bind_ok by reflexivity.
  destruct (ResDenseBlock_5C_init_built nf gc beta wd "RDB5C"
              (s ++ [{| cr_class := "ResInResDenseBlock"; cr_name := Some name |}])
              Hnf Hgc)
    as (r1 & s1 & E1 & B1).
  erewrite bind_ok by exact E1.
  destruct (ResDenseBlock_5C_init_built nf gc beta wd "RDB5C" s1 Hnf Hgc)
    as (r2 & s2 & E2 & B2).
  erewrite bind_ok by exact E2.
  destruct (ResDenseBlock_5C_init_built nf gc beta wd "RDB5C" s2 Hnf Hgc)
    as (r3 & s3 & E3 & B3).
  erewrite bind_ok by exact E3.
  eexists _, _. split; [reflexivity|].
  unfold rrdb_built.
  cbn [ResInResDenseBlock.res_beta ResInResDenseBlock.rdb_1
       ResInResDenseBlock.rdb_2 ResInResDenseBlock.rdb_3]. auto.
Qed.

Lemma Sequential_call_shape (nf gc : Z) (beta : pyfloat)
    (self : Sequential.t) (b h w : dim) :
  Forall (rrdb_built nf gc beta) (Sequential.layers self) ->
  Sequential.call self [b; h; w; Some nf] = Ok [b; h; w; Some nf].
Proof.
  unfold Sequential.call. induction 1 as [|r rs B _ IH]; simpl; [reflexivity|].
  rewrite (ResInResDenseBlock_call_shape _ _ _ _ _ _ _ B). exact IH.
Qed.

(** What the constructors of the blocks instantiate, and with which
    settings. *)
Lemma ResDenseBlock_5C_init_full (nf gc : Z) (beta wd : pyfloat)
    (name : string) s :
  0 < nf -> 0 < gc ->
  exists self,
    ResDenseBlock_5C.__init__ nf gc beta wd name s
    = (Ok self, s ++ rdb_created name) /\
    rdb_built nf gc beta self /\
    Forall (block_conv_settings wd) (rdb_conv_list self) /\
    map Conv2D.uid (rdb_conv_list self)
    = map (fun k => (length s + k)%nat) [2; 4; 6; 8; 10]%nat.
Proof.
  intros Hnf Hgc. eexists. split.
  { run_builder. rewrite <- !app_assoc. reflexivity. }
  split.
  { unfold rdb_built, rdb_conv.
    repeat split; try reflexivity; eexists; reflexivity. }
  split.
  { unfold rdb_conv_list, block_conv_settings.
    repeat (constructor; [repeat split; try reflexivity; eexists; reflexivity|]).
    constructor. }
  unfold rdb_conv_list.
  cbn [map ResDenseBlock_5C.conv1 ResDenseBlock_5C.conv2
       ResDenseBlock_5C.conv3 ResDenseBlock_5C.conv4 ResDenseBlock_5C.conv5
       Conv2D.uid].
  rewrite !length_app. cbn [length].
  repeat (apply (f_equal2 (@cons nat)); [lia|]). reflexivity.
Qed.

Lemma ResInResDenseBlock_init_full (nf gc : Z) (beta wd : pyfloat)
    (name : string) s :
  0 < nf -> 0 < gc ->
  exists self,
    ResInResDenseBlock.__init__ nf gc beta wd name s
    = (Ok self, s ++ rrdb_created name) /\
    rrdb_built nf gc beta self /\
    ResInResDenseBlock.name self = name /\
    Forall (block_conv_settings wd) (rrdb_conv_list self) /\
    map Conv2D.uid (rrdb_conv_list self)
    = map (fun k => (length s + k)%nat)
        [3; 5; 7; 9; 11; 14; 16; 18; 20; 22; 25; 27; 29; 31; 33]%nat.
Proof.
  intros Hnf Hgc. unfold ResInResDenseBlock.__init__.
  erewrite bind_ok by reflexivity.
  set (s0 := s ++ [{| cr_class := "ResInResDenseBlock"; cr_name := Some name |}]).
  destruct (ResDenseBlock_5C_init_full nf gc beta wd "RDB5C" s0 Hnf Hgc)
    as (r1 & E1 & B1 & C1 & U1).
  erewrite bind_ok by exact E1.
  destruct (ResDenseBlock_5C_init_full nf gc beta wd "RDB5C"
              (s0 ++ rdb_created "RDB5C") Hnf Hgc) as (r2 & E2 & B2 & C2 & U2).
  erewrite bind_ok by exact E2.
  destruct (ResDenseBlock_5C_init_full nf gc beta wd "RDB5C"
              ((s0 ++ rdb_created "RDB5C") ++ rdb_created "RDB5C") Hnf Hgc)
    as (r3 & E3 & B3 & C3 & U3).
  erewrite bind_ok by exact E3.
  eexists. split.
  { unfold mret, M_ret. f_equal. subst s0. rewrite <- !app_assoc. reflexivity. }
  split.
  { unfold rrdb_built.
    cbn [ResInResDenseBlock.res_beta ResInResDenseBlock.rdb_1
         ResInResDenseBlock.rdb_2 ResInResDenseBlock.rdb_3]. auto. }
  split; [reflexivity|]. split.
  { unfold rrdb_conv_list.
    cbn [ResInResDenseBlock.rdb_1 ResInResDenseBlock.rdb_2
         ResInResDenseBlock.rdb_3].
    rewrite !Forall_app. auto. }
  unfold rrdb_conv_list.
  cbn [ResInResDenseBlock.rdb_1 ResInResDenseBlock.rdb_2
       ResInResDenseBlock.rdb_3].
  rewrite !map_app, U1, U2, U3. subst s0.
  rewrite !length_app. cbn [length rdb_created concat replicate app map].
  repeat (apply (f_equal2 (@cons nat)); [lia|]). reflexivity.
Qed.

Lemma for_range_rrdb_full (nf gc : Z) (beta wd : pyfloat) (n : nat)
    (start : Z) s :
  0 < nf -> 0 < gc ->
  exists blocks,
    for_range (fun i => ResInResDenseBlock.__init__ nf gc beta wd
                          ("RRDB_" +:+ pretty i)) start n s
    = (Ok blocks, s ++ flat_map rrdb_created (rrdb_names start n)) /\
    Forall (rrdb_built nf gc beta) blocks /\
    map ResInResDenseBlock.name blocks = rrdb_names start n /\
    Forall (block_conv_settings wd) (trunk_conv_list blocks) /\
    NoDup (map Conv2D.uid (trunk_conv_list blocks)) /\
    Forall (fun u => (length s <= u < length s + 34 * n)%nat)
      (map Conv2D.uid (trunk_conv_list blocks)).
Proof.
  intros Hnf Hgc. revert start s. induction n as [|n IH]; intros start s.
  - exists []. cbn [for_range rrdb_names flat_map].
    rewrite app_nil_r. split; [reflexivity|].
    repeat split; constructor.
  - destruct (ResInResDenseBlock_init_full nf gc beta wd
                ("RRDB_" +:+ pretty start) s Hnf Hgc) as (r & E & B & N & C & U).
    destruct (IH (start + 1) (s ++ rrdb_created ("RRDB_" +:+ pretty start)))
      as (bs & E2 & F & Ns & Cs & ND & Us).
    exists (r :: bs). cbn [for_range].
    erewrite bind_ok by exact E. erewrite bind_ok by exact E2.
    split.
    { unfold mret, M_ret. f_equal. cbn [rrdb_names flat_map].
      rewrite <- app_assoc. reflexivity. }
    split; [constructor; assumption|].
    split; [cbn [map rrdb_names]; congruence|].
    unfold trunk_conv_list in *. cbn [flat_map].
    split; [rewrite Forall_app; auto|].
    rewrite map_app.
    assert (L : length (rrdb_created ("RRDB_" +:+ pretty start)) = 34%nat)
      by reflexivity.
    rewrite length_app, L in Us.
    assert (Ur : Forall (fun u => (length s <= u < length s + 34)%nat)
                   (map Conv2D.uid (rrdb_conv_list r))).
    { rewrite U. repeat (constructor; [lia|]). constructor. }
    split.
    + apply NoDup_app. split; [|split; [|exact ND]].
      * rewrite U. apply NoDup_fmap_2; [intros a b; lia|].
        refine (bool_decide_unpack _ _). vm_compute. exact I.
      * intros u Hu1 Hu2.
        rewrite Forall_forall in Ur, Us.
        specialize (Ur u Hu1). specialize (Us u Hu2). lia.
    + rewrite Forall_app. split.
      * eapply Forall_impl; [exact Ur|]. intros u Hu. cbn beta in *. lia.
      * eapply Forall_impl; [exact Us|]. intros u Hu. cbn beta in *. lia.
Qed.

(** ** The generator, built and called *)

Lemma int32_ok (n : Z) : - 2 ^ 31 <= n < 2 ^ 31 -> int32 n = true.
Proof.
  intros H. unfold int32. apply andb_true_iff. split.
  - apply Z.leb_le. lia.
  - apply Z.ltb_lt. lia.
Qed.

Lemma wrap32_small (n : Z) : - 2 ^ 31 <= n < 2 ^ 31 -> wrap32 n = n.
Proof.
  intros H. unfold wrap32.
  rewrite Z.mod_small by lia. lia.
Qed.

Ltac run_model :=
  cbv -[Z.sub Z.mul Z.div Z.min Z.pow Z.add Z.opp conv_output_length
        _regularizer _kernel_init Conv2D.__init__ int32 wrap32
        Z.eqb Z.ltb Z.leb Z.lt Z.le Z.compare fits
        Sequential.call for_range pretty String.append length app
        broadcast_shape getitem trunk_conv_list map].

Ltac decide_cmp :=
  repeat match goal with
         | |- context [Z.eqb ?a ?a] => rewrite (Z.eqb_refl a)
         | |- context [Z.ltb ?a ?b] =>
             first [ rewrite (proj2 (Z.ltb_lt a b)) by lia
                   | rewrite (proj2 (Z.ltb_ge a b)) by lia ]
         | |- context [Z.leb ?a ?b] =>
             first [ rewrite (proj2 (Z.leb_le a b)) by lia
                   | rewrite (proj2 (Z.leb_gt a b)) by lia ]
         | |- context [int32 ?a] => rewrite (int32_ok a) by lia
         | |- context [wrap32 ?a] => rewrite (wrap32_small a) by lia
         end.

Ltac run_generator nf gc F :=
  repeat (progress
            (run_model;
             rewrite ?conv_output_length_same_1;
             repeat (rewrite Conv2D_init_ok by lia);
             rewrite ?(Sequential_call_shape nf gc py_0_2) by exact F;
             rewrite ?broadcast_shape_refl;
             cbn [length];
             decide_cmp)).

Lemma RRDB_Model_observed (size : dim) (channels : Z)
    (cfg_net : gmap string Z) (gc : Z) (wd : pyfloat) (name : string)
    (nf nb : Z) s :
  generator_size size -> 0 < channels -> 0 < nf -> 0 < gc ->
  cfg_net !! "nf" = Some nf -> cfg_net !! "nb" = Some nb ->
  exists m s' blocks trunk,
    RRDB_Model size channels cfg_net gc wd name s = (Ok m, s') /\
    s' = (s ++ flat_map rrdb_created (rrdb_names 0 (Z.to_nat nb)))
           ++ generator_created name /\
    get_layer "RRDB_trunk" (Model.outputs m) = Some (LSequential trunk) /\
    Sequential.layers trunk = blocks /\
    Forall (rrdb_built nf gc py_0_2) blocks /\
    map ResInResDenseBlock.name blocks = rrdb_names 0 (Z.to_nat nb) /\
    Forall (block_conv_settings wd) (trunk_conv_list blocks) /\
    NoDup (map Conv2D.uid (trunk_conv_list blocks)) /\
    sketch_of (Model.outputs m)
    = generator_sketch size channels nf
        (map ResInResDenseBlock.name blocks) /\
    map (fun n => get_layer_output_shape n (Model.outputs m))
      ["conv_first"; "RRDB_trunk"; "conv_trunk"; "upconv_1"; "upconv_2";
       "conv_hr"; "conv_last"]
    = [Some [None; size; size; Some nf];
       Some [None; size; size; Some nf];
       Some [None; size; size; Some nf];
       Some [None; dim_mul size 2; dim_mul size 2; Some nf];
       Some [None; dim_mul size 4; dim_mul size 4; Some nf];
       Some [None; dim_mul size 4; dim_mul size 4; Some nf];
       Some [None; dim_mul size 4; dim_mul size 4; Some channels]] /\
    Forall (fun c => model_conv_settings wd c \/ block_conv_settings wd c)
      (kt_convs (Model.outputs m)) /\
    Model.input_shape m = [None; size; size; Some channels] /\
    Model.output_shape m
    = [None; dim_mul size 4; dim_mul size 4; Some channels] /\
    forall n h w : Z,
      0 < n -> fits size h w ->
      Model_call m [Some n; Some h; Some w; Some channels]
      = Ok [Some n; Some (h * 4); Some (w * 4); Some channels].
Proof.
  intros Hsize Hch Hnf' Hgc Hnf Hnb. unfold RRDB_Model.
  erewrite bind_ok by (apply getitem_Some; exact Hnf).
  erewrite bind_ok by (apply getitem_Some; exact Hnb).
  cbv zeta.
  destruct (for_range_rrdb_full nf gc py_0_2 wd (Z.to_nat nb) 0 s Hnf' Hgc)
    as (blocks & E & F & Ns & Cs & ND & _).
  erewrite bind_ok by exact E.
  generalize (s ++ flat_map rrdb_created (rrdb_names 0 (Z.to_nat nb))).
  intros s1.
  change (2 ^ 31) with 2147483648 in *.
  destruct size as [sz|]; cbn [generator_size] in Hsize;
    run_generator nf gc F.
  all: eexists _, _, blocks, _.
  all: split; [reflexivity|].
  all: split; [rewrite <- !app_assoc; reflexivity|].
  all: split; [reflexivity|].
  all: split; [reflexivity|].
  all: split; [exact F|].
  all: split; [exact Ns|].
  all: split; [exact Cs|].
  all: split; [exact ND|].
  all: split; [reflexivity|].
  all: split; [run_model; rewrite ?conv_output_length_same_1; reflexivity|].
  all: split.
  1,3: run_model;
    repeat (apply Forall_cons; split;
            [left; repeat split; try reflexivity; eexists; reflexivity|]);
    rewrite ?app_nil_r;
    repeat first
      [ apply Forall_nil_2
      | apply Forall_app; split
      | apply Forall_cons; split;
        [left; repeat split; try reflexivity; eexists; reflexivity|]
      | eapply Forall_impl; [exact Cs|intros c Hc; right; exact Hc] ].
  all: split; [reflexivity|].
  all: split; [cbn [dim_mul]; reflexivity|].
  all: intros n h w _ Hfit; cbn [fits] in Hfit; unfold Model_call.
  - destruct Hfit as [-> ->]. run_generator nf gc F. reflexivity.
  - change (2 ^ 31) with 2147483648 in *. run_generator nf gc F. reflexivity.
Qed.

(** ** Where a [KeyError] can come from *)

Lemma no_KeyError_Ok {A} (a : A) : no_KeyError (Ok a).
Proof. intros k. discriminate. Qed.

Lemma no_KeyError_ValueError {A} : no_KeyError (@Raise A ValueError).
Proof. intros k. discriminate. Qed.

Lemma no_KeyError_bind {A B} (r : res A) (f : A -> res B) :
  no_KeyError r -> (forall a, no_KeyError (f a)) -> no_KeyError (r ≫= f).
Proof.
  intros Hr Hf. destruct r as [a|e]; [apply Hf|].
  intros k E. apply (Hr k). injection E as ->. reflexivity.
Qed.

Lemma no_KeyError_fmap {A B} (r : res A) (f : A -> B) :
  no_KeyError r -> no_KeyError (f <$> r).
Proof.
  intros Hr. destruct r as [a|e]; [apply no_KeyError_Ok|].
  intros k E. apply (Hr k). injection E as ->. reflexivity.
Qed.

Create HintDb nke.

#[local] Hint Resolve no_KeyError_Ok no_KeyError_ValueError : nke.

Lemma no_KeyError_merge_dim (a b : dim) : no_KeyError (merge_dim a b).
Proof.
  destruct a as [x|], b as [y|]; cbn [merge_dim]; auto with nke.
  destruct (x =? y); auto with nke.
Qed.

Lemma no_KeyError_concat2_shape (axis : Z) (a b : shape) :
  no_KeyError (concat2_shape axis a b).
Proof.
  revert axis b. induction a as [|x a IH]; intros axis [|y b];
    cbn [concat2_shape]; auto with nke.
  apply no_KeyError_bind.
  - destruct (axis =? 0); [auto with nke|apply no_KeyError_merge_dim].
  - intros d. apply no_KeyError_bind; [apply IH|auto with nke].
Qed.

Lemma no_KeyError_concat_shape (xs : list shape) (axis : Z) :
  no_KeyError (concat_shape xs axis).
Proof.
  destruct xs as [|x rest]; cbn [concat_shape]; [auto with nke|].
  apply no_KeyError_bind.
  - unfold normalize_axis. cbv zeta.
    destruct (_ && _); auto with nke.
  - intros ax. generalize (@Ok shape x) (no_KeyError_Ok x).
    induction rest as [|y rest IH]; intros acc Hacc; cbn [foldl];
      [exact Hacc|].
    apply IH, no_KeyError_bind; [exact Hacc|].
    intros a. apply no_KeyError_concat2_shape.
Qed.

Lemma no_KeyError_broadcast_dim (x y : dim) : no_KeyError (broadcast_dim x y).
Proof.
  destruct x as [a|], y as [b|]; cbn [broadcast_dim]; auto with nke.
  - destruct (a =? 1); [auto with nke|].
    destruct (b =? 1); [auto with nke|].
    destruct (a =? b); auto with nke.
  - destruct (1 <? a); auto with nke.
  - destruct (1 <? b); auto with nke.
Qed.

Lemma no_KeyError_broadcast_rev (a b : shape) :
  no_KeyError (broadcast_rev a b).
Proof.
  revert b. induction a as [|x a IH]; intros [|y b];
    cbn [broadcast_rev]; auto with nke.
  apply no_KeyError_bind; [apply no_KeyError_broadcast_dim|].
  intros d. apply no_KeyError_bind; [apply IH|auto with nke].
Qed.

Lemma no_KeyError_broadcast_shape (a b : shape) :
  no_KeyError (broadcast_shape a b).
Proof.
  unfold broadcast_shape.
  apply no_KeyError_bind; [apply no_KeyError_broadcast_rev|auto with nke].
Qed.

Lemma no_KeyError_Conv2D_output_shape (c : Conv2D.t) (x : shape) :
  no_KeyError (Conv2D.output_shape c x).
Proof.
  unfold Conv2D.output_shape.
  destruct x as [|b [|h [|w [|[ch|] [|]]]]]; auto with nke.
Qed.

Lemma no_KeyError_ResDenseBlock_5C_call (self : ResDenseBlock_5C.t)
    (x : shape) :
  no_KeyError (ResDenseBlock_5C.call self x).
Proof.
  unfold ResDenseBlock_5C.call, mul_r.
  cbn [Conv2D_call tf_concat tf_multiply tf_add convert_to_tensor shape_ops].
  repeat first
    [ apply no_KeyError_Conv2D_output_shape
    | apply no_KeyError_concat_shape
    | apply no_KeyError_broadcast_shape
    | apply no_KeyError_bind; [|intros ?] ].
Qed.

Lemma no_KeyError_ResInResDenseBlock_call (self : ResInResDenseBlock.t)
    (x : shape) :
  no_KeyError (ResInResDenseBlock.call self x).
Proof.
  unfold ResInResDenseBlock.call, mul_r.
  cbn [tf_multiply tf_add convert_to_tensor shape_ops].
  repeat first
    [ apply no_KeyError_ResDenseBlock_5C_call
    | apply no_KeyError_broadcast_shape
    | apply no_KeyError_bind; [|intros ?] ].
Qed.

Lemma no_KeyError_Sequential_call (self : Sequential.t) (x : shape) :
  no_KeyError (Sequential.call self x).
Proof.
  unfold Sequential.call.
  generalize (@Ok shape x) (no_KeyError_Ok x).
  induction (Sequential.layers self) as [|r rs IH]; intros acc Hacc;
    cbn [foldl]; [exact Hacc|].
  apply IH, no_KeyError_bind; [exact Hacc|].
  intros a. apply no_KeyError_ResInResDenseBlock_call.
Qed.

Lemma never_KeyError_ret {A} (a : A) : never_KeyError (mret a).
Proof. intros s. apply no_KeyError_Ok. Qed.

Lemma never_KeyError_lift {A} (r : res A) :
  no_KeyError r -> never_KeyError (lift r).
Proof. intros H s. exact H. Qed.

Lemma never_KeyError_new_layer (cls : string) (name : option string) :
  never_KeyError (new_layer cls name).
Proof. intros s. apply no_KeyError_Ok. Qed.

Lemma never_KeyError_bind {A B} (m : M A) (f : A -> M B) :
  never_KeyError m -> (forall a, never_KeyError (f a)) ->
  never_KeyError (m ≫= f).
Proof.
  intros Hm Hf s. unfold mbind, M_bind.
  specialize (Hm s). destruct (m s) as [[a|e] s']; [apply Hf|].
  intros k E. apply (Hm k). cbn [fst] in *. injection E as ->. reflexivity.
Qed.

Lemma never_KeyError_for_range {A} (f : Z -> M A) (start : Z) (n : nat) :
  (forall i, never_KeyError (f i)) -> never_KeyError (for_range f start n).
Proof.
  intros Hf. revert start. induction n as [|n IH]; intros start;
    cbn [for_range]; [apply never_KeyError_ret|].
  apply never_KeyError_bind; [apply Hf|]. intros a.
  apply never_KeyError_bind; [apply IH|]. intros r.
  apply never_KeyError_ret.
Qed.

Lemma never_KeyError_GELU_init : never_KeyError GELU.__init__.
Proof.
  unfold GELU.__init__.
  apply never_KeyError_bind; [apply never_KeyError_new_layer|].
  intros u. apply never_KeyError_ret.
Qed.

Lemma never_KeyError_Conv2D_init (filters kernel_size strides : Z)
    (padding : padding_mode) (activation : option GELU.t)
    (use_bias : bool) (kernel_initializer bias_initializer : initializer)
    (kernel_regularizer : option L2) (name : option string) :
  never_KeyError
    (Conv2D.__init__ filters kernel_size strides padding activation use_bias
       kernel_initializer bias_initializer kernel_regularizer name).
Proof.
  unfold Conv2D.__init__.
  apply never_KeyError_bind.
  { apply never_KeyError_lift. destruct (filters <=? 0); auto with nke. }
  intros _. apply never_KeyError_bind; [apply never_KeyError_new_layer|].
  intros u. apply never_KeyError_ret.
Qed.

Ltac never_KeyError_step :=
  first
    [ apply never_KeyError_ret
    | apply never_KeyError_new_layer
    | apply never_KeyError_GELU_init
    | apply never_KeyError_Conv2D_init
    | apply never_KeyError_bind; [|intros ?] ].

Lemma never_KeyError_ResDenseBlock_5C_init (nf gc : Z) (beta wd : pyfloat)
    (name : string) :
  never_KeyError (ResDenseBlock_5C.__init__ nf gc beta wd name).
Proof.
  unfold ResDenseBlock_5C.__init__. cbv zeta. repeat never_KeyError_step.
Qed.

Lemma never_KeyError_ResInResDenseBlock_init (nf gc : Z) (beta wd : pyfloat)
    (name : string) :
  never_KeyError (ResInResDenseBlock.__init__ nf gc beta wd name).
Proof.
  unfold ResInResDenseBlock.__init__.
  repeat first [ apply never_KeyError_ResDenseBlock_5C_init
               | never_KeyError_step ].
Qed.

Lemma never_KeyError_call_Conv2D (c : Conv2D.t) (x : KerasTensor) :
  never_KeyError (__call__ (LConv2D c) x).
Proof.
  apply never_KeyError_lift, no_KeyError_bind;
    [apply no_KeyError_Conv2D_output_shape|auto with nke].
Qed.

Lemma never_KeyError_call_Sequential (l : Sequential.t) (x : KerasTensor) :
  never_KeyError (__call__ (LSequential l) x).
Proof.
  apply never_KeyError_lift, no_KeyError_bind;
    [apply no_KeyError_Sequential_call|auto with nke].
Qed.

Lemma never_KeyError_kt_add (a b : KerasTensor) : never_KeyError (kt_add a b).
Proof.
  apply never_KeyError_lift, no_KeyError_bind;
    [apply no_KeyError_broadcast_shape|auto with nke].
Qed.

Lemma never_KeyError_kt_getitem (t : KerasTensor) (i : Z) :
  never_KeyError (kt_getitem t i).
Proof.
  apply never_KeyError_lift.
  destruct (kt_shape t) as [|[n|] sh]; auto with nke.
  cbv zeta. destruct (_ && _); auto with nke.
Qed.

Lemma never_KeyError_scalar_mul (a : scalar) (k : Z) :
  never_KeyError (scalar_mul a k).
Proof. destruct a; apply never_KeyError_ret. Qed.

Lemma no_KeyError_size_entry (a : scalar) : no_KeyError (size_entry a).
Proof.
  destruct a as [n|t]; cbn [size_entry]; [|auto with nke].
  destruct (int32 n); auto with nke.
Qed.

Lemma never_KeyError_tf_image_resize (x : KerasTensor)
    (size : scalar * scalar) (method : resize_method) (name : string) :
  never_KeyError (tf_image_resize x size method name).
Proof.
  apply never_KeyError_lift.
  apply no_KeyError_bind; [apply no_KeyError_size_entry|]. intros h.
  apply no_KeyError_bind; [apply no_KeyError_size_entry|]. intros w.
  apply no_KeyError_bind; [|auto with nke].
  destruct (kt_shape x) as [|a [|b [|c [|d [|]]]]]; auto with nke.
Qed.

(** Once the configuration has been read, the builder raises no
    [KeyError]. *)
Lemma never_KeyError_RRDB_Model (size : dim) (channels : Z)
    (cfg_net : gmap string Z) (gc : Z) (wd : pyfloat) (name : string)
    (nf nb : Z) s :
  cfg_net !! "nf" = Some nf -> cfg_net !! "nb" = Some nb ->
  no_KeyError (fst (RRDB_Model size channels cfg_net gc wd name s)).
Proof.
  intros Hnf Hnb. unfold RRDB_Model.
  erewrite bind_ok by (apply getitem_Some; exact Hnf).
  erewrite bind_ok by (apply getitem_Some; exact Hnb).
  cbv zeta. revert s. change (never_KeyError ?m) with (forall s, no_KeyError (fst (m s))).
  unfold Sequential.__init__, Input, Model.__init__, tf_shape.
  repeat first
    [ apply never_KeyError_for_range; intros ?
    | apply never_KeyError_ResInResDenseBlock_init
    | apply never_KeyError_call_Conv2D
    | apply never_KeyError_call_Sequential
    | apply never_KeyError_kt_add
    | apply never_KeyError_kt_getitem
    | apply never_KeyError_scalar_mul
    | apply never_KeyError_tf_image_resize
    | never_KeyError_step
    | match goal with
      | |- never_KeyError (match ?x with _ => _ end) => destruct x
      end ].
Qed.

Local Abbreviation halve d := (conv_output_length d 4 same 2).

Lemma DiscriminatorVGG128_run (size : dim) (channels nf : Z) (wd : pyfloat)
    (name : string) s :
  0 < nf ->
  exists m s' ls,
    DiscriminatorVGG128 size channels nf wd name s = (Ok m, s') /\
    Model.input_shape m = [None; size; size; Some channels] /\
    Model.output_shape m = [None; Some 1] /\
    unchain (Model.outputs m) = (Model.inputs m, ls) /\
    map summary ls = map Some (spec_discriminator nf) /\
    map (fun n => get_layer_output_shape n (Model.outputs m))
      ["bn0_1"; "bn1_1"; "bn2_1"; "bn3_1"; "bn4_1"]
    = [Some [None; halve size; halve size; Some nf];
       Some [None; halve (halve size); halve (halve size); Some (nf * 2)];
       Some [None; halve (halve (halve size)); halve (halve (halve size));
             Some (nf * 4)];
       Some [None; halve (halve (halve (halve size)));
             halve (halve (halve (halve size))); Some (nf * 8)];
       Some [None; halve (halve (halve (halve (halve size))));
             halve (halve (halve (halve (halve size)))); Some (nf * 8)]].
Proof.
  intros Hnf. unfold DiscriminatorVGG128. run_builder.
  rewrite !conv_output_length_same_1.
  eexists _, _, _. repeat (split; [reflexivity|]).
  run_builder. rewrite !conv_output_length_same_1. reflexivity.
Qed.

(** ** The generator *)

(** C1.  For every valid size (unspecified, or positive with four times
    the size an int32 number), channel count and configuration, the
    generator is built; its input is a batch of [size] x [size] images
    with [channels] channels and its output, by its static shape, a
    batch of images four times as high and wide with the same number
    of channels (of unknown height and width for an unspecified size);
    and the model, called on a batch of [n > 0] images of height [h]
    and width [w] that fits the size, returns [n] images of height
    [4 * h] and width [4 * w] with the same number of channels. *)
Theorem RRDB_Model_output_shape (size : dim) (channels gc nf nb : Z)
    (cfg_net : gmap string Z) (wd : pyfloat) (name : string) s :
  generator_size size -> 0 < channels -> 0 < nf -> 0 < gc ->
  cfg_net !! "nf" = Some nf -> cfg_net !! "nb" = Some nb ->
  exists m s',
    RRDB_Model size channels cfg_net gc wd name s = (Ok m, s') /\
    Model.input_shape m = [None; size; size; Some channels] /\
    Model.output_shape m
    = [None; dim_mul size 4; dim_mul size 4; Some channels] /\
    forall n h w : Z,
      0 < n -> fits size h w ->
      Model_call m [Some n; Some h; Some w; Some channels]
      = Ok [Some n; Some (h * 4); Some (w * 4); Some channels].
Proof.
  intros Hsize Hch Hnf' Hgc Hnf Hnb.
  destruct (RRDB_Model_observed size channels cfg_net gc wd name nf nb s
              Hsize Hch Hnf' Hgc Hnf Hnb)
    as (m & s' & blocks & trunk & E & _ & _ & _ & _ & _ & _ & _ & _ & _ & _
        & Hin & Hout & Hcall).
  exists m, s'. auto.
Qed.

(** The scenario of the specification:
    [RRDB_Model(size=32, channels=3, cfg_net={'nf':64,'nb':2}, gc=32)]
    has output shape [[None, 128, 128, 3]]; and a generator of
    unspecified size takes an image of 24 x 40 to one of 96 x 160. *)
Lemma RRDB_Model_output_shape_32 :
  (generator_size (Some 32) /\ 0 < 3 /\ 0 < 64 /\ 0 < 32) /\
  (exists m s',
     RRDB_Model (Some 32) 3 {[ "nf" := 64; "nb" := 2 ]} 32 py_0 "RRDB_model" []
     = (Ok m, s') /\
     Model.input_shape m = [None; Some 32; Some 32; Some 3] /\
     Model.output_shape m = [None; Some 128; Some 128; Some 3] /\
     Model_call m [Some 1; Some 32; Some 32; Some 3]
     = Ok [Some 1; Some 128; Some 128; Some 3]) /\
  (generator_size None /\ fits None 24 40) /\
  (exists m s',
     RRDB_Model None 3 {[ "nf" := 64; "nb" := 2 ]} 32 py_0 "RRDB_model" []
     = (Ok m, s') /\
     Model.output_shape m = [None; None; None; Some 3] /\
     Model_call m [Some 1; Some 24; Some 40; Some 3]
     = Ok [Some 1; Some 96; Some 160; Some 3]).
Proof.
  assert (G : generator_size (Some 32)) by (cbn; lia).
  assert (Ft : fits None 24 40) by (cbn; lia).
  split; [repeat split; try exact G; lia|].
  split; [|split; [split; [exact I|exact Ft]|]].
  - destruct (RRDB_Model_output_shape (Some 32) 3 32 64 2
                {[ "nf" := 64; "nb" := 2 ]} py_0 "RRDB_model" [])
      as (m & s' & E & Hin & Hout & Hcall);
      [exact G|lia|lia|lia|reflexivity|reflexivity|].
    exists m, s'. split; [exact E|]. split; [exact Hin|].
    split; [exact Hout|]. apply (Hcall 1 32 32); [lia|]. split; reflexivity.
  - destruct (RRDB_Model_output_shape None 3 32 64 2
                {[ "nf" := 64; "nb" := 2 ]} py_0 "RRDB_model" [])
      as (m & s' & E & Hin & Hout & Hcall);
      [exact I|lia|lia|lia|reflexivity|reflexivity|].
    exists m, s'. split; [exact E|]. split; [exact Hout|].
    apply (Hcall 1 24 40); [lia|]. exact Ft.
Defined.

(** C7.  A configuration without ['nf'] or without ['nb'] makes the
    construction raise [KeyError] for the missing key with no layer
    instantiated; a configuration with both keys never raises
    [KeyError]. *)
Theorem RRDB_Model_KeyError (size : dim) (channels : Z)
    (cfg_net : gmap string Z) (gc : Z) (wd : pyfloat) (name : string) s :
  (cfg_net !! "nf" = None \/ cfg_net !! "nb" = None ->
   exists k, (k = "nf" \/ k = "nb") /\ cfg_net !! k = None /\
     RRDB_Model size channels cfg_net gc wd name s = (Raise (KeyError k), s))
  /\
  (is_Some (cfg_net !! "nf") -> is_Some (cfg_net !! "nb") ->
   forall k,
     fst (RRDB_Model size channels cfg_net gc wd name s) <> Raise (KeyError k)).
Proof.
  split.
  - intros H. destruct (cfg_net !! "nf") as [nf|] eqn:Hnf.
    + destruct H as [H|H]; [discriminate|].
      exists "nb". split; [right; reflexivity|]. split; [exact H|].
      unfold RRDB_Model.
      erewrite bind_ok by (apply getitem_Some; exact Hnf).
      apply bind_raise, getitem_None, H.
    + exists "nf". split; [left; reflexivity|]. split; [exact Hnf|].
      unfold RRDB_Model. apply bind_raise, getitem_None, Hnf.
  - intros [nf Hnf] [nb Hnb].
    exact (never_KeyError_RRDB_Model size channels cfg_net gc wd name nf nb s
             Hnf Hnb).
Qed.

Lemma RRDB_Model_KeyError_examples :
  (({[ "nf" := 64 ]} : gmap string Z) !! "nf" = None \/
   ({[ "nf" := 64 ]} : gmap string Z) !! "nb" = None) /\
  (exists k, (k = "nf" \/ k = "nb") /\
     ({[ "nf" := 64 ]} : gmap string Z) !! k = None /\
     RRDB_Model (Some 32) 3 {[ "nf" := 64 ]} 32 py_0 "RRDB_model" []
     = (Raise (KeyError k), [])) /\
  is_Some (({[ "nf" := 64; "nb" := 2 ]} : gmap string Z) !! "nf") /\
  is_Some (({[ "nf" := 64; "nb" := 2 ]} : gmap string Z) !! "nb") /\
  forall k,
    fst (RRDB_Model (Some 32) 3 {[ "nf" := 64; "nb" := 2 ]} 32 py_0
           "RRDB_model" []) <> Raise (KeyError k).
Proof.
  assert (H1 : ({[ "nf" := 64 ]} : gmap string Z) !! "nf" = None \/
               ({[ "nf" := 64 ]} : gmap string Z) !! "nb" = None)
    by (right; reflexivity).
  assert (H2 : is_Some (({[ "nf" := 64; "nb" := 2 ]} : gmap string Z) !! "nf"))
    by (exists 64; reflexivity).
  assert (H3 : is_Some (({[ "nf" := 64; "nb" := 2 ]} : gmap string Z) !! "nb"))
    by (exists 2; reflexivity).
  split; [exact H1|].
  split; [exact (proj1 (RRDB_Model_KeyError (Some 32) 3 {[ "nf" := 64 ]} 32
                          py_0 "RRDB_model" []) H1)|].
  split; [exact H2|]. split; [exact H3|].
  exact (proj2 (RRDB_Model_KeyError (Some 32) 3 {[ "nf" := 64; "nb" := 2 ]} 32
                  py_0 "RRDB_model" []) H2 H3).
Defined.

(** ** The discriminator *)



(** C8.  The layers between the input and the output of the
    discriminator form one chain: stage 0 is a 3x3 convolution with
    bias, a 4x4 stride-2 convolution without bias and batch
    normalisation, with no activation; stages 1 to 4 put a GELU between
    their 3x3 and their stride-2 convolution, both without bias, and are
    [nf*2], [nf*4], [nf*8] and [nf*8] channels wide; pooling and one
    dense unit end the chain. *)
Theorem DiscriminatorVGG128_stages (size : dim) (channels nf : Z)
    (wd : pyfloat) (name : string) s :
  (forall sz, size = Some sz -> 0 < sz) -> 0 < channels -> 0 < nf ->
  exists m s' ls,
    DiscriminatorVGG128 size channels nf wd name s = (Ok m, s') /\
    unchain (Model.outputs m) = (Model.inputs m, ls) /\
    map summary ls
    = map Some
        ([SConv 3 1 nf true false; SConv 4 2 nf false false; SBatchNorm]
           ++ spec_stage nf 1 ++ spec_stage nf 2 ++ spec_stage nf 3
           ++ spec_stage nf 4 ++ [SPool; SDense 1]) /\
    map (stage_width nf) [1; 2; 3; 4] = [nf * 2; nf * 4; nf * 8; nf * 8].
Proof.
  intros _ _ Hnf.
  destruct (DiscriminatorVGG128_run size channels nf wd name s Hnf)
    as (m & s' & ls & E & _ & _ & Hch & Hls & _).
  exists m, s', ls. split; [exact E|]. split; [exact Hch|].
  split; [exact Hls|]. reflexivity.
Qed.

Lemma DiscriminatorVGG128_stages_128 :
  ((forall sz, Some 128 = Some sz -> 0 < sz) /\ 0 < 3 /\ 0 < 64) /\
  exists m s' ls,
    DiscriminatorVGG128 (Some 128) 3 64 py_0 "Discriminator_VGG_128" []
    = (Ok m, s') /\
    unchain (Model.outputs m) = (Model.inputs m, ls) /\
    map summary ls
    = map Some
        ([SConv 3 1 64 true false; SConv 4 2 64 false false; SBatchNorm]
           ++ spec_stage 64 1 ++ spec_stage 64 2 ++ spec_stage 64 3
           ++ spec_stage 64 4 ++ [SPool; SDense 1]) /\
    map (stage_width 64) [1; 2; 3; 4] = [64 * 2; 64 * 4; 64 * 8; 64 * 8].
Proof.
  assert (H : forall sz : Z, Some 128 = Some sz -> 0 < sz)
    by (intros sz [= <-]; lia).
  split; [repeat split; try lia; exact H|].
  apply (DiscriminatorVGG128_stages (Some 128) 3 64); try lia; exact H.
Defined.

(** ** Arithmetic of tensor elements *)

Lemma SFadd_comm (prec emax : Z) (x y : spec_float) :
  SFadd prec emax x y = SFadd prec emax y x.
Proof.
  unfold SFadd.
  destruct x as [sx|sx| |sx mx ex], y as [sy|sy| |sy my ey];
    try reflexivity; try (destruct sx, sy; reflexivity).
  cbv zeta. rewrite (Z.min_comm ey ex).
  rewrite (Z.add_comm (cond_Zopp sy _)). reflexivity.
Qed.

Lemma SFmul_comm (prec emax : Z) (x y : spec_float) :
  SFmul prec emax x y = SFmul prec emax y x.
Proof.
  unfold SFmul.
  destruct x as [sx|sx| |sx mx ex], y as [sy|sy| |sy my ey];
    try reflexivity; try (rewrite (xorb_comm sy sx); reflexivity).
  rewrite (xorb_comm sy sx), (Pos.mul_comm my mx), (Z.add_comm ey ex).
  reflexivity.
Qed.

Lemma f32_add_comm (x y : float32) : f32_add x y = f32_add y x.
Proof. unfold f32_add. rewrite SFadd_comm. reflexivity. Qed.

Lemma f32_mul_comm (x y : float32) : f32_mul x y = f32_mul y x.
Proof. unfold f32_mul. rewrite SFmul_comm. reflexivity. Qed.

(** Flushing leaves a number as it is, or turns a finite number into a
    zero. *)
Lemma flush_cases (v : float32) :
  (flush v = v /\ is_subnormal v = false) \/
  (exists s, flush v = S754_zero s /\ is_finite v = true).
Proof.
  destruct v as [s|s| |s m e]; try (left; split; reflexivity).
  unfold flush. destruct (is_subnormal (S754_finite s m e)) eqn:E.
  - right. exists s. split; reflexivity.
  - left. split; reflexivity.
Qed.

Lemma flush_is_finite (v : float32) : is_finite (flush v) = is_finite v.
Proof.
  destruct (flush_cases v) as [[E _]|(s & E & F)]; rewrite E; [reflexivity|].
  symmetry. exact F.
Qed.

(** A finite number times a zero is a zero. *)
Lemma f32_mul_zero_r (v : float32) (sg : bool) :
  is_finite v = true -> is_zero (f32_mul v (S754_zero sg)) = true.
Proof.
  intros Hv. unfold f32_mul. cbn [flush].
  pose proof (flush_is_finite v) as F. rewrite Hv in F.
  destruct (flush v); try discriminate; reflexivity.
Qed.

Lemma f32_mul_zero_l (v : float32) (sg : bool) :
  is_finite v = true -> is_zero (f32_mul (S754_zero sg) v) = true.
Proof. intros Hv. rewrite f32_mul_comm. apply f32_mul_zero_r, Hv. Qed.

(** A zero added to a number leaves the number as the kernels read it,
    up to the sign of a zero. *)
Lemma f32_add_zero_l (z u : float32) :
  is_zero z = true -> same_number (f32_add z u) (flush u).
Proof.
  destruct z as [sz| | |]; try discriminate. intros _.
  unfold f32_add, same_number. cbn [flush].
  destruct (flush_cases u) as [[E S]|(s & E & F)]; rewrite E.
  - destruct u as [su|su| |su mu eu].
    + right. destruct sz, su; split; reflexivity.
    + left. reflexivity.
    + left. reflexivity.
    + left. cbn [SFadd]. unfold flush. rewrite S. reflexivity.
  - right. destruct sz, s; split; reflexivity.
Qed.

Lemma f32_zero_residual (v u : float32) (sg : bool) :
  is_finite v = true ->
  same_number (f32_add (f32_mul v (S754_zero sg)) u) (flush u).
Proof. intros Hv. apply f32_add_zero_l, f32_mul_zero_r, Hv. Qed.

(** Infinity or NaN times a zero is NaN, and NaN stays. *)
Lemma f32_mul_nonfinite_zero (v : float32) (sg : bool) :
  is_finite v = false -> f32_mul v (S754_zero sg) = S754_nan.
Proof. destruct v; try discriminate; reflexivity. Qed.

Lemma f32_add_nan_l (u : float32) : f32_add S754_nan u = S754_nan.
Proof. unfold f32_add. cbn [flush]. destruct (flush u); reflexivity. Qed.

Lemma f32_add_nan_r (a : float32) : f32_add a S754_nan = S754_nan.
Proof. rewrite f32_add_comm. apply f32_add_nan_l. Qed.

Lemma f32_nonfinite_residual (v u : float32) (sg : bool) :
  is_finite v = false -> f32_add (f32_mul v (S754_zero sg)) u = S754_nan.
Proof.
  intros Hv. rewrite (f32_mul_nonfinite_zero v sg Hv). apply f32_add_nan_l.
Qed.

Lemma f32_add_nonfinite_r (a u : float32) :
  is_finite u = false -> is_finite (f32_add a u) = false.
Proof.
  intros Hu. unfold f32_add. rewrite flush_is_finite.
  destruct u as [su|su| |su mu eu]; try discriminate; cbn [flush].
  - destruct (flush a) as [sa|sa| |sa ma ea]; try reflexivity.
    destruct sa, su; reflexivity.
  - destruct (flush a); reflexivity.
Qed.

(** ** The laws of the two kinds of tensors *)

Global Instance shape_laws : OpsLaws shape.
Proof. split; exact broadcast_shape_comm. Qed.

Lemma e_binop_comm (f : float32 -> float32 -> float32) (a b : ETensor) :
  (forall u v, f u v = f v u) -> e_binop f a b = e_binop f b a.
Proof.
  intros Hf. unfold e_binop. rewrite (broadcast_shape_comm (eshape b)).
  destruct (broadcast_shape (eshape a) (eshape b)) as [s|e]; [|reflexivity].
  cbn [mbind res_bind]. do 2 f_equal.
  apply functional_extensionality. intros idx. apply Hf.
Qed.

Lemma eager_laws (conv_fn : Conv2D.t -> ETensor -> res ETensor) :
  @OpsLaws ETensor (eager_ops conv_fn).
Proof.
  split; intros a b; cbn [tf_add tf_multiply eager_ops].
  - apply e_binop_comm, f32_add_comm.
  - apply e_binop_comm, f32_mul_comm.
Qed.

(** ** The forward contracts of the blocks *)

Section contracts.
Context {T : Type} `{ops : Ops T}.

(** The [call] of the Residual Dense Block scales and adds the [x5] of
    the specification. *)
Lemma ResDenseBlock_5C_call_branch (self : ResDenseBlock_5C.t) (x : T) :
  ResDenseBlock_5C.call self x
  = (x5 ← spec_rdb_branch self x;
     m ← mul_r x5 (ResDenseBlock_5C.res_beta self);
     tf_add m x).
Proof.
  unfold ResDenseBlock_5C.call, spec_rdb_branch.
  destruct (Conv2D_call (ResDenseBlock_5C.conv1 self) x) as [x1|e];
    [|reflexivity].
  cbn [mbind res_bind foldl dense_step].
  destruct (tf_concat [x; x1] 3) as [c2|e]; [|reflexivity].
  cbn [mbind res_bind].
  destruct (Conv2D_call (ResDenseBlock_5C.conv2 self) c2) as [x2|e];
    [|reflexivity].
  cbn [mbind res_bind app].
  destruct (tf_concat [x; x1; x2] 3) as [c3|e]; [|reflexivity].
  cbn [mbind res_bind].
  destruct (Conv2D_call (ResDenseBlock_5C.conv3 self) c3) as [x3|e];
    [|reflexivity].
  cbn [mbind res_bind app].
  destruct (tf_concat [x; x1; x2; x3] 3) as [c4|e]; [|reflexivity].
  cbn [mbind res_bind].
  destruct (Conv2D_call (ResDenseBlock_5C.conv4 self) c4) as [x4|e];
    [|reflexivity].
  cbn [mbind res_bind app].
  destruct (tf_concat [x; x1; x2; x3; x4] 3) as [c5|e]; [|reflexivity].
  cbn [mbind res_bind].
  destruct (Conv2D_call (ResDenseBlock_5C.conv5 self) c5) as [x5|e];
    reflexivity.
Qed.

Context `{!OpsLaws T}.

Lemma ResDenseBlock_5C_call_spec (self : ResDenseBlock_5C.t) (x : T) :
  ResDenseBlock_5C.call self x = spec_rdb self x.
Proof.
  rewrite ResDenseBlock_5C_call_branch. unfold spec_rdb, mul_r, mul_l.
  destruct (spec_rdb_branch self x) as [x5|e]; [|reflexivity].
  cbn [mbind res_bind]. rewrite (tf_multiply_comm x5).
  destruct (tf_multiply _ x5) as [m|e]; [|reflexivity].
  cbn [mbind res_bind]. apply tf_add_comm.
Qed.

Lemma ResInResDenseBlock_call_spec (self : ResInResDenseBlock.t) (x : T) :
  ResInResDenseBlock.call self x = spec_rrdb self x.
Proof.
  unfold ResInResDenseBlock.call, spec_rrdb, mul_r, mul_l.
  destruct (ResDenseBlock_5C.call _ x) as [o1|e]; [|reflexivity].
  cbn [mbind res_bind].
  destruct (ResDenseBlock_5C.call _ o1) as [o2|e]; [|reflexivity].
  cbn [mbind res_bind].
  destruct (ResDenseBlock_5C.call _ o2) as [o3|e]; [|reflexivity].
  cbn [mbind res_bind]. rewrite (tf_multiply_comm o3).
  destruct (tf_multiply _ o3) as [m|e]; [|reflexivity].
  cbn [mbind res_bind]. apply tf_add_comm.
Qed.

(** The [x5] of the specification, spelled out. *)
Lemma spec_rdb_branch_unfold (self : ResDenseBlock_5C.t) (x : T) :
  spec_rdb_branch self x
  = (x1 ← Conv2D_call (ResDenseBlock_5C.conv1 self) x;
     c2 ← tf_concat [x; x1] 3;
     x2 ← Conv2D_call (ResDenseBlock_5C.conv2 self) c2;
     c3 ← tf_concat [x; x1; x2] 3;
     x3 ← Conv2D_call (ResDenseBlock_5C.conv3 self) c3;
     c4 ← tf_concat [x; x1; x2; x3] 3;
     x4 ← Conv2D_call (ResDenseBlock_5C.conv4 self) c4;
     c5 ← tf_concat [x; x1; x2; x3; x4] 3;
     Conv2D_call (ResDenseBlock_5C.conv5 self) c5).
Proof.
  unfold spec_rdb_branch.
  destruct (Conv2D_call (ResDenseBlock_5C.conv1 self) x) as [x1|e];
    [|reflexivity].
  cbn [mbind res_bind foldl dense_step].
  destruct (tf_concat [x; x1] 3) as [c2|e]; [|reflexivity].
  cbn [mbind res_bind].
  destruct (Conv2D_call (ResDenseBlock_5C.conv2 self) c2) as [x2|e];
    [|reflexivity].
  cbn [mbind res_bind app].
  destruct (tf_concat [x; x1; x2] 3) as [c3|e]; [|reflexivity].
  cbn [mbind res_bind].
  destruct (Conv2D_call (ResDenseBlock_5C.conv3 self) c3) as [x3|e];
    [|reflexivity].
  cbn [mbind res_bind app].
  destruct (tf_concat [x; x1; x2; x3] 3) as [c4|e]; [|reflexivity].
  cbn [mbind res_bind].
  destruct (Conv2D_call (ResDenseBlock_5C.conv4 self) c4) as [x4|e];
    [|reflexivity].
  cbn [mbind res_bind app].
  destruct (tf_concat [x; x1; x2; x3; x4] 3) as [c5|e]; [|reflexivity].
  cbn [mbind res_bind].
  destruct (Conv2D_call (ResDenseBlock_5C.conv5 self) c5) as [x5|e];
    reflexivity.
Qed.

End contracts.

(** ** The blocks on eager tensors *)

Lemma fmap_Ok_inv {A B} (g : A -> B) (r : res A) (b : B) :
  g <$> r = Ok b -> exists a, r = Ok a /\ g a = b.
Proof. destruct r as [a|e]; [intros [= <-]; eauto|discriminate]. Qed.

Lemma e_binop_shape (f : float32 -> float32 -> float32) (a b : ETensor) :
  eshape <$> e_binop f a b = broadcast_shape (eshape a) (eshape b).
Proof.
  unfold e_binop. destruct (broadcast_shape (eshape a) (eshape b));
    reflexivity.
Qed.

Lemma e_concat_shape (xs : list ETensor) (axis : Z) :
  eshape <$> e_concat xs axis = concat_shape (map eshape xs) axis.
Proof.
  destruct xs as [|x rest]; [reflexivity|].
  unfold e_concat. cbn [map]. unfold concat_shape at 2.
  destruct (normalize_axis axis (length (eshape x))) as [ax|e] eqn:E;
    [|reflexivity].
  cbn [mbind res_bind]. unfold concat_shape. rewrite E. cbn [mbind res_bind].
  destruct (foldl _ _ _); reflexivity.
Qed.

Lemma in_bounds_length (s : shape) (idx : list Z) :
  in_bounds s idx -> length idx = length s.
Proof.
  revert idx. induction s as [|d s IH]; intros [|i idx]; cbn; try tauto.
  intros [_ H]. f_equal. apply IH, H.
Qed.

Lemma bcast_index_in_bounds (s : shape) (idx : list Z) :
  in_bounds s idx -> bcast_index s idx = idx.
Proof.
  intros H. unfold bcast_index.
  rewrite (in_bounds_length _ _ H), Nat.sub_diag, drop_0.
  revert idx H. induction s as [|d s IH]; intros [|i idx]; cbn; try tauto.
  intros [Hi H]. rewrite (IH _ H). f_equal.
  destruct d as [n|]; [|reflexivity].
  destruct (Z.eqb_spec n 1); [|reflexivity]. cbn in Hi. lia.
Qed.

Section eager.
Variable conv_fn : Conv2D.t -> ETensor -> res ETensor.

(** The residual connection [o * beta + x] on two tensors of one
    shape, element by element. *)
Lemma residual_eager (o x : ETensor) (beta : pyfloat) (s : shape) :
  eshape o = s -> eshape x = s ->
  exists y,
    (m ← mul_r (ops := eager_ops conv_fn) o beta;
     tf_add (Ops := eager_ops conv_fn) m x) = Ok y /\
    eshape y = s /\
    forall idx, in_bounds s idx ->
      eget y idx
      = f32_add (f32_mul (eget o idx) (f32_of_pyfloat beta)) (eget x idx).
Proof.
  intros Ho Hx. unfold mul_r.
  cbn [tf_multiply tf_add convert_to_tensor eager_ops].
  unfold e_binop. cbn [eshape e_convert].
  rewrite Ho, broadcast_shape_scalar_r. cbn [mbind res_bind eshape].
  rewrite Hx, broadcast_shape_refl. cbn [mbind res_bind].
  eexists. split; [reflexivity|]. split; [reflexivity|].
  intros idx Hidx. cbn [eget].
  rewrite !(bcast_index_in_bounds s idx Hidx). reflexivity.
Qed.

Ltac conv_step K B Hin x1 Hx1 :=
  let E := fresh "E" in
  pose proof (K _ _ _ _ Hin) as E; rewrite Hin in E; unfold shape in E;
  rewrite (Conv2D_output_shape_rdb _ _ _ _ _ _ B) in E;
  apply fmap_Ok_inv in E as (x1 & -> & Hx1); cbn [mbind res_bind].

Ltac concat_step xs b h w cs c0 c Hc :=
  let E := fresh "E" in
  pose proof (e_concat_shape xs 3) as E; cbn [map] in E;
  repeat match goal with H : eshape _ = _ |- _ => rewrite H in E end;
  unfold shape in E;
  let C := fresh "C" in
  pose proof (concat_shape_nhwc b h w cs c0) as C; cbn [map foldl] in C;
  rewrite C in E; clear C;
  apply fmap_Ok_inv in E as (c & -> & Hc); cbn [mbind res_bind].

(** The fifth convolution of a block yields a tensor of the shape of
    the input of the block. *)
Lemma spec_rdb_branch_eager (nf gc : Z) (beta : pyfloat)
    (self : ResDenseBlock_5C.t) (x : ETensor) (b h w : dim) :
  rdb_built nf gc beta self -> rdb_convs conv_fn nf gc self ->
  eshape x = [b; h; w; Some nf] ->
  exists x5,
    spec_rdb_branch (ops := eager_ops conv_fn) self x = Ok x5 /\
    eshape x5 = [b; h; w; Some nf].
Proof.
  intros (_ & B1 & B2 & B3 & B4 & B5) (K1 & K2 & K3 & K4 & K5) Hx.
  rewrite spec_rdb_branch_unfold. cbn [Conv2D_call tf_concat eager_ops].
  conv_step K1 B1 Hx x1 Hx1.
  concat_step [x; x1] b h w [gc] nf c2 Hc2.
  conv_step K2 B2 Hc2 x2 Hx2.
  concat_step [x; x1; x2] b h w [gc; gc] nf c3 Hc3.
  conv_step K3 B3 Hc3 x3 Hx3.
  concat_step [x; x1; x2; x3] b h w [gc; gc; gc] nf c4 Hc4.
  conv_step K4 B4 Hc4 x4 Hx4.
  concat_step [x; x1; x2; x3; x4] b h w [gc; gc; gc; gc] nf c5 Hc5.
  pose proof (K5 _ _ _ _ Hc5) as E. rewrite Hc5 in E. unfold shape in E.
  rewrite (Conv2D_output_shape_rdb _ _ _ _ _ _ B5) in E.
  apply fmap_Ok_inv in E as (x5 & -> & Hx5). eauto.
Qed.

(** On an input with [nf] channels the block succeeds, and its output
    is [x5 * res_beta + x] element by element. *)
Lemma ResDenseBlock_5C_call_eager (nf gc : Z) (beta : pyfloat)
    (self : ResDenseBlock_5C.t) (x : ETensor) (b h w : dim) :
  rdb_built nf gc beta self -> rdb_convs conv_fn nf gc self ->
  eshape x = [b; h; w; Some nf] ->
  exists x5 y,
    spec_rdb_branch (ops := eager_ops conv_fn) self x = Ok x5 /\
    ResDenseBlock_5C.call (ops := eager_ops conv_fn) self x = Ok y /\
    eshape y = eshape x /\
    forall idx, in_bounds (eshape x) idx ->
      eget y idx
      = f32_add (f32_mul (eget x5 idx) (f32_of_pyfloat beta)) (eget x idx).
Proof.
  intros B K Hx.
  destruct (spec_rdb_branch_eager nf gc beta self x b h w B K Hx)
    as (x5 & E5 & Hx5).
  destruct (residual_eager x5 x beta _ Hx5 Hx) as (y & Ey & Hy & Hel).
  exists x5, y. split; [exact E5|].
  rewrite ResDenseBlock_5C_call_branch, E5. cbn [mbind res_bind].
  destruct B as (-> & _). split; [exact Ey|].
  rewrite Hx. split; [exact Hy|exact Hel].
Qed.

Lemma ResInResDenseBlock_call_eager (nf gc : Z) (beta : pyfloat)
    (self : ResInResDenseBlock.t) (x : ETensor) (b h w : dim) :
  rrdb_built nf gc beta self -> rrdb_convs conv_fn nf gc self ->
  eshape x = [b; h; w; Some nf] ->
  exists o1 o2 o3 y,
    ResDenseBlock_5C.call (ops := eager_ops conv_fn)
      (ResInResDenseBlock.rdb_1 self) x = Ok o1 /\
    ResDenseBlock_5C.call (ops := eager_ops conv_fn)
      (ResInResDenseBlock.rdb_2 self) o1 = Ok o2 /\
    ResDenseBlock_5C.call (ops := eager_ops conv_fn)
      (ResInResDenseBlock.rdb_3 self) o2 = Ok o3 /\
    eshape o1 = eshape x /\ eshape o2 = eshape x /\ eshape o3 = eshape x /\
    ResInResDenseBlock.call (ops := eager_ops conv_fn) self x = Ok y /\
    eshape y = eshape x /\
    forall idx, in_bounds (eshape x) idx ->
      eget y idx
      = f32_add (f32_mul (eget o3 idx) (f32_of_pyfloat beta)) (eget x idx).
Proof.
  intros (Hb & B1 & B2 & B3) (K1 & K2 & K3) Hx.
  destruct (ResDenseBlock_5C_call_eager nf gc beta _ x b h w B1 K1 Hx)
    as (_ & o1 & _ & E1 & S1 & _).
  assert (Hs1 : eshape o1 = [b; h; w; Some nf]) by congruence.
  destruct (ResDenseBlock_5C_call_eager nf gc beta _ o1 b h w B2 K2 Hs1)
    as (_ & o2 & _ & E2 & S2 & _).
  assert (Hs2 : eshape o2 = [b; h; w; Some nf]) by congruence.
  destruct (ResDenseBlock_5C_call_eager nf gc beta _ o2 b h w B3 K3 Hs2)
    as (_ & o3 & _ & E3 & S3 & _).
  assert (Hs3 : eshape o3 = [b; h; w; Some nf]) by congruence.
  destruct (residual_eager o3 x beta _ Hs3 Hx) as (y & Ey & Hy & Hel).
  exists o1, o2, o3, y.
  split; [exact E1|]. split; [exact E2|]. split; [exact E3|].
  split; [congruence|]. split; [congruence|]. split; [congruence|].
  unfold ResInResDenseBlock.call. rewrite E1. cbn [mbind res_bind].
  rewrite E2. cbn [mbind res_bind]. rewrite E3. cbn [mbind res_bind].
  rewrite Hb. split; [exact Ey|].
  rewrite Hx. split; [exact Hy|exact Hel].
Qed.

End eager.

(** A block that has been built was built with positive channel
    counts. *)
Lemma ResDenseBlock_5C_init_positive (nf gc : Z) (beta wd : pyfloat)
    (name : string) s self s' :
  ResDenseBlock_5C.__init__ nf gc beta wd name s = (Ok self, s') ->
  0 < nf /\ 0 < gc.
Proof.
  intros E.
  destruct (Z.lt_ge_cases 0 gc) as [Hgc|Hgc].
  - destruct (Z.lt_ge_cases 0 nf) as [Hnf|Hnf]; [auto|].
    exfalso. revert E. unfold ResDenseBlock_5C.__init__.
    run_builder. rewrite Conv2D_init_raise by lia. run_step. discriminate.
  - exfalso. revert E. unfold ResDenseBlock_5C.__init__.
    run_builder. rewrite Conv2D_init_raise by lia. run_step. discriminate.
Qed.

Lemma ResInResDenseBlock_init_positive (nf gc : Z) (beta wd : pyfloat)
    (name : string) s self s' :
  ResInResDenseBlock.__init__ nf gc beta wd name s = (Ok self, s') ->
  0 < nf /\ 0 < gc.
Proof.
  unfold ResInResDenseBlock.__init__.
  erewrite bind_ok by reflexivity.
  unfold mbind at 1, M_bind at 1.
  destruct (ResDenseBlock_5C.__init__ nf gc beta wd "RDB5C" _)
    as [[r1|e] s1] eqn:E1; [|discriminate].
  intros _. exact (ResDenseBlock_5C_init_positive _ _ _ _ _ _ _ _ E1).
Qed.

Lemma ResDenseBlock_5C_init_inv (nf gc : Z) (beta wd : pyfloat)
    (name : string) s self s' :
  ResDenseBlock_5C.__init__ nf gc beta wd name s = (Ok self, s') ->
  rdb_built nf gc beta self.
Proof.
  intros E.
  destruct (ResDenseBlock_5C_init_positive _ _ _ _ _ _ _ _ E) as [Hnf Hgc].
  destruct (ResDenseBlock_5C_init_built nf gc beta wd name s Hnf Hgc)
    as (self0 & s0 & E0 & B).
  rewrite E0 in E. injection E as <- _. exact B.
Qed.

Lemma ResInResDenseBlock_init_inv (nf gc : Z) (beta wd : pyfloat)
    (name : string) s self s' :
  ResInResDenseBlock.__init__ nf gc beta wd name s = (Ok self, s') ->
  rrdb_built nf gc beta self.
Proof.
  intros E.
  destruct (ResInResDenseBlock_init_positive _ _ _ _ _ _ _ _ E) as [Hnf Hgc].
  destruct (ResInResDenseBlock_init_built nf gc beta wd name s Hnf Hgc)
    as (self0 & s0 & E0 & B).
  rewrite E0 in E. injection E as <- _. exact B.
Qed.

Lemma conv_const_ok (v : float32) (l : Conv2D.t) (cin : Z) :
  conv_ok (conv_const v) l cin.
Proof.
  intros x b h w _. unfold conv_const.
  destruct (Conv2D.output_shape l (eshape x)); reflexivity.
Qed.

Lemma conv_const_rdb_convs (v : float32) (nf gc : Z)
    (self : ResDenseBlock_5C.t) :
  rdb_convs (conv_const v) nf gc self.
Proof. repeat split; apply conv_const_ok. Qed.

Lemma conv_const_rrdb_convs (v : float32) (nf gc : Z)
    (self : ResInResDenseBlock.t) :
  rrdb_convs (conv_const v) nf gc self.
Proof. repeat split; apply conv_const_ok. Qed.

(** ** The blocks: forward contracts and shapes *)

(** C2.  For positive [nf] and [gc] the block is built with five
    3x3, same-padding, GELU-activated convolutions of [gc], [gc], [gc],
    [gc] and [nf] output channels, five different layers, and on
    symbolic and on eager tensors its [call] computes [x1 = conv1(x)],
    every further feature map from the channel-axis concatenation of
    [x] and the feature maps before it, and returns
    [x + res_beta * x5]. *)
Theorem ResDenseBlock_5C_forward (nf gc : Z) (res_beta wd : pyfloat)
    (name : string) s :
  0 < nf -> 0 < gc ->
  exists self s',
    ResDenseBlock_5C.__init__ nf gc res_beta wd name s = (Ok self, s') /\
    ResDenseBlock_5C.res_beta self = res_beta /\
    Forall2 rdb_conv [gc; gc; gc; gc; nf]
      [ResDenseBlock_5C.conv1 self; ResDenseBlock_5C.conv2 self;
       ResDenseBlock_5C.conv3 self; ResDenseBlock_5C.conv4 self;
       ResDenseBlock_5C.conv5 self] /\
    NoDup (map Conv2D.uid (rdb_conv_list self)) /\
    (forall x : shape, ResDenseBlock_5C.call self x = spec_rdb self x) /\
    (forall conv_fn (x : ETensor),
       ResDenseBlock_5C.call (ops := eager_ops conv_fn) self x
       = spec_rdb (ops := eager_ops conv_fn) self x).
Proof.
  intros Hnf Hgc.
  destruct (ResDenseBlock_5C_init_full nf gc res_beta wd name s Hnf Hgc)
    as (self & E & (Hb & H1 & H2 & H3 & H4 & H5) & _ & U).
  eexists self, _. split; [exact E|]. split; [exact Hb|].
  split; [repeat (constructor; [assumption|]); constructor|]. split.
  { rewrite U. apply NoDup_fmap_2; [intros a b; lia|].
    refine (bool_decide_unpack _ _). vm_compute. exact I. }
  split.
  - intros x. apply ResDenseBlock_5C_call_spec.
  - intros conv_fn x.
    apply (ResDenseBlock_5C_call_spec (OpsLaws0 := eager_laws conv_fn)).
Qed.

Lemma ResDenseBlock_5C_forward_64 :
  (0 < 64 /\ 0 < 32) /\
  exists self s',
    ResDenseBlock_5C.__init__ 64 32 py_0_2 py_0 "RDB5C" [] = (Ok self, s') /\
    ResDenseBlock_5C.res_beta self = py_0_2 /\
    Forall2 rdb_conv [32; 32; 32; 32; 64]
      [ResDenseBlock_5C.conv1 self; ResDenseBlock_5C.conv2 self;
       ResDenseBlock_5C.conv3 self; ResDenseBlock_5C.conv4 self;
       ResDenseBlock_5C.conv5 self] /\
    NoDup (map Conv2D.uid (rdb_conv_list self)) /\
    (forall x : shape, ResDenseBlock_5C.call self x = spec_rdb self x) /\
    (forall conv_fn (x : ETensor),
       ResDenseBlock_5C.call (ops := eager_ops conv_fn) self x
       = spec_rdb (ops := eager_ops conv_fn) self x).
Proof.
  split; [lia|].
  apply (ResDenseBlock_5C_forward 64 32 py_0_2 py_0 "RDB5C" []); lia.
Defined.

(** C4.  For positive [nf] and [gc] the block is built with three
    Residual Dense Blocks that share no convolution, and on symbolic
    and on eager tensors its [call] applies them in sequence and
    returns [x + res_beta * rdb_3(rdb_2(rdb_1(x)))]. *)
Theorem ResInResDenseBlock_forward (nf gc : Z) (res_beta wd : pyfloat)
    (name : string) s :
  0 < nf -> 0 < gc ->
  exists self s',
    ResInResDenseBlock.__init__ nf gc res_beta wd name s = (Ok self, s') /\
    ResInResDenseBlock.res_beta self = res_beta /\
    Forall (rdb_built nf gc res_beta)
      [ResInResDenseBlock.rdb_1 self; ResInResDenseBlock.rdb_2 self;
       ResInResDenseBlock.rdb_3 self] /\
    NoDup (map Conv2D.uid (rrdb_conv_list self)) /\
    (forall x : shape, ResInResDenseBlock.call self x = spec_rrdb self x) /\
    (forall conv_fn (x : ETensor),
       ResInResDenseBlock.call (ops := eager_ops conv_fn) self x
       = spec_rrdb (ops := eager_ops conv_fn) self x).
Proof.
  intros Hnf Hgc.
  destruct (ResInResDenseBlock_init_full nf gc res_beta wd name s Hnf Hgc)
    as (self & E & (Hb & H1 & H2 & H3) & _ & _ & U).
  eexists self, _. split; [exact E|]. split; [exact Hb|].
  split; [repeat (constructor; [assumption|]); constructor|]. split.
  { rewrite U. apply NoDup_fmap_2; [intros a b; lia|].
    refine (bool_decide_unpack _ _). vm_compute. exact I. }
  split.
  - intros x. apply ResInResDenseBlock_call_spec.
  - intros conv_fn x.
    apply (ResInResDenseBlock_call_spec (OpsLaws0 := eager_laws conv_fn)).
Qed.

Lemma ResInResDenseBlock_forward_64 :
  (0 < 64 /\ 0 < 32) /\
  exists self s',
    ResInResDenseBlock.__init__ 64 32 py_0_2 py_0 "RRDB" [] = (Ok self, s') /\
    ResInResDenseBlock.res_beta self = py_0_2 /\
    Forall (rdb_built 64 32 py_0_2)
      [ResInResDenseBlock.rdb_1 self; ResInResDenseBlock.rdb_2 self;
       ResInResDenseBlock.rdb_3 self] /\
    NoDup (map Conv2D.uid (rrdb_conv_list self)) /\
    (forall x : shape, ResInResDenseBlock.call self x = spec_rrdb self x) /\
    (forall conv_fn (x : ETensor),
       ResInResDenseBlock.call (ops := eager_ops conv_fn) self x
       = spec_rrdb (ops := eager_ops conv_fn) self x).
Proof.
  split; [lia|].
  apply (ResInResDenseBlock_forward 64 32 py_0_2 py_0 "RRDB" []); lia.
Defined.

(** C6.  Both blocks keep the shape of an input with [nf] channels:
    the static shape of a symbolic tensor, and the shape of an eager
    tensor, on which the [call] succeeds. *)
Theorem blocks_preserve_shape (nf gc : Z) (res_beta wd : pyfloat)
    (name : string) s :
  0 < nf -> 0 < gc ->
  (exists rdb s',
     ResDenseBlock_5C.__init__ nf gc res_beta wd name s = (Ok rdb, s') /\
     (forall b h w : dim,
        ResDenseBlock_5C.call rdb [b; h; w; Some nf]
        = Ok [b; h; w; Some nf]) /\
     (forall conv_fn (x : ETensor) (b h w : dim),
        rdb_convs conv_fn nf gc rdb -> eshape x = [b; h; w; Some nf] ->
        exists y,
          ResDenseBlock_5C.call (ops := eager_ops conv_fn) rdb x = Ok y /\
          eshape y = eshape x)) /\
  (exists rrdb s',
     ResInResDenseBlock.__init__ nf gc res_beta wd name s = (Ok rrdb, s') /\
     (forall b h w : dim,
        ResInResDenseBlock.call rrdb [b; h; w; Some nf]
        = Ok [b; h; w; Some nf]) /\
     (forall conv_fn (x : ETensor) (b h w : dim),
        rrdb_convs conv_fn nf gc rrdb -> eshape x = [b; h; w; Some nf] ->
        exists y,
          ResInResDenseBlock.call (ops := eager_ops conv_fn) rrdb x = Ok y /\
          eshape y = eshape x)).
Proof.
  intros Hnf Hgc. split.
  - destruct (ResDenseBlock_5C_init_built nf gc res_beta wd name s Hnf Hgc)
      as (rdb & s' & E & B).
    exists rdb, s'. split; [exact E|]. split.
    + intros b h w. exact (ResDenseBlock_5C_call_shape _ _ _ _ b h w B).
    + intros conv_fn x b h w K Hx.
      destruct (ResDenseBlock_5C_call_eager conv_fn nf gc res_beta rdb x
                  b h w B K Hx) as (_ & y & _ & Ey & Hy & _).
      exists y. split; assumption.
  - destruct (ResInResDenseBlock_init_built nf gc res_beta wd name s Hnf Hgc)
      as (rrdb & s' & E & B).
    exists rrdb, s'. split; [exact E|]. split.
    + intros b h w. exact (ResInResDenseBlock_call_shape _ _ _ _ b h w B).
    + intros conv_fn x b h w K Hx.
      destruct (ResInResDenseBlock_call_eager conv_fn nf gc res_beta rrdb x
                  b h w B K Hx) as (_ & _ & _ & y & _ & _ & _ & _ & _ & _ & Ey & Hy & _).
      exists y. split; assumption.
Qed.

Lemma blocks_preserve_shape_64 :
  (0 < 64 /\ 0 < 32) /\
  (exists rdb s',
     ResDenseBlock_5C.__init__ 64 32 py_0_2 py_0 "RDB5C" [] = (Ok rdb, s') /\
     ResDenseBlock_5C.call rdb [None; Some 32; Some 32; Some 64]
     = Ok [None; Some 32; Some 32; Some 64] /\
     rdb_convs (conv_const (S754_zero false)) 64 32 rdb /\
     exists y,
       ResDenseBlock_5C.call (ops := eager_ops (conv_const (S754_zero false)))
         rdb (full [1; 2; 2; 64] f32_1) = Ok y /\
       eshape y = eshape (full [1; 2; 2; 64] f32_1)) /\
  (exists rrdb s',
     ResInResDenseBlock.__init__ 64 32 py_0_2 py_0 "RRDB" [] = (Ok rrdb, s') /\
     ResInResDenseBlock.call rrdb [None; Some 32; Some 32; Some 64]
     = Ok [None; Some 32; Some 32; Some 64] /\
     rrdb_convs (conv_const (S754_zero false)) 64 32 rrdb /\
     exists y,
       ResInResDenseBlock.call
         (ops := eager_ops (conv_const (S754_zero false)))
         rrdb (full [1; 2; 2; 64] f32_1) = Ok y /\
       eshape y = eshape (full [1; 2; 2; 64] f32_1)).
Proof.
  split; [lia|].
  destruct (blocks_preserve_shape 64 32 py_0_2 py_0 "RDB5C" [])
    as [(rdb & s1 & E1 & S1 & V1) _]; [lia|lia|].
  destruct (blocks_preserve_shape 64 32 py_0_2 py_0 "RRDB" [])
    as [_ (rrdb & s2 & E2 & S2 & V2)]; [lia|lia|].
  split.
  - exists rdb, s1. split; [exact E1|]. split; [apply S1|].
    split; [apply conv_const_rdb_convs|].
    apply (V1 _ _ (Some 1) (Some 2) (Some 2));
      [apply conv_const_rdb_convs|reflexivity].
  - exists rrdb, s2. split; [exact E2|]. split; [apply S2|].
    split; [apply conv_const_rrdb_convs|].
    apply (V2 _ _ (Some 1) (Some 2) (Some 2));
      [apply conv_const_rrdb_convs|reflexivity].
Defined.

(** ** A zero residual scale *)

Lemma residual_zero_beta (o x y : ETensor) (sg : bool) :
  eshape y = eshape x ->
  (forall idx, in_bounds (eshape x) idx ->
     eget y idx
     = f32_add (f32_mul (eget o idx) (f32_of_pyfloat (S754_zero sg)))
         (eget x idx)) ->
  zero_beta_output o x y.
Proof.
  intros Hs Hel. split; [exact Hs|].
  intros idx Hidx. rewrite (Hel idx Hidx).
  change (f32_of_pyfloat (S754_zero sg)) with (S754_zero sg). split.
  - apply f32_zero_residual.
  - apply f32_nonfinite_residual.
Qed.

Section zero_beta.
Variable conv_fn : Conv2D.t -> ETensor -> res ETensor.

Lemma ResDenseBlock_5C_zero_beta (nf gc : Z) (sg : bool)
    (self : ResDenseBlock_5C.t) (x : ETensor) (b h w : dim) :
  rdb_built nf gc (S754_zero sg) self ->
  rdb_convs conv_fn nf gc self ->
  eshape x = [b; h; w; Some nf] ->
  exists x5 y,
    spec_rdb_branch (ops := eager_ops conv_fn) self x = Ok x5 /\
    ResDenseBlock_5C.call (ops := eager_ops conv_fn) self x = Ok y /\
    zero_beta_output x5 x y.
Proof.
  intros B K Hx.
  destruct (ResDenseBlock_5C_call_eager conv_fn nf gc _ self x b h w B K Hx)
    as (x5 & y & E5 & Ey & Hy & Hel).
  exists x5, y. split; [exact E5|]. split; [exact Ey|].
  exact (residual_zero_beta x5 x y sg Hy Hel).
Qed.

Lemma ResInResDenseBlock_zero_beta (nf gc : Z) (sg : bool)
    (self : ResInResDenseBlock.t) (x : ETensor) (b h w : dim) :
  rrdb_built nf gc (S754_zero sg) self ->
  rrdb_convs conv_fn nf gc self ->
  eshape x = [b; h; w; Some nf] ->
  exists x5_1 x5_2 x5_3 o1 o2 o3 y,
    (spec_rdb_branch (ops := eager_ops conv_fn)
       (ResInResDenseBlock.rdb_1 self) x = Ok x5_1 /\
     ResDenseBlock_5C.call (ops := eager_ops conv_fn)
       (ResInResDenseBlock.rdb_1 self) x = Ok o1 /\
     zero_beta_output x5_1 x o1) /\
    (spec_rdb_branch (ops := eager_ops conv_fn)
       (ResInResDenseBlock.rdb_2 self) o1 = Ok x5_2 /\
     ResDenseBlock_5C.call (ops := eager_ops conv_fn)
       (ResInResDenseBlock.rdb_2 self) o1 = Ok o2 /\
     zero_beta_output x5_2 o1 o2) /\
    (spec_rdb_branch (ops := eager_ops conv_fn)
       (ResInResDenseBlock.rdb_3 self) o2 = Ok x5_3 /\
     ResDenseBlock_5C.call (ops := eager_ops conv_fn)
       (ResInResDenseBlock.rdb_3 self) o2 = Ok o3 /\
     zero_beta_output x5_3 o2 o3) /\
    ResInResDenseBlock.call (ops := eager_ops conv_fn) self x = Ok y /\
    zero_beta_output o3 x y.
Proof.
  intros B K Hx.
  destruct (ResInResDenseBlock_call_eager conv_fn nf gc _ self x b h w B K Hx)
    as (o1 & o2 & o3 & y & E1 & E2 & E3 & S1 & S2 & S3 & Ey & Hy & Hel).
  destruct B as (_ & B1 & B2 & B3). destruct K as (K1 & K2 & K3).
  destruct (ResDenseBlock_5C_zero_beta nf gc sg _ x b h w B1 K1 Hx)
    as (x5_1 & o1' & X1 & E1' & Z1).
  assert (o1' = o1) by congruence. subst o1'.
  assert (Hs1 : eshape o1 = [b; h; w; Some nf]) by congruence.
  destruct (ResDenseBlock_5C_zero_beta nf gc sg _ o1 b h w B2 K2 Hs1)
    as (x5_2 & o2' & X2 & E2' & Z2).
  assert (o2' = o2) by congruence. subst o2'.
  assert (Hs2 : eshape o2 = [b; h; w; Some nf]) by congruence.
  destruct (ResDenseBlock_5C_zero_beta nf gc sg _ o2 b h w B3 K3 Hs2)
    as (x5_3 & o3' & X3 & E3' & Z3).
  assert (o3' = o3) by congruence. subst o3'.
  exists x5_1, x5_2, x5_3, o1, o2, o3, y.
  split; [auto|]. split; [auto|]. split; [auto|]. split; [exact Ey|].
  exact (residual_zero_beta o3 x y sg Hy Hel).
Qed.

End zero_beta.

Lemma conv_const_branch (v : float32) (self : ResDenseBlock_5C.t)
    (x x5 : ETensor) :
  spec_rdb_branch (ops := eager_ops (conv_const v)) self x = Ok x5 ->
  forall idx, eget x5 idx = v.
Proof.
  rewrite spec_rdb_branch_unfold.
  cbn [Conv2D_call tf_concat eager_ops].
  destruct (conv_const v _ x) as [x1|]; [|discriminate]. cbn [mbind res_bind].
  destruct (e_concat _ 3) as [c2|]; [|discriminate]. cbn [mbind res_bind].
  destruct (conv_const v _ c2) as [x2|]; [|discriminate]. cbn [mbind res_bind].
  destruct (e_concat _ 3) as [c3|]; [|discriminate]. cbn [mbind res_bind].
  destruct (conv_const v _ c3) as [x3|]; [|discriminate]. cbn [mbind res_bind].
  destruct (e_concat _ 3) as [c4|]; [|discriminate]. cbn [mbind res_bind].
  destruct (conv_const v _ c4) as [x4|]; [|discriminate]. cbn [mbind res_bind].
  destruct (e_concat _ 3) as [c5|]; [|discriminate]. cbn [mbind res_bind].
  unfold conv_const. destruct (Conv2D.output_shape _ _); [|discriminate].
  intros [= <-] idx. reflexivity.
Qed.

(** C10, as the code has it.  With a residual scale of zero, the
    Residual Dense Block succeeds on every input [x] with [nf] channels
    and returns a tensor of the shape of [x] whose element is: the
    element of [x] as the kernels read it (a subnormal flushed to zero,
    a zero possibly with the other sign) where the element of [x5], the
    output of the fifth convolution, is finite; NaN where that element
    of [x5] is infinite or NaN.  The Residual-in-Residual block relates
    its output to [x] in the same way, with the output of its third
    inner block in the place of [x5], and each of its three inner
    blocks does as said of the Residual Dense Block.  (The zero of the
    scale may have either sign.) *)
Theorem zero_res_beta_identity_on_finite
    (conv_fn : Conv2D.t -> ETensor -> res ETensor) (nf gc : Z) (sg : bool)
    (wd : pyfloat) (name : string) s :
  (forall rdb s' (x : ETensor) (b h w : dim),
     ResDenseBlock_5C.__init__ nf gc (S754_zero sg) wd name s = (Ok rdb, s') ->
     rdb_convs conv_fn nf gc rdb ->
     eshape x = [b; h; w; Some nf] ->
     exists x5 y,
       spec_rdb_branch (ops := eager_ops conv_fn) rdb x = Ok x5 /\
       ResDenseBlock_5C.call (ops := eager_ops conv_fn) rdb x = Ok y /\
       zero_beta_output x5 x y)
  /\
  (forall rrdb s' (x : ETensor) (b h w : dim),
     ResInResDenseBlock.__init__ nf gc (S754_zero sg) wd name s
     = (Ok rrdb, s') ->
     rrdb_convs conv_fn nf gc rrdb ->
     eshape x = [b; h; w; Some nf] ->
     exists x5_1 x5_2 x5_3 o1 o2 o3 y,
       (spec_rdb_branch (ops := eager_ops conv_fn)
          (ResInResDenseBlock.rdb_1 rrdb) x = Ok x5_1 /\
        ResDenseBlock_5C.call (ops := eager_ops conv_fn)
          (ResInResDenseBlock.rdb_1 rrdb) x = Ok o1 /\
        zero_beta_output x5_1 x o1) /\
       (spec_rdb_branch (ops := eager_ops conv_fn)
          (ResInResDenseBlock.rdb_2 rrdb) o1 = Ok x5_2 /\
        ResDenseBlock_5C.call (ops := eager_ops conv_fn)
          (ResInResDenseBlock.rdb_2 rrdb) o1 = Ok o2 /\
        zero_beta_output x5_2 o1 o2) /\
       (spec_rdb_branch (ops := eager_ops conv_fn)
          (ResInResDenseBlock.rdb_3 rrdb) o2 = Ok x5_3 /\
        ResDenseBlock_5C.call (ops := eager_ops conv_fn)
          (ResInResDenseBlock.rdb_3 rrdb) o2 = Ok o3 /\
        zero_beta_output x5_3 o2 o3) /\
       ResInResDenseBlock.call (ops := eager_ops conv_fn) rrdb x = Ok y /\
       zero_beta_output o3 x y).
Proof.
  split.
  - intros rdb s' x b h w E K Hx.
    apply ResDenseBlock_5C_init_inv in E.
    exact (ResDenseBlock_5C_zero_beta conv_fn nf gc sg rdb x b h w E K Hx).
  - intros rrdb s' x b h w E K Hx.
    apply ResInResDenseBlock_init_inv in E.
    exact (ResInResDenseBlock_zero_beta conv_fn nf gc sg rrdb x b h w
             E K Hx).
Qed.

Lemma zero_res_beta_identity_example :
  (exists rdb s',
     ResDenseBlock_5C.__init__ 4 2 py_0 py_0 "RDB5C" [] = (Ok rdb, s') /\
     rdb_convs (conv_const (S754_zero false)) 4 2 rdb /\
     exists x5 y,
       spec_rdb_branch (ops := eager_ops (conv_const (S754_zero false)))
         rdb (full [1; 2; 2; 4] f32_1) = Ok x5 /\
       ResDenseBlock_5C.call (ops := eager_ops (conv_const (S754_zero false)))
         rdb (full [1; 2; 2; 4] f32_1) = Ok y /\
       zero_beta_output x5 (full [1; 2; 2; 4] f32_1) y) /\
  (exists rrdb s',
     ResInResDenseBlock.__init__ 4 2 py_0 py_0 "RRDB" [] = (Ok rrdb, s') /\
     rrdb_convs (conv_const (S754_zero false)) 4 2 rrdb /\
     exists o3 y,
       ResInResDenseBlock.call
         (ops := eager_ops (conv_const (S754_zero false)))
         rrdb (full [1; 2; 2; 4] f32_1) = Ok y /\
       zero_beta_output o3 (full [1; 2; 2; 4] f32_1) y).
Proof.
  split.
  - destruct (ResDenseBlock_5C_init_built 4 2 py_0 py_0 "RDB5C" [])
      as (rdb & s' & E & _); [lia|lia|].
    exists rdb, s'. split; [exact E|].
    split; [apply conv_const_rdb_convs|].
    apply (proj1 (zero_res_beta_identity_on_finite
                    (conv_const (S754_zero false)) 4 2 false py_0 "RDB5C" [])
             rdb s' _ (Some 1) (Some 2) (Some 2) E);
      [apply conv_const_rdb_convs|reflexivity].
  - destruct (ResInResDenseBlock_init_built 4 2 py_0 py_0 "RRDB" [])
      as (rrdb & s' & E & _); [lia|lia|].
    exists rrdb, s'. split; [exact E|].
    split; [apply conv_const_rrdb_convs|].
    destruct (proj2 (zero_res_beta_identity_on_finite
                       (conv_const (S754_zero false)) 4 2 false py_0 "RRDB" [])
                rrdb s' (full [1; 2; 2; 4] f32_1) (Some 1) (Some 2) (Some 2) E
                (conv_const_rrdb_convs _ _ _ _) eq_refl)
      as (_ & _ & _ & _ & _ & o3 & y & _ & _ & _ & Ey & Z).
    exists o3, y. split; [exact Ey|exact Z].
Defined.

(** C10, as stated, fails: a block built with [res_beta = 0] whose
    convolutions yield NaN (as they do once a weight is NaN) returns
    NaN for an input of ones. *)
Lemma zero_res_beta_not_identity :
  ~ (forall (conv_fn : Conv2D.t -> ETensor -> res ETensor) (nf gc : Z)
       (wd : pyfloat) (name : string) s rdb s' (x : ETensor) (b h w : dim),
       ResDenseBlock_5C.__init__ nf gc py_0 wd name s = (Ok rdb, s') ->
       rdb_convs conv_fn nf gc rdb ->
       eshape x = [b; h; w; Some nf] ->
       exists y,
         ResDenseBlock_5C.call (ops := eager_ops conv_fn) rdb x = Ok y /\
         same_elements y x).
Proof.
  intros H.
  destruct (ResDenseBlock_5C_init_built 1 1 py_0 py_0 "RDB5C" [])
    as (rdb & s' & E & B); [lia|lia|].
  pose (x := full [1; 1; 1; 1] f32_1).
  destruct (H (conv_const S754_nan) 1 1 py_0 "RDB5C" [] rdb s' x
              (Some 1) (Some 1) (Some 1) E (conv_const_rdb_convs _ _ _ _)
              eq_refl) as (y & Ey & _ & Hy).
  destruct (ResDenseBlock_5C_call_eager (conv_const S754_nan) 1 1 py_0 rdb x
              (Some 1) (Some 1) (Some 1) B (conv_const_rdb_convs _ _ _ _)
              eq_refl) as (x5 & y' & E5 & Ey' & _ & Hel).
  rewrite Ey in Ey'. injection Ey' as <-.
  assert (Hb : in_bounds (eshape x) [0; 0; 0; 0]) by (cbn; lia).
  specialize (Hy _ Hb). specialize (Hel _ Hb).
  rewrite (conv_const_branch _ _ _ _ E5) in Hel.
  rewrite Hel in Hy. vm_compute in Hy. discriminate Hy.
Qed.

(** ** The weight-decay regulariser *)

(** C9, as the code has it.  With [weights_decay = 0] the penalty on a
    weight tensor is a zero whenever the squared magnitude of the
    weights, as the reduction of the framework returns it, is finite. *)
Theorem zero_weight_decay_penalty (sq_norm : list float32 -> float32)
    (w : list float32) :
  is_finite (sq_norm w) = true ->
  is_zero (L2_call sq_norm (_regularizer py_0) w) = true.
Proof.
  unfold L2_call, _regularizer, regularizers_l2. cbn [l2].
  change (f32_of_pyfloat py_0) with (S754_zero false).
  apply f32_mul_zero_l.
Qed.

Lemma zero_weight_decay_penalty_ones :
  is_finite (sum_of_squares [f32_1; f32_1]) = true /\
  is_zero (L2_call sum_of_squares (_regularizer py_0) [f32_1; f32_1]) = true.
Proof.
  split; [reflexivity|].
  apply (zero_weight_decay_penalty sum_of_squares [f32_1; f32_1]).
  reflexivity.
Defined.

(** C9, as stated, fails: the square of the binary32 weight [2^100]
    overflows to infinity, and zero times infinity is NaN, not zero. *)
Lemma zero_weight_decay_penalty_not_zero :
  ~ (forall w : list float32,
       Forall (fun v => valid_binary 24 128 v = true) w ->
       is_zero (L2_call sum_of_squares (_regularizer py_0) w) = true).
Proof.
  intros H.
  specialize (H [S754_finite false 8388608 77]).
  assert (V : Forall (fun v => valid_binary 24 128 v = true)
                [S754_finite false 8388608 77])
    by (repeat constructor).
  specialize (H V). vm_compute in H. discriminate H.
Qed.

(** ** Batch normalisation *)

(** C3.  The flag that reaches the framework's batch normalisation is
    the conjunction of the caller's flag, [None] counting as [False],
    and the layer's [trainable]; a layer that is not trainable
    therefore does the same with [training=True] as with
    [training=False]: the same output and the same variables. *)
Theorem BatchNormalization_call_gating {T V : Type}
    (super_call : BatchNormalization.t -> V -> T -> bool -> res T * V)
    (self : BatchNormalization.t) (vars : V) (x : T) :
  (forall training : option bool,
     BatchNormalization.call super_call self vars x training
     = super_call self vars x
         (default false training && BatchNormalization.trainable self)) /\
  (BatchNormalization.trainable self = false ->
   BatchNormalization.call super_call self vars x (Some true)
   = BatchNormalization.call super_call self vars x (Some false)).
Proof.
  split.
  - intros [b|]; reflexivity.
  - intros Ht. unfold BatchNormalization.call. rewrite Ht. reflexivity.
Qed.

Lemma BatchNormalization_call_gating_frozen :
  BatchNormalization.trainable frozen_bn = false /\
  BatchNormalization.call super_call_echo frozen_bn tt true (Some true)
  = BatchNormalization.call super_call_echo frozen_bn tt true (Some false).
Proof.
  split; [reflexivity|].
  apply (proj2 (BatchNormalization_call_gating super_call_echo frozen_bn tt
                  true)).
  reflexivity.
Defined.

(** * Further properties *)

(** ** The generator, observed *)

Lemma count_class_app (cls : string) (a b : list created) :
  count_class cls (a ++ b) = (count_class cls a + count_class cls b)%nat.
Proof. induction a as [|e a IH]; cbn [app count_class]; lia. Qed.

Lemma count_class_blocks (cls : string) (k : nat) (start : Z) (n : nat) :
  (forall name, count_class cls (rrdb_created name) = k) ->
  count_class cls (flat_map rrdb_created (rrdb_names start n)) = (k * n)%nat.
Proof.
  intros Hk. revert start. induction n as [|n IH]; intros start.
  - cbn. lia.
  - cbn [rrdb_names flat_map]. rewrite count_class_app, Hk, IH. lia.
Qed.

Lemma rrdb_names_length (start : Z) (n : nat) :
  length (rrdb_names start n) = n.
Proof.
  revert start. induction n as [|n IH]; intros start; cbn [rrdb_names length];
    [reflexivity|]. f_equal. apply IH.
Qed.

(** X1.  The generator applies its layers in the order of the source:
    the stem convolution, the trunk of blocks [RRDB_0], [RRDB_1], ...
    and the trunk convolution, whose output is added to the output of
    the stem; two nearest-neighbour resizes, each followed by a GELU
    convolution; a GELU convolution and a last convolution without
    activation back to [channels] channels.  The resizes are to 2 and
    4 times [size]; with an unspecified size they are to 2 and 4 times
    the entries 1 (height) and 2 (width) of the run-time shape of that
    sum, for both resizes. *)
Theorem RRDB_Model_wiring (size : dim) (channels gc nf nb : Z)
    (cfg_net : gmap string Z) (wd : pyfloat) (name : string) s :
  generator_size size -> 0 < channels -> 0 < nf -> 0 < gc ->
  cfg_net !! "nf" = Some nf -> cfg_net !! "nb" = Some nb ->
  exists m s',
    RRDB_Model size channels cfg_net gc wd name s = (Ok m, s') /\
    sketch_of (Model.outputs m)
    = generator_sketch size channels nf (rrdb_names 0 (Z.to_nat nb)).
Proof.
  intros Hsize Hch Hnf' Hgc Hnf Hnb.
  destruct (RRDB_Model_observed size channels cfg_net gc wd name nf nb s
              Hsize Hch Hnf' Hgc Hnf Hnb)
    as (m & s' & blocks & trunk & E & _ & _ & _ & _ & Ns & _ & _ & Sk & _).
  exists m, s'. split; [exact E|]. rewrite Sk, Ns. reflexivity.
Qed.

Lemma RRDB_Model_wiring_32 :
  (generator_size (Some 32) /\ 0 < 3 /\ 0 < 64 /\ 0 < 32) /\
  (exists m s',
     RRDB_Model (Some 32) 3 {[ "nf" := 64; "nb" := 2 ]} 32 py_0 "RRDB_model" []
     = (Ok m, s') /\
     sketch_of (Model.outputs m)
     = generator_sketch (Some 32) 3 64 ["RRDB_0"; "RRDB_1"]) /\
  generator_size None /\
  (exists m s',
     RRDB_Model None 3 {[ "nf" := 64; "nb" := 1 ]} 32 py_0 "RRDB_model" []
     = (Ok m, s') /\
     sketch_of (Model.outputs m) = generator_sketch None 3 64 ["RRDB_0"]).
Proof.
  split; [repeat split; reflexivity|].
  split; [|split; [exact I|]].
  - apply (RRDB_Model_wiring (Some 32) 3 32 64 2);
      first [reflexivity | cbn; lia].
  - apply (RRDB_Model_wiring None 3 32 64 1);
      first [reflexivity | exact I | lia].
Defined.

(** X2.  Inside the generator every feature map has [nf] channels; the
    stem, the trunk and the trunk convolution keep the input size, the
    first upsampling convolution works at twice and the second and the
    head at four times the size; with an unspecified size all these
    spatial dimensions are unknown. *)
Theorem RRDB_Model_feature_shapes (size : dim) (channels gc nf nb : Z)
    (cfg_net : gmap string Z) (wd : pyfloat) (name : string) s :
  generator_size size -> 0 < channels -> 0 < nf -> 0 < gc ->
  cfg_net !! "nf" = Some nf -> cfg_net !! "nb" = Some nb ->
  exists m s',
    RRDB_Model size channels cfg_net gc wd name s = (Ok m, s') /\
    map (fun n => get_layer_output_shape n (Model.outputs m))
      ["conv_first"; "RRDB_trunk"; "conv_trunk"; "upconv_1"; "upconv_2";
       "conv_hr"; "conv_last"]
    = [Some [None; size; size; Some nf];
       Some [None; size; size; Some nf];
       Some [None; size; size; Some nf];
       Some [None; dim_mul size 2; dim_mul size 2; Some nf];
       Some [None; dim_mul size 4; dim_mul size 4; Some nf];
       Some [None; dim_mul size 4; dim_mul size 4; Some nf];
       Some [None; dim_mul size 4; dim_mul size 4; Some channels]].
Proof.
  intros Hsize Hch Hnf' Hgc Hnf Hnb.
  destruct (RRDB_Model_observed size channels cfg_net gc wd name nf nb s
              Hsize Hch Hnf' Hgc Hnf Hnb)
    as (m & s' & blocks & trunk & E & _ & _ & _ & _ & _ & _ & _ & _ & Sh & _).
  exists m, s'. split; [exact E|exact Sh].
Qed.

Lemma RRDB_Model_feature_shapes_32 :
  (generator_size (Some 32) /\ 0 < 3 /\ 0 < 64 /\ 0 < 32) /\
  exists m s',
    RRDB_Model (Some 32) 3 {[ "nf" := 64; "nb" := 2 ]} 32 py_0 "RRDB_model" []
    = (Ok m, s') /\
    map (fun n => get_layer_output_shape n (Model.outputs m))
      ["conv_first"; "RRDB_trunk"; "conv_trunk"; "upconv_1"; "upconv_2";
       "conv_hr"; "conv_last"]
    = [Some [None; Some 32; Some 32; Some 64];
       Some [None; Some 32; Some 32; Some 64];
       Some [None; Some 32; Some 32; Some 64];
       Some [None; Some 64; Some 64; Some 64];
       Some [None; Some 128; Some 128; Some 64];
       Some [None; Some 128; Some 128; Some 64];
       Some [None; Some 128; Some 128; Some 3]].
Proof.
  split; [repeat split; reflexivity|].
  apply (RRDB_Model_feature_shapes (Some 32) 3 32 64 2);
    first [reflexivity | cbn; lia].
Defined.

(** X3.  The trunk of the generator holds [nb] blocks, none when [nb]
    is zero or negative, named [RRDB_0], [RRDB_1], ... in order, each
    built for [nf] and [gc] channels with the default residual scale
    0.2, whatever the caller passes. *)
Theorem RRDB_Model_trunk (size : dim) (channels gc nf nb : Z)
    (cfg_net : gmap string Z) (wd : pyfloat) (name : string) s :
  generator_size size -> 0 < channels -> 0 < nf -> 0 < gc ->
  cfg_net !! "nf" = Some nf -> cfg_net !! "nb" = Some nb ->
  exists m s' trunk,
    RRDB_Model size channels cfg_net gc wd name s = (Ok m, s') /\
    get_layer "RRDB_trunk" (Model.outputs m) = Some (LSequential trunk) /\
    length (Sequential.layers trunk) = Z.to_nat nb /\
    (nb <= 0 -> Sequential.layers trunk = []) /\
    map ResInResDenseBlock.name (Sequential.layers trunk)
    = rrdb_names 0 (Z.to_nat nb) /\
    Forall (rrdb_built nf gc py_0_2) (Sequential.layers trunk).
Proof.
  intros Hsize Hch Hnf' Hgc Hnf Hnb.
  destruct (RRDB_Model_observed size channels cfg_net gc wd name nf nb s
              Hsize Hch Hnf' Hgc Hnf Hnb)
    as (m & s' & blocks & trunk & E & _ & G & L & F & Ns & _).
  assert (Len : length blocks = Z.to_nat nb)
    by (rewrite <- (length_map ResInResDenseBlock.name), Ns;
        apply rrdb_names_length).
  exists m, s', trunk. rewrite L.
  split; [exact E|]. split; [exact G|]. split; [exact Len|].
  split; [|split; assumption].
  intros Hle. apply nil_length_inv. rewrite Len. lia.
Qed.

Lemma RRDB_Model_trunk_32 :
  (generator_size (Some 32) /\ 0 < 3 /\ 0 < 64 /\ 0 < 32) /\
  exists m s' trunk,
    RRDB_Model (Some 32) 3 {[ "nf" := 64; "nb" := 2 ]} 32 py_0 "RRDB_model" []
    = (Ok m, s') /\
    get_layer "RRDB_trunk" (Model.outputs m) = Some (LSequential trunk) /\
    length (Sequential.layers trunk) = 2%nat /\
    (2 <= 0 -> Sequential.layers trunk = []) /\
    map ResInResDenseBlock.name (Sequential.layers trunk)
    = ["RRDB_0"; "RRDB_1"] /\
    Forall (rrdb_built 64 32 py_0_2) (Sequential.layers trunk).
Proof.
  split; [repeat split; reflexivity|].
  apply (RRDB_Model_trunk (Some 32) 3 32 64 2);
    first [reflexivity | cbn; lia].
Defined.

(** X4.  Building the generator constructs [nb] Residual-in-Residual
    blocks, [3*nb] Residual Dense Blocks, [15*nb + 6] convolutions and
    [15*nb + 3] GELU activations. *)
Theorem RRDB_Model_layer_counts (size : dim) (channels gc nf nb : Z)
    (cfg_net : gmap string Z) (wd : pyfloat) (name : string) s :
  generator_size size -> 0 < channels -> 0 < nf -> 0 < gc -> 0 <= nb ->
  cfg_net !! "nf" = Some nf -> cfg_net !! "nb" = Some nb ->
  exists m l,
    RRDB_Model size channels cfg_net gc wd name s = (Ok m, s ++ l) /\
    Z.of_nat (count_class "ResInResDenseBlock" l) = nb /\
    Z.of_nat (count_class "ResDenseBlock_5C" l) = 3 * nb /\
    Z.of_nat (count_class "Conv2D" l) = 15 * nb + 6 /\
    Z.of_nat (count_class "GELU" l) = 15 * nb + 3.
Proof.
  intros Hsize Hch Hnf' Hgc Hnb0 Hnf Hnb.
  destruct (RRDB_Model_observed size channels cfg_net gc wd name nf nb s
              Hsize Hch Hnf' Hgc Hnf Hnb)
    as (m & s' & blocks & trunk & E & -> & _).
  exists m, (flat_map rrdb_created (rrdb_names 0 (Z.to_nat nb))
               ++ generator_created name).
  rewrite app_assoc. split; [exact E|].
  rewrite !count_class_app.
  rewrite (count_class_blocks "ResInResDenseBlock" 1) by reflexivity.
  rewrite (count_class_blocks "ResDenseBlock_5C" 3) by reflexivity.
  rewrite (count_class_blocks "Conv2D" 15) by reflexivity.
  rewrite (count_class_blocks "GELU" 15) by reflexivity.
  change (count_class "ResInResDenseBlock" (generator_created name)) with 0%nat.
  change (count_class "ResDenseBlock_5C" (generator_created name)) with 0%nat.
  change (count_class "Conv2D" (generator_created name)) with 6%nat.
  change (count_class "GELU" (generator_created name)) with 3%nat.
  repeat split; lia.
Qed.

Lemma RRDB_Model_layer_counts_32 :
  (generator_size (Some 32) /\ 0 < 3 /\ 0 < 64 /\ 0 < 32 /\ 0 <= 2) /\
  exists m l,
    RRDB_Model (Some 32) 3 {[ "nf" := 64; "nb" := 2 ]} 32 py_0 "RRDB_model" []
    = (Ok m, [] ++ l) /\
    Z.of_nat (count_class "ResInResDenseBlock" l) = 2 /\
    Z.of_nat (count_class "ResDenseBlock_5C" l) = 3 * 2 /\
    Z.of_nat (count_class "Conv2D" l) = 15 * 2 + 6 /\
    Z.of_nat (count_class "GELU" l) = 15 * 2 + 3.
Proof.
  split; [repeat split; try reflexivity; lia|].
  apply (RRDB_Model_layer_counts (Some 32) 3 32 64 2);
    first [reflexivity | cbn; lia].
Defined.

(** X5.  Weight decay and initialisation reach every convolution of
    the generator: each one carries the L2 policy of [wd] and zero
    biases; the named convolutions of the builder are initialised with
    [_kernel_init()], the unnamed 3x3 GELU convolutions of the blocks
    with [_kernel_init(0.1)]. *)
Theorem RRDB_Model_conv_settings (size : dim) (channels gc nf nb : Z)
    (cfg_net : gmap string Z) (wd : pyfloat) (name : string) s :
  generator_size size -> 0 < channels -> 0 < nf -> 0 < gc ->
  cfg_net !! "nf" = Some nf -> cfg_net !! "nb" = Some nb ->
  exists m s',
    RRDB_Model size channels cfg_net gc wd name s = (Ok m, s') /\
    Forall (fun c => model_conv_settings wd c \/ block_conv_settings wd c)
      (kt_convs (Model.outputs m)).
Proof.
  intros Hsize Hch Hnf' Hgc Hnf Hnb.
  destruct (RRDB_Model_observed size channels cfg_net gc wd name nf nb s
              Hsize Hch Hnf' Hgc Hnf Hnb)
    as (m & s' & blocks & trunk & E & _ & _ & _ & _ & _ & _ & _ & _ & _ & C
        & _).
  exists m, s'. split; [exact E|exact C].
Qed.

Lemma RRDB_Model_conv_settings_32 :
  (generator_size (Some 32) /\ 0 < 3 /\ 0 < 64 /\ 0 < 32) /\
  exists m s',
    RRDB_Model (Some 32) 3 {[ "nf" := 64; "nb" := 2 ]} 32 py_5e_4
      "RRDB_model" [] = (Ok m, s') /\
    Forall (fun c => model_conv_settings py_5e_4 c \/
                     block_conv_settings py_5e_4 c)
      (kt_convs (Model.outputs m)).
Proof.
  split; [repeat split; reflexivity|].
  apply (RRDB_Model_conv_settings (Some 32) 3 32 64 2);
    first [reflexivity | cbn; lia].
Defined.

Lemma trunk_conv_list_length (blocks : list ResInResDenseBlock.t) :
  length (trunk_conv_list blocks) = (15 * length blocks)%nat.
Proof.
  unfold trunk_conv_list. induction blocks as [|r bs IH];
    cbn [flat_map length]; [reflexivity|].
  rewrite length_app, IH.
  change (length (rrdb_conv_list r)) with 15%nat. lia.
Qed.

(** X6.  The [15*nb] convolutions of the trunk are [15*nb] different
    layer objects: no two of them are the same layer, so none share
    weights. *)
Theorem RRDB_Model_trunk_convs_distinct (size : dim) (channels gc nf nb : Z)
    (cfg_net : gmap string Z) (wd : pyfloat) (name : string) s :
  generator_size size -> 0 < channels -> 0 < nf -> 0 < gc -> 0 <= nb ->
  cfg_net !! "nf" = Some nf -> cfg_net !! "nb" = Some nb ->
  exists m s' trunk,
    RRDB_Model size channels cfg_net gc wd name s = (Ok m, s') /\
    get_layer "RRDB_trunk" (Model.outputs m) = Some (LSequential trunk) /\
    Z.of_nat (length (trunk_conv_list (Sequential.layers trunk))) = 15 * nb /\
    NoDup (map Conv2D.uid (trunk_conv_list (Sequential.layers trunk))).
Proof.
  intros Hsize Hch Hnf' Hgc Hnb0 Hnf Hnb.
  destruct (RRDB_Model_observed size channels cfg_net gc wd name nf nb s
              Hsize Hch Hnf' Hgc Hnf Hnb)
    as (m & s' & blocks & trunk & E & _ & G & L & _ & Ns & _ & ND & _).
  exists m, s', trunk. rewrite L.
  split; [exact E|]. split; [exact G|]. split; [|exact ND].
  rewrite trunk_conv_list_length.
  rewrite <- (length_map ResInResDenseBlock.name), Ns, rrdb_names_length. lia.
Qed.

Lemma RRDB_Model_trunk_convs_distinct_32 :
  (generator_size (Some 32) /\ 0 < 3 /\ 0 < 64 /\ 0 < 32 /\ 0 <= 2) /\
  exists m s' trunk,
    RRDB_Model (Some 32) 3 {[ "nf" := 64; "nb" := 2 ]} 32 py_0 "RRDB_model" []
    = (Ok m, s') /\
    get_layer "RRDB_trunk" (Model.outputs m) = Some (LSequential trunk) /\
    Z.of_nat (length (trunk_conv_list (Sequential.layers trunk))) = 15 * 2 /\
    NoDup (map Conv2D.uid (trunk_conv_list (Sequential.layers trunk))).
Proof.
  split; [repeat split; try reflexivity; lia|].
  apply (RRDB_Model_trunk_convs_distinct (Some 32) 3 32 64 2);
    first [reflexivity | cbn; lia].
Defined.

(** X7.  The configuration is read in the order ['nf'], ['nb']: without
    ['nf'] the error names ['nf'], also when ['nb'] is missing too;
    with ['nf'] and without ['nb'] it names ['nb'].  This holds for
    every other argument, valid or not. *)
Theorem RRDB_Model_KeyError_order (size : dim) (channels : Z)
    (cfg_net : gmap string Z) (gc : Z) (wd : pyfloat) (name : string) s :
  (cfg_net !! "nf" = None ->
   RRDB_Model size channels cfg_net gc wd name s = (Raise (KeyError "nf"), s))
  /\
  (is_Some (cfg_net !! "nf") -> cfg_net !! "nb" = None ->
   RRDB_Model size channels cfg_net gc wd name s = (Raise (KeyError "nb"), s)).
Proof.
  split.
  - intros Hnf. unfold RRDB_Model. apply bind_raise, getitem_None, Hnf.
  - intros [nf Hnf] Hnb. unfold RRDB_Model.
    erewrite bind_ok by (apply getitem_Some; exact Hnf).
    apply bind_raise, getitem_None, Hnb.
Qed.

Lemma RRDB_Model_KeyError_order_examples :
  (∅ : gmap string Z) !! "nf" = None /\
  RRDB_Model (Some 32) 3 ∅ 32 py_0 "RRDB_model" []
  = (Raise (KeyError "nf"), []) /\
  is_Some (({[ "nf" := 64 ]} : gmap string Z) !! "nf") /\
  ({[ "nf" := 64 ]} : gmap string Z) !! "nb" = None /\
  RRDB_Model (Some 32) 3 {[ "nf" := 64 ]} 32 py_0 "RRDB_model" []
  = (Raise (KeyError "nb"), []).
Proof.
  assert (H1 : is_Some (({[ "nf" := 64 ]} : gmap string Z) !! "nf"))
    by (exists 64; reflexivity).
  split; [reflexivity|].
  split; [exact (proj1 (RRDB_Model_KeyError_order (Some 32) 3 ∅ 32 py_0
                          "RRDB_model" []) eq_refl)|].
  split; [exact H1|]. split; [reflexivity|].
  exact (proj2 (RRDB_Model_KeyError_order (Some 32) 3 {[ "nf" := 64 ]} 32 py_0
                  "RRDB_model" []) H1 eq_refl).
Defined.

(** ** The discriminator, observed *)

Lemma conv_output_length_ceil (n a k : Z) :
  0 < a ->
  conv_output_length (Some ((n + a - 1) / a)) k same 2
  = Some ((n + 2 * a - 1) / (2 * a)).
Proof.
  intros Ha. cbn [conv_output_length]. f_equal.
  replace ((n + a - 1) / a + 2 - 1) with ((n + a - 1 + 1 * a) / a)
    by (rewrite Z.div_add by lia; lia).
  rewrite Z.div_div by lia.
  f_equal; lia.
Qed.

(** X8.  The discriminator does not need a size divisible by 32: for
    every positive size its five stages leave feature maps of
    [size/2], [size/4], [size/8], [size/16] and [size/32] rounded up,
    never empty, and the output is one number per image; with an
    unspecified size the spatial dimensions stay unknown and the
    output is the same. *)
Theorem DiscriminatorVGG128_any_size (size : dim) (channels nf : Z)
    (wd : pyfloat) (name : string) s :
  valid_size size -> 0 < channels -> 0 < nf ->
  exists m s',
    DiscriminatorVGG128 size channels nf wd name s = (Ok m, s') /\
    Model.input_shape m = [None; size; size; Some channels] /\
    map (fun n => get_layer_output_shape n (Model.outputs m))
      ["bn0_1"; "bn1_1"; "bn2_1"; "bn3_1"; "bn4_1"]
    = [Some [None; ceil_div_dim size 2; ceil_div_dim size 2; Some nf];
       Some [None; ceil_div_dim size 4; ceil_div_dim size 4; Some (nf * 2)];
       Some [None; ceil_div_dim size 8; ceil_div_dim size 8; Some (nf * 4)];
       Some [None; ceil_div_dim size 16; ceil_div_dim size 16; Some (nf * 8)];
       Some [None; ceil_div_dim size 32; ceil_div_dim size 32; Some (nf * 8)]]
    /\
    (forall n, ceil_div_dim size 32 = Some n -> 0 < n) /\
    Model.output_shape m = [None; Some 1].
Proof.
  intros Hsize _ Hnf.
  destruct (DiscriminatorVGG128_run size channels nf wd name s Hnf)
    as (m & s' & ls & E & Hin & Hout & _ & _ & Hbn).
  exists m, s'. split; [exact E|]. split; [exact Hin|].
  split; [|split; [|exact Hout]].
  - rewrite Hbn. destruct size as [n|]; [|reflexivity].
    cbn [ceil_div_dim].
    change (conv_output_length (Some n) 4 same 2)
      with (Some ((n + 2 - 1) / 2)).
    rewrite (conv_output_length_ceil n 2) by lia.
    rewrite (conv_output_length_ceil n (2 * 2)) by lia.
    rewrite (conv_output_length_ceil n (2 * (2 * 2))) by lia.
    rewrite (conv_output_length_ceil n (2 * (2 * (2 * 2)))) by lia.
    reflexivity.
  - destruct size as [n|]; [|discriminate]. cbn in Hsize.
    intros k [= <-]. apply Z.div_str_pos. lia.
Qed.

Lemma DiscriminatorVGG128_any_size_100 :
  (valid_size (Some 100) /\ 0 < 3 /\ 0 < 64) /\
  exists m s',
    DiscriminatorVGG128 (Some 100) 3 64 py_0 "Discriminator_VGG_128" []
    = (Ok m, s') /\
    Model.input_shape m = [None; Some 100; Some 100; Some 3] /\
    map (fun n => get_layer_output_shape n (Model.outputs m))
      ["bn0_1"; "bn1_1"; "bn2_1"; "bn3_1"; "bn4_1"]
    = [Some [None; Some 50; Some 50; Some 64];
       Some [None; Some 25; Some 25; Some 128];
       Some [None; Some 13; Some 13; Some 256];
       Some [None; Some 7; Some 7; Some 512];
       Some [None; Some 4; Some 4; Some 512]] /\
    (forall n, ceil_div_dim (Some 100) 32 = Some n -> 0 < n) /\
    Model.output_shape m = [None; Some 1].
Proof.
  split; [repeat split; reflexivity|].
  apply (DiscriminatorVGG128_any_size (Some 100) 3 64); reflexivity.
Defined.

(** X9.  Every layer of the discriminator is set up alike: each
    convolution uses same padding, [_kernel_init()], zero biases, the
    L2 policy of [wd] and no activation of its own; each batch
    normalisation is over the last axis with momentum 0.9 and epsilon
    1e-5, centred, scaled and trainable; the dense unit carries the L2
    policy of [wd]. *)
Theorem DiscriminatorVGG128_layer_settings (size : dim) (channels nf : Z)
    (wd : pyfloat) (name : string) s :
  valid_size size -> 0 < channels -> 0 < nf ->
  exists m s' ls,
    DiscriminatorVGG128 size channels nf wd name s = (Ok m, s') /\
    unchain (Model.outputs m) = (Model.inputs m, ls) /\
    length ls = 21%nat /\
    Forall (disc_layer_settings wd) ls.
Proof.
  intros _ _ Hnf. unfold DiscriminatorVGG128. run_builder.
  eexists _, _, _. split; [reflexivity|]. split; [reflexivity|].
  split; [reflexivity|].
  repeat (apply Forall_cons; split;
          [cbn [disc_layer_settings];
           repeat split; try reflexivity; eexists; reflexivity|]).
  apply Forall_nil_2.
Qed.

Lemma DiscriminatorVGG128_layer_settings_128 :
  (valid_size (Some 128) /\ 0 < 3 /\ 0 < 64) /\
  exists m s' ls,
    DiscriminatorVGG128 (Some 128) 3 64 py_5e_4 "Discriminator_VGG_128" []
    = (Ok m, s') /\
    unchain (Model.outputs m) = (Model.inputs m, ls) /\
    length ls = 21%nat /\
    Forall (disc_layer_settings py_5e_4) ls.
Proof.
  split; [repeat split; reflexivity|].
  apply (DiscriminatorVGG128_layer_settings (Some 128) 3 64); reflexivity.
Defined.

(** ** The blocks on other inputs *)







(** ** The residual connections in single precision *)

(** X11.  On an eager input with [nf] channels both blocks succeed, and
    every element of the output is computed in the single-precision
    arithmetic of the kernels (round to nearest, subnormal operands
    and results flushed to zero) as the sum of [x] and the product of
    the branch with [res_beta] converted to single precision: the
    branch is [x5], the fifth convolution, in the Residual Dense Block,
    and the output of the third inner block in the Residual-in-Residual
    block. *)
Theorem blocks_residual_elementwise
    (conv_fn : Conv2D.t -> ETensor -> res ETensor) (nf gc : Z)
    (res_beta wd : pyfloat) (name : string) s :
  (forall rdb s' (x : ETensor) (b h w : dim),
     ResDenseBlock_5C.__init__ nf gc res_beta wd name s = (Ok rdb, s') ->
     rdb_convs conv_fn nf gc rdb ->
     eshape x = [b; h; w; Some nf] ->
     exists x5 y,
       spec_rdb_branch (ops := eager_ops conv_fn) rdb x = Ok x5 /\
       ResDenseBlock_5C.call (ops := eager_ops conv_fn) rdb x = Ok y /\
       forall idx, in_bounds (eshape x) idx ->
         eget y idx
         = f32_add (f32_mul (eget x5 idx) (f32_of_pyfloat res_beta))
             (eget x idx))
  /\
  (forall rrdb s' (x : ETensor) (b h w : dim),
     ResInResDenseBlock.__init__ nf gc res_beta wd name s = (Ok rrdb, s') ->
     rrdb_convs conv_fn nf gc rrdb ->
     eshape x = [b; h; w; Some nf] ->
     exists o1 o2 o3 y,
       ResDenseBlock_5C.call (ops := eager_ops conv_fn)
         (ResInResDenseBlock.rdb_1 rrdb) x = Ok o1 /\
       ResDenseBlock_5C.call (ops := eager_ops conv_fn)
         (ResInResDenseBlock.rdb_2 rrdb) o1 = Ok o2 /\
       ResDenseBlock_5C.call (ops := eager_ops conv_fn)
         (ResInResDenseBlock.rdb_3 rrdb) o2 = Ok o3 /\
       ResInResDenseBlock.call (ops := eager_ops conv_fn) rrdb x = Ok y /\
       forall idx, in_bounds (eshape x) idx ->
         eget y idx
         = f32_add (f32_mul (eget o3 idx) (f32_of_pyfloat res_beta))
             (eget x idx)).
Proof.
  split.
  - intros rdb s' x b h w E K Hx.
    apply ResDenseBlock_5C_init_inv in E.
    destruct (ResDenseBlock_5C_call_eager conv_fn nf gc res_beta rdb x b h w
                E K Hx) as (x5 & y & E5 & Ey & _ & Hel).
    exists x5, y. auto.
  - intros rrdb s' x b h w E K Hx.
    apply ResInResDenseBlock_init_inv in E.
    destruct (ResInResDenseBlock_call_eager conv_fn nf gc res_beta rrdb x
                b h w E K Hx)
      as (o1 & o2 & o3 & y & E1 & E2 & E3 & _ & _ & _ & Ey & _ & Hel).
    exists o1, o2, o3, y. auto.
Qed.

Lemma blocks_residual_elementwise_ones :
  exists rdb s',
    ResDenseBlock_5C.__init__ 4 2 py_0_2 py_0 "RDB5C" [] = (Ok rdb, s') /\
    rdb_convs (conv_const f32_1) 4 2 rdb /\
    eshape (full [1; 2; 2; 4] f32_1) = [Some 1; Some 2; Some 2; Some 4] /\
    exists x5 y,
      spec_rdb_branch (ops := eager_ops (conv_const f32_1)) rdb
        (full [1; 2; 2; 4] f32_1) = Ok x5 /\
      ResDenseBlock_5C.call (ops := eager_ops (conv_const f32_1)) rdb
        (full [1; 2; 2; 4] f32_1) = Ok y /\
      forall idx, in_bounds (eshape (full [1; 2; 2; 4] f32_1)) idx ->
        eget y idx
        = f32_add (f32_mul (eget x5 idx) (f32_of_pyfloat py_0_2))
            (eget (full [1; 2; 2; 4] f32_1) idx).
Proof.
  destruct (ResDenseBlock_5C_init_built 4 2 py_0_2 py_0 "RDB5C" [])
    as (rdb & s' & E & _); [lia|lia|].
  exists rdb, s'. split; [exact E|].
  split; [apply conv_const_rdb_convs|]. split; [reflexivity|].
  apply (proj1 (blocks_residual_elementwise (conv_const f32_1) 4 2 py_0_2
                  py_0 "RDB5C" [])
           rdb s' _ (Some 1) (Some 2) (Some 2) E);
    [apply conv_const_rdb_convs|reflexivity].
Defined.

Lemma residual_keeps_nonfinite (x o y : ETensor) (beta : float32) :
  (forall idx, in_bounds (eshape x) idx ->
     eget y idx = f32_add (f32_mul (eget o idx) beta) (eget x idx)) ->
  keeps_nonfinite x y.
Proof.
  intros Hel idx Hidx. rewrite (Hel idx Hidx). split.
  - apply f32_add_nonfinite_r.
  - intros ->. apply f32_add_nan_r.
Qed.

Lemma Sequential_call_eager
    (conv_fn : Conv2D.t -> ETensor -> res ETensor) (nf gc : Z)
    (beta : pyfloat) (blocks : list ResInResDenseBlock.t) (b h w : dim) :
  Forall (rrdb_built nf gc beta) blocks ->
  Forall (rrdb_convs conv_fn nf gc) blocks ->
  forall x : ETensor,
    eshape x = [b; h; w; Some nf] ->
    exists y,
      foldl (fun outputs layer =>
               a ← outputs;
               ResInResDenseBlock.call (ops := eager_ops conv_fn) layer a)
        (Ok x) blocks = Ok y /\
      eshape y = eshape x /\ keeps_nonfinite x y.
Proof.
  induction blocks as [|r blocks IH]; intros HB HK x Hx.
  - exists x. split; [reflexivity|]. split; [reflexivity|].
    intros idx _. auto.
  - apply Forall_cons in HB as [B HB]. apply Forall_cons in HK as [K HK].
    destruct (ResInResDenseBlock_call_eager conv_fn nf gc beta r x b h w
                B K Hx)
      as (o1 & o2 & o3 & y1 & _ & _ & _ & _ & _ & _ & Ey1 & Hy1 & Hel).
    assert (Hs1 : eshape y1 = [b; h; w; Some nf]) by congruence.
    destruct (IH HB HK y1 Hs1) as (y & Ey & Hy & Hk).
    exists y. cbn [foldl mbind res_bind]. rewrite Ey1.
    split; [exact Ey|]. split; [congruence|].
    pose proof (residual_keeps_nonfinite x o3 y1 _ Hel) as Hk1.
    intros idx Hidx. destruct (Hk1 idx Hidx) as [F1 N1].
    rewrite <- Hy1 in Hidx. destruct (Hk idx Hidx) as [F2 N2].
    split; auto.
Qed.

(** X12.  Neither block repairs a bad element: on an eager input with
    [nf] channels, the output is infinite or NaN wherever the input is,
    and NaN wherever the input is NaN, whatever the convolutions yield
    and whatever the residual scale. *)
Theorem blocks_keep_nonfinite
    (conv_fn : Conv2D.t -> ETensor -> res ETensor) (nf gc : Z)
    (res_beta wd : pyfloat) (name : string) s :
  (forall rdb s' (x : ETensor) (b h w : dim),
     ResDenseBlock_5C.__init__ nf gc res_beta wd name s = (Ok rdb, s') ->
     rdb_convs conv_fn nf gc rdb ->
     eshape x = [b; h; w; Some nf] ->
     exists y,
       ResDenseBlock_5C.call (ops := eager_ops conv_fn) rdb x = Ok y /\
       keeps_nonfinite x y)
  /\
  (forall rrdb s' (x : ETensor) (b h w : dim),
     ResInResDenseBlock.__init__ nf gc res_beta wd name s = (Ok rrdb, s') ->
     rrdb_convs conv_fn nf gc rrdb ->
     eshape x = [b; h; w; Some nf] ->
     exists y,
       ResInResDenseBlock.call (ops := eager_ops conv_fn) rrdb x = Ok y /\
       keeps_nonfinite x y).
Proof.
  split.
  - intros rdb s' x b h w E K Hx.
    apply ResDenseBlock_5C_init_inv in E.
    destruct (ResDenseBlock_5C_call_eager conv_fn nf gc res_beta rdb x b h w
                E K Hx) as (x5 & y & _ & Ey & _ & Hel).
    exists y. split; [exact Ey|].
    exact (residual_keeps_nonfinite x x5 y _ Hel).
  - intros rrdb s' x b h w E K Hx.
    apply ResInResDenseBlock_init_inv in E.
    destruct (ResInResDenseBlock_call_eager conv_fn nf gc res_beta rrdb x
                b h w E K Hx)
      as (o1 & o2 & o3 & y & _ & _ & _ & _ & _ & _ & Ey & _ & Hel).
    exists y. split; [exact Ey|].
    exact (residual_keeps_nonfinite x o3 y _ Hel).
Qed.

Lemma blocks_keep_nonfinite_nan :
  exists rrdb s',
    ResInResDenseBlock.__init__ 4 2 py_0_2 py_0 "RRDB" [] = (Ok rrdb, s') /\
    rrdb_convs (conv_const f32_1) 4 2 rrdb /\
    eshape (full [1; 2; 2; 4] S754_nan) = [Some 1; Some 2; Some 2; Some 4] /\
    exists y,
      ResInResDenseBlock.call (ops := eager_ops (conv_const f32_1)) rrdb
        (full [1; 2; 2; 4] S754_nan) = Ok y /\
      keeps_nonfinite (full [1; 2; 2; 4] S754_nan) y.
Proof.
  destruct (ResInResDenseBlock_init_built 4 2 py_0_2 py_0 "RRDB" [])
    as (rrdb & s' & E & _); [lia|lia|].
  exists rrdb, s'. split; [exact E|].
  split; [apply conv_const_rrdb_convs|]. split; [reflexivity|].
  apply (proj2 (blocks_keep_nonfinite (conv_const f32_1) 4 2 py_0_2
                  py_0 "RRDB" [])
           rrdb s' _ (Some 1) (Some 2) (Some 2) E);
    [apply conv_const_rrdb_convs|reflexivity].
Defined.

(** X13.  The trunk of the generator, run on an eager feature map with
    [nf] channels, succeeds (its convolutions holding kernels for the
    channels they meet), keeps the shape, and keeps every infinite or
    NaN element of its input away from the finite numbers, for any
    number of blocks. *)
Theorem RRDB_Model_trunk_keeps_nonfinite (size : dim) (channels gc nf nb : Z)
    (cfg_net : gmap string Z) (wd : pyfloat) (name : string) s :
  generator_size size -> 0 < channels -> 0 < nf -> 0 < gc ->
  cfg_net !! "nf" = Some nf -> cfg_net !! "nb" = Some nb ->
  exists m s' trunk,
    RRDB_Model size channels cfg_net gc wd name s = (Ok m, s') /\
    get_layer "RRDB_trunk" (Model.outputs m) = Some (LSequential trunk) /\
    forall conv_fn (x : ETensor) (b h w : dim),
      Forall (rrdb_convs conv_fn nf gc) (Sequential.layers trunk) ->
      eshape x = [b; h; w; Some nf] ->
      exists y,
        Sequential.call (ops := eager_ops conv_fn) trunk x = Ok y /\
        eshape y = eshape x /\ keeps_nonfinite x y.
Proof.
  intros Hsize Hch Hnf' Hgc Hnf Hnb.
  destruct (RRDB_Model_observed size channels cfg_net gc wd name nf nb s
              Hsize Hch Hnf' Hgc Hnf Hnb)
    as (m & s' & blocks & trunk & E & _ & G & L & F & _).
  exists m, s', trunk. split; [exact E|]. split; [exact G|].
  intros conv_fn x b h w K Hx. unfold Sequential.call.
  rewrite L in K |- *.
  exact (Sequential_call_eager conv_fn nf gc py_0_2 blocks b h w F K x Hx).
Qed.

Lemma RRDB_Model_trunk_keeps_nonfinite_32 :
  (generator_size (Some 32) /\ 0 < 3 /\ 0 < 4 /\ 0 < 2) /\
  exists m s' trunk,
    RRDB_Model (Some 32) 3 {[ "nf" := 4; "nb" := 2 ]} 2 py_0 "RRDB_model" []
    = (Ok m, s') /\
    get_layer "RRDB_trunk" (Model.outputs m) = Some (LSequential trunk) /\
    Forall (rrdb_convs (conv_const f32_1) 4 2) (Sequential.layers trunk) /\
    exists y,
      Sequential.call (ops := eager_ops (conv_const f32_1)) trunk
        (full [1; 2; 2; 4] S754_nan) = Ok y /\
      eshape y = eshape (full [1; 2; 2; 4] S754_nan) /\
      keeps_nonfinite (full [1; 2; 2; 4] S754_nan) y.
Proof.
  split; [repeat split; reflexivity|].
  destruct (RRDB_Model_trunk_keeps_nonfinite (Some 32) 3 2 4 2
              {[ "nf" := 4; "nb" := 2 ]} py_0 "RRDB_model" [])
    as (m & s' & trunk & E & G & H); try reflexivity; try (cbn; lia).
  exists m, s', trunk. split; [exact E|]. split; [exact G|].
  assert (K : Forall (rrdb_convs (conv_const f32_1) 4 2)
                (Sequential.layers trunk))
    by (apply Forall_forall; intros r _; apply conv_const_rrdb_convs).
  split; [exact K|].
  exact (H (conv_const f32_1) (full [1; 2; 2; 4] S754_nan)
           (Some 1) (Some 2) (Some 2) K eq_refl).
Defined.

(** ** What the constructors reject *)

Lemma int32_above (n : Z) : 2 ^ 31 <= n -> int32 n = false.
Proof.
  intros H. unfold int32. apply andb_false_iff. right.
  apply Z.ltb_ge. exact H.
Qed.

(** X14.  The generator cannot be built for a size of [2^29] or more:
    the target of an upsampling, two and four times the size, has to
    be an int32 number, and the construction raises [ValueError] at
    the first resize whose target is not. *)
Theorem RRDB_Model_size_out_of_range (sz channels gc nf nb : Z)
    (cfg_net : gmap string Z) (wd : pyfloat) (name : string) s :
  2 ^ 29 <= sz < 2 ^ 31 -> 0 < channels -> 0 < nf -> 0 < gc ->
  cfg_net !! "nf" = Some nf -> cfg_net !! "nb" = Some nb ->
  fst (RRDB_Model (Some sz) channels cfg_net gc wd name s)
  = Raise ValueError.
Proof.
  intros Hsz Hch Hnf' Hgc Hnf Hnb. unfold RRDB_Model.
  erewrite bind_ok by (apply getitem_Some; exact Hnf).
  erewrite bind_ok by (apply getitem_Some; exact Hnb).
  cbv zeta.
  destruct (for_range_rrdb_full nf gc py_0_2 wd (Z.to_nat nb) 0 s Hnf' Hgc)
    as (blocks & E & F & _).
  erewrite bind_ok by exact E.
  generalize (s ++ flat_map rrdb_created (rrdb_names 0 (Z.to_nat nb))).
  intros s1.
  change (2 ^ 29) with 536870912 in *.
  change (2 ^ 31) with 2147483648 in *.
  destruct (Z.lt_ge_cases (sz * 2) 2147483648) as [H2|H2].
  - run_generator nf gc F.
    rewrite (int32_above (sz * 4)) by (change (2 ^ 31) with 2147483648; lia).
    reflexivity.
  - run_generator nf gc F.
    rewrite (int32_above (sz * 2)) by (change (2 ^ 31) with 2147483648; lia).
    reflexivity.
Qed.

Lemma RRDB_Model_size_out_of_range_2_29 :
  (2 ^ 29 <= 536870912 < 2 ^ 31 /\ 0 < 3 /\ 0 < 64 /\ 0 < 32) /\
  fst (RRDB_Model (Some 536870912) 3 {[ "nf" := 64; "nb" := 2 ]} 32 py_0
         "RRDB_model" [])
  = Raise ValueError.
Proof.
  split; [lia|].
  apply (RRDB_Model_size_out_of_range 536870912 3 32 64 2);
    first [reflexivity | lia].
Defined.

(** X15.  Neither block can be built for a number of channels that is
    not positive: the constructor of the first convolution that gets
    it raises [ValueError], in the Residual Dense Block and so in the
    Residual-in-Residual block around it. *)
Theorem blocks_reject_nonpositive (nf gc : Z) (res_beta wd : pyfloat)
    (name : string) s :
  nf <= 0 \/ gc <= 0 ->
  fst (ResDenseBlock_5C.__init__ nf gc res_beta wd name s) = Raise ValueError /\
  fst (ResInResDenseBlock.__init__ nf gc res_beta wd name s)
  = Raise ValueError.
Proof.
  intros H.
  assert (R : forall name s,
             fst (ResDenseBlock_5C.__init__ nf gc res_beta wd name s)
             = Raise ValueError).
  { intros name0 s0. unfold ResDenseBlock_5C.__init__.
    destruct (Z.lt_ge_cases 0 gc) as [Hgc|Hgc].
    - assert (Hnf : nf <= 0) by lia.
      run_builder. rewrite Conv2D_init_raise by lia. reflexivity.
    - run_builder. rewrite Conv2D_init_raise by lia. reflexivity. }
  split; [apply R|].
  unfold ResInResDenseBlock.__init__.
  erewrite bind_ok by reflexivity.
  unfold mbind at 1, M_bind at 1.
  specialize (R "RDB5C"
                (s ++ [{| cr_class := "ResInResDenseBlock";
                          cr_name := Some name |}])).
  destruct (ResDenseBlock_5C.__init__ nf gc res_beta wd "RDB5C" _)
    as [[r|e] s1]; cbn [fst] in R; [discriminate|].
  injection R as ->. reflexivity.
Qed.

Lemma blocks_reject_nonpositive_examples :
  (64 <= 0 \/ 0 <= 0) /\
  fst (ResDenseBlock_5C.__init__ 64 0 py_0_2 py_0 "RDB5C" [])
  = Raise ValueError /\
  (-5 <= 0 \/ 32 <= 0) /\
  fst (ResInResDenseBlock.__init__ (-5) 32 py_0_2 py_0 "RRDB" [])
  = Raise ValueError.
Proof.
  assert (H1 : 64 <= 0 \/ 0 <= 0) by (right; lia).
  assert (H2 : -5 <= 0 \/ 32 <= 0) by (left; lia).
  split; [exact H1|].
  split; [exact (proj1 (blocks_reject_nonpositive 64 0 py_0_2 py_0 "RDB5C" []
                          H1))|].
  split; [exact H2|].
  exact (proj2 (blocks_reject_nonpositive (-5) 32 py_0_2 py_0 "RRDB" [] H2)).
Defined.
